(** * A shallow embedding of the deepfake detector's loss, fusion and
      scheduling logic

    Sources embedded: [network/model.py] (the detector's forward pass),
    [train.py] ([combined_loss], [train_epoch]) and [eval.py]
    ([load_model], [evaluate]).

    Conventions.
    - Python exceptions are values of [exn]; a call that may raise returns
      [res A].
    - Tensor entries are real numbers (arithmetic is exact, rounding is not
      modelled); a scalar produced by a reduction is a [tval], a real or
      the not-a-number that [torch.mean] gives on an empty tensor.
    - The Python floats computed from the two integers [epoch] and
      [max_epochs] are exact rationals, so the phase tests evaluate; a
      product such as [0.1 * 30], which the machine rounds, is exactly 3
      here.
    - A Python [dict] with string keys is a [gmap string _]. *)

From Stdlib Require Import Reals Lqa Lra Lia ZArith QArith Qminmax Qreals List Bool.
From stdpp Require Import gmap strings.
Import ListNotations.

(** ** Python: exceptions, results, dictionaries, calls *)

Module Py.

Inductive exn : Type :=
| KeyError (key : string)
| TypeError (msg : string)
| ValueError (msg : string)
| RuntimeError (msg : string)
| IndexError (msg : string)
| ZeroDivisionError.

Inductive res (A : Type) : Type :=
| Ok (a : A)
| Raise (e : exn).

Arguments Ok {A} a.
Arguments Raise {A} e.

Definition bind {A B : Type} (c : res A) (k : A -> res B) : res B :=
  match c with
  | Ok a => k a
  | Raise e => Raise e
  end.

Notation "'let*' x ':=' c 'in' k" := (bind c (fun x => k))
  (at level 10, x pattern, c at level 100, k at level 200).

Definition is_ok {A : Type} (c : res A) : bool :=
  match c with
  | Ok _ => true
  | Raise _ => false
  end.

(** [for v in xs: acc = body(acc, v)], stopping at the first exception. *)
Fixpoint for_each {A S : Type} (body : S -> A -> res S) (xs : list A) (acc : S) : res S :=
  match xs with
  | [] => Ok acc
  | v :: rest => let* acc' := body acc v in for_each body rest acc'
  end.

(** [[f(v) for v in xs]], stopping at the first exception. *)
Fixpoint map_res {A B : Type} (f : A -> res B) (xs : list A) : res (list B) :=
  match xs with
  | [] => Ok []
  | v :: rest => let* b := f v in let* bs := map_res f rest in Ok (b :: bs)
  end.

(** [d[key]] *)
Definition getitem {V : Type} (d : gmap string V) (key : string) : res V :=
  match d !! key with
  | Some v => Ok v
  | None => Raise (KeyError key)
  end.

End Py.

Import Py.

(** ** The tensor operations the sources use *)

Module Torch.

Local Open Scope R_scope.

(** A scalar result: a real, or the NaN of [0/0]. *)
Inductive tval : Type :=
| Fin (r : R)
| NaN.

Definition tadd (a b : tval) : tval :=
  match a, b with
  | Fin x, Fin y => Fin (x + y)
  | _, _ => NaN
  end.

Definition tsub (a b : tval) : tval :=
  match a, b with
  | Fin x, Fin y => Fin (x - y)
  | _, _ => NaN
  end.

Definition tmul (a b : tval) : tval :=
  match a, b with
  | Fin x, Fin y => Fin (x * y)
  | _, _ => NaN
  end.

(** Division by a real that is known to be non-zero. *)
Definition tdiv_by (a : tval) (d : R) : tval :=
  match a with
  | Fin x => Fin (x / d)
  | NaN => NaN
  end.

(** [torch.relu]: NaN stays NaN. *)
Definition relu (a : tval) : tval :=
  match a with
  | Fin x => Fin (Rmax 0 x)
  | NaN => NaN
  end.

Definition vector := list R.
Definition matrix := list (list R).

Definition rsum (l : list R) : R := fold_right Rplus 0 l.

Definition tsum (l : list tval) : tval := fold_right tadd (Fin 0) l.

(** [torch.mean] of a rank-1 tensor: sum over count, NaN when empty. *)
Definition mean (l : list tval) : tval :=
  match l with
  | [] => NaN
  | _ :: _ => tdiv_by (tsum l) (INR (length l))
  end.

(** [t.mean(dim=1)] of a rank-2 tensor. *)
Definition mean_dim1 (m : matrix) : list tval :=
  map (fun row => mean (map Fin row)) m.

(** [t[mask]] with a boolean mask over the first axis. *)
Definition masked_select {A : Type} (t : list A) (mask : list bool) : res (list A) :=
  if Nat.eqb (length t) (length mask)
  then Ok (map fst (List.filter snd (combine t mask)))
  else Raise (IndexError "The shape of the mask does not match the indexed tensor").

(** [F.one_hot(labels, num_classes=2)]: an integer tensor [[B, 2]].  The
    range check is the one made for tensors on the CPU; for a tensor on a
    CUDA device PyTorch leaves it to the device, which reports it later.
    On class ids, the labels of the loaders, the two agree. *)
Definition one_hot2 (labels : list Z) : res (list (list Z)) :=
  map_res (fun l : Z =>
             if Z.eqb l 0 then Ok [1%Z; 0%Z]
             else if Z.eqb l 1 then Ok [0%Z; 1%Z]
             else Raise (RuntimeError "Class values must be non-negative and smaller than num_classes"))
          labels.

(** [t.float()] of an integer tensor. *)
Definition float (t : list (list Z)) : matrix := map (map IZR) t.

Definition width (m : matrix) : nat :=
  match m with
  | [] => 0%nat
  | row :: _ => length row
  end.

(** [torch.mm(a.t(), b)] for [a : [B, Da]] and [b : [B, Db]]. *)
Definition mm_t (a b : matrix) : res matrix :=
  if Nat.eqb (length a) (length b)
  then Ok (map (fun i =>
                  map (fun j =>
                         rsum (map (fun rows => nth i (fst rows) 0 * nth j (snd rows) 0)
                                   (combine a b)))
                      (seq 0 (width b)))
               (seq 0 (width a)))
  else Raise (RuntimeError "mat1 and mat2 shapes cannot be multiplied").

(** [torch.norm(m)]: the Frobenius norm. *)
Definition norm (m : matrix) : R :=
  sqrt (rsum (map (fun x => x * x) (concat m))).

(** [torch.softmax(m, dim=1)] *)
Definition softmax_row (row : vector) : vector :=
  map (fun x => exp x / rsum (map exp row)) row.

Definition softmax_dim1 (m : matrix) : matrix := map softmax_row m.

(** [nn.Linear(in_features, out_features)]: one weight row and one bias
    per output feature. *)
Record Linear : Type := mkLinear {
  in_features : nat;
  weight : matrix;
  bias : vector
}.

Definition out_features (l : Linear) : nat := length (weight l).

Definition dot (u v : vector) : R := rsum (map (fun p => fst p * snd p) (combine u v)).

Definition linear_row (l : Linear) (row : vector) : res vector :=
  if Nat.eqb (length row) (in_features l)
  then Ok (map (fun wb => dot row (fst wb) + snd wb) (combine (weight l) (bias l)))
  else Raise (RuntimeError "mat1 and mat2 shapes cannot be multiplied").

Definition linear (l : Linear) (m : matrix) : res matrix := map_res (linear_row l) m.

(** [torch.cat([a, b], dim=-1)] for two rank-2 tensors. *)
Definition cat_last (a b : matrix) : res matrix :=
  if Nat.eqb (length a) (length b)
  then Ok (map (fun rows => fst rows ++ snd rows) (combine a b))
  else Raise (RuntimeError "Sizes of tensors must match except in dimension 1").

End Torch.

Import Torch.

(** ** network/model.py *)

Module Model.

Local Open Scope R_scope.

(** One image [[C, H, W]]; a frame batch is [[B, T, C, H, W]]. *)
Definition frame : Type := list (list (list R)).

Record FrameBatch : Type := mkFrameBatch {
  num_frames : nat;
  videos : list (list frame)
}.

(** [x.size(0)] *)
Definition size0 (x : FrameBatch) : nat := length (videos x).

(** [x[:, start_idx:end_idx]] *)
Definition slice_frames (x : FrameBatch) (start_idx end_idx : nat) : FrameBatch :=
  {| num_frames := Nat.min end_idx (num_frames x) - Nat.min start_idx (num_frames x);
     videos := map (fun v => firstn (end_idx - start_idx) (skipn start_idx v)) (videos x) |}.

(** The detector.  [dama] and [tcm] are the feature extractors of
    network/dama.py and network/tcm.py, taken as given functions; the
    classifier head contains a dropout layer and is taken as a function
    too.  The gate is [nn.Linear(dama_dim*2, 2)] followed by
    [nn.Softmax(dim=1)]: two weight rows and two biases. *)
Record DeepfakeDetector : Type := mkDetector {
  dama_dim : nat;
  in_channels : nat;
  batch_size : Z;
  dama : FrameBatch -> Z -> res matrix;
  tcm : FrameBatch -> matrix -> res (gmap string matrix);
  gate_weight : vector * vector;
  gate_bias : R * R;
  classifier : matrix -> res matrix
}.

Definition fusion_gate_0 (self : DeepfakeDetector) : Linear :=
  {| in_features := dama_dim self * 2;
     weight := [fst (gate_weight self); snd (gate_weight self)];
     bias := [fst (gate_bias self); snd (gate_bias self)] |}.

(** [self.fusion_gate(m)] *)
Definition fusion_gate (self : DeepfakeDetector) (m : matrix) : res matrix :=
  let* y := linear (fusion_gate_0 self) m in
  Ok (softmax_dim1 y).

(** [m[:, j]] *)
Definition column (m : matrix) (j : nat) : res vector :=
  map_res (fun row => match nth_error row j with
                      | Some v => Ok v
                      | None => Raise (IndexError "index is out of bounds for dimension 1")
                      end) m.

(** [g.unsqueeze(-1) * m] for [g : [B]] and [m : [B, D]]; the two batch
    sizes must agree (broadcasting of a size-1 batch is not modelled). *)
Definition scale_rows (g : vector) (m : matrix) : res matrix :=
  if Nat.eqb (length g) (length m)
  then Ok (map (fun gr => map (fun v => fst gr * v) (snd gr)) (combine g m))
  else Raise (RuntimeError "The size of tensor a must match the size of tensor b").

(** [a + b] for two rank-2 tensors of one shape (broadcasting of size-1
    axes is not modelled). *)
Definition madd (a b : matrix) : res matrix :=
  if bool_decide (map length a = map length b)
  then Ok (map (fun rows => map (fun p => fst p + snd p) (combine (fst rows) (snd rows)))
               (combine a b))
  else Raise (RuntimeError "The size of tensor a must match the size of tensor b").

(** [torch.mean(torch.stack(ts, dim=0), dim=0)] *)
Definition mean_stack (ts : list matrix) : res matrix :=
  match ts with
  | [] => Raise (RuntimeError "stack expects a non-empty TensorList")
  | t0 :: _ =>
      if forallb (fun t => bool_decide (map length t = map length t0)) ts
      then Ok (map (fun i =>
                      map (fun j =>
                             rsum (map (fun t => nth j (nth i t []) 0) ts) / INR (length ts))
                          (seq 0 (length (nth i t0 []))))
                   (seq 0 (length t0)))
      else Raise (RuntimeError "stack expects each tensor to be equal size")
  end.

(** The gate and the fused features, lines 104-105 (and again 145-146):
    [gate = self.fusion_gate(torch.cat([dama_feats, tcm_feats], dim=-1))],
    [fused_feats = gate[:, 0].unsqueeze(-1) * dama_feats
                   + gate[:, 1].unsqueeze(-1) * tcm_feats]. *)
Definition gated_fusion (self : DeepfakeDetector) (dama_feats tcm_feats : matrix)
  : res (matrix * matrix) :=
  let* cat := cat_last dama_feats tcm_feats in
  let* gate := fusion_gate self cat in
  let* gate0 := column gate 0 in
  let* gate1 := column gate 1 in
  let* part_dama := scale_rows gate0 dama_feats in
  let* part_tcm := scale_rows gate1 tcm_feats in
  let* fused_feats := madd part_dama part_tcm in
  Ok (gate, fused_feats).

Definition _forward_single_gpu (self : DeepfakeDetector) (x : FrameBatch) (batch_size : Z)
  : res (gmap string matrix) :=
  let* dama_feats := dama self x batch_size in
  let* tcm_outputs := tcm self x dama_feats in
  let* tcm_consistency := getitem tcm_outputs "consistency_score" in
  let* tcm_feats := getitem tcm_outputs "tcm_features" in
  let* fusion := gated_fusion self dama_feats tcm_feats in
  let fused_feats := snd fusion in
  let* logits := classifier self fused_feats in
  Ok (<["logits" := logits]>
      (<["dama_feats" := dama_feats]>
       (<["tcm_consistency" := tcm_consistency]> ∅))).

(** The body of [for gpu_id in range(num_gpus)]: [process] stands for the
    work done on one shard, [all] for the list the loop appends to. *)
Fixpoint shard_loop {A : Type} (process : nat -> nat -> nat -> res A)
    (frames_per_gpu remainder : nat) (gpu_ids : list nat)
    (start_idx : nat) (all : list A) : res (list A) :=
  match gpu_ids with
  | [] => Ok all
  | gpu_id :: rest =>
      let current_frames :=
        if Nat.ltb gpu_id remainder then (frames_per_gpu + 1)%nat else frames_per_gpu in
      if Nat.leb current_frames 0
      then shard_loop process frames_per_gpu remainder rest start_idx all
      else
        let end_idx := (start_idx + current_frames)%nat in
        let* result := process gpu_id start_idx end_idx in
        shard_loop process frames_per_gpu remainder rest end_idx (all ++ [result])
  end.

(** [forward]; [num_gpus] is what [torch.cuda.device_count()] returns.
    The extractor run on a shard is a new instance loaded with the
    parameters of [self.dama]: the same function. *)
Definition forward (self : DeepfakeDetector) (num_gpus : nat) (x : FrameBatch) (batch_size : Z)
  : res (gmap string matrix) :=
  let T := num_frames x in
  if Nat.leb num_gpus 1 then _forward_single_gpu self x batch_size
  else
    let frames_per_gpu := (T / num_gpus)%nat in
    let remainder := (T mod num_gpus)%nat in
    let* all_dama_feats :=
      shard_loop (fun gpu_id start_idx end_idx =>
                    dama self (slice_frames x start_idx end_idx) batch_size)
                 frames_per_gpu remainder (seq 0 num_gpus) 0%nat [] in
    let* dama_feats := mean_stack all_dama_feats in
    let* tcm_outputs := tcm self x dama_feats in
    let* tcm_consistency := getitem tcm_outputs "consistency_score" in
    let* tcm_feats := getitem tcm_outputs "tcm_features" in
    let* fusion := gated_fusion self dama_feats tcm_feats in
    let fused_feats := snd fusion in
    let* logits := classifier self fused_feats in
    Ok (<["logits" := logits]>
        (<["dama_feats" := dama_feats]>
         (<["tcm_consistency" := tcm_consistency]> ∅))).

(** The shards the dispatcher makes of [T] frames on [G] devices: the
    loop above, recording each shard instead of running the extractor. *)
Record shard : Type := mkShard {
  gpu_id : nat;
  start_idx : nat;
  end_idx : nat
}.

Definition shard_size (s : shard) : nat := end_idx s - start_idx s.

Definition shards (T G : nat) : res (list shard) :=
  shard_loop (fun g s e => Ok (mkShard g s e)) (T / G) (T mod G) (seq 0 G) 0 [].

(** Calling the module: Python binds the positional and keyword arguments
    of the call to the parameters [(x, batch_size)] of [forward]. *)
Inductive pyval : Type :=
| VFrames (x : FrameBatch)
| VInt (n : Z)
| VStr (s : string).

Definition forward_params : list string := ["x"; "batch_size"]%string.

Fixpoint bind_keywords (params : list string) (env : gmap string pyval)
    (kwargs : list (string * pyval)) : res (gmap string pyval) :=
  match kwargs with
  | [] => Ok env
  | (k, v) :: rest =>
      if negb (existsb (String.eqb k) params)
      then Raise (TypeError ("forward() got an unexpected keyword argument '" ++ k ++ "'"))
      else match env !! k with
           | Some _ => Raise (TypeError ("forward() got multiple values for argument '" ++ k ++ "'"))
           | None => bind_keywords params (<[k := v]> env) rest
           end
  end.

Definition bind_arguments (params : list string) (args : list pyval)
    (kwargs : list (string * pyval)) : res (gmap string pyval) :=
  let positional : gmap string pyval := list_to_map (combine params args) in
  let* env := bind_keywords params positional kwargs in
  if Nat.ltb (length params) (length args)
  then Raise (TypeError "forward() takes 3 positional arguments but more were given")
  else match List.find (fun p => match env !! p with Some _ => false | None => true end) params with
       | Some p => Raise (TypeError ("forward() missing 1 required positional argument: '" ++ p ++ "'"))
       | None => Ok env
       end.

(** Calling a [DeepfakeDetector] with positional and keyword arguments. *)
Definition call (self : DeepfakeDetector) (num_gpus : nat)
    (args : list pyval) (kwargs : list (string * pyval)) : res (gmap string matrix) :=
  let* env := bind_arguments forward_params args kwargs in
  match env !! "x"%string, env !! "batch_size"%string with
  | Some (VFrames x), Some (VInt batch_size) => forward self num_gpus x batch_size
  | _, _ => Raise (TypeError "forward() got an argument of an unexpected type")
  end.

End Model.

Import Model.

(** ** train.py *)

Module Train.

(** *** The staged loss *)

(** [a < b] on Python floats. *)
Definition Qltb (a b : Q) : bool := negb (Qle_bool b a).

(** The right-hand side of line 86:
    [0.3 * min(1.0, (epoch-0.2*max_epochs)/(0.8*max_epochs))].  The
    division raises when [max_epochs] is 0; [combined_loss] tests that
    before it uses this value. *)
Definition ramp (epoch max_epochs : Z) : Q :=
  0.3 * Qmin 1 ((inject_Z epoch - 0.2 * inject_Z max_epochs) / (0.8 * inject_Z max_epochs)).

(** The diagnostics dictionary [combined_loss] returns with the loss. *)
Definition losses_dict (cls_loss incons_loss orth_loss : tval) : gmap string tval :=
  <["cls_loss" := cls_loss]> (<["incons_loss" := incons_loss]> (<["orth_loss" := orth_loss]> ∅)).

(** [combined_loss(outputs, labels, criterion, epoch, max_epochs)].
    The mask [labels[:, 0] == 1.0] is read off the integer one-hot tensor:
    [.float()] is exact on 0 and 1. *)
Definition combined_loss (outputs : gmap string matrix) (labels : list Z)
    (criterion : matrix -> matrix -> res tval) (epoch max_epochs : Z)
  : res (tval * gmap string tval) :=
  let e := inject_Z epoch in
  let m := inject_Z max_epochs in
  let* logits := getitem outputs "logits" in
  let* labels := one_hot2 labels in
  let* incons_scores := getitem outputs "tcm_inconsistency" in
  if Qltb e (0.1 * m) then
    let* cls_loss := criterion logits (float labels) in
    let incons_loss := Fin 0 in
    Ok (cls_loss, losses_dict cls_loss incons_loss (Fin 0))
  else
    let* phase :=
      if Qle_bool (0.1 * m) e && Qltb e (0.2 * m) then
        let* cls_loss := criterion logits (float labels) in
        Ok (cls_loss, 0%Q, Fin 0)
      else
        let* cls_loss := criterion logits (float labels) in
        let incons_scores := mean_dim1 incons_scores in
        let real_mask := map (fun row => Z.eqb (nth 0 row 0%Z) 1) labels in
        let fake_mask := map negb real_mask in
        let* real_scores := masked_select incons_scores real_mask in
        let term1 := relu (tsub (mean real_scores) (Fin 0.1)) in
        let* fake_scores := masked_select incons_scores fake_mask in
        let term2 := relu (tsub (Fin 0.3) (mean fake_scores)) in
        let incons_loss := tadd term1 term2 in
        if Qeq_bool (0.8 * m) 0 then Raise ZeroDivisionError
        else Ok (cls_loss, ramp epoch max_epochs, incons_loss) in
    let '(cls_loss, dynamic_weight, incons_loss) := phase in
    let* dama_feats := getitem outputs "dama_feats" in
    let* tcm_feats := getitem outputs "tcm_feats" in
    let* product := mm_t dama_feats tcm_feats in
    let loss_orth := Fin ((norm product) ^ 2) in
    Ok (tadd (tadd cls_loss (tmul (Fin (Q2R dynamic_weight)) incons_loss))
             (tmul (Fin 0.01) loss_orth),
        losses_dict cls_loss incons_loss loss_orth).

(** *** The train driver *)

(** One batch of the loader: the frames and their labels. *)
Record batch : Type := mkBatch {
  frames : FrameBatch;
  labels : list Z
}.

(** [len(dataloader.dataset)]: the number of samples.  The loaders are
    built without [drop_last], so every sample is in one batch. *)
Definition dataset_len (dataloader : list batch) : nat :=
  fold_right Nat.add 0%nat (map (fun b => size0 (frames b)) dataloader).

(** A model is called with positional and keyword arguments.  It is one
    function for all the batches of an epoch: the dropout of training mode
    and the change of the parameters at each optimizer step are not
    modelled, so nothing is claimed that compares the outputs of two
    calls. *)
Definition callable : Type :=
  list pyval -> list (string * pyval) -> res (gmap string matrix).

(** What happens to the optimizer and the gradients, in order. *)
Inductive event : Type :=
| ZeroGrad
| Backward (batch_no : nat)
| Step (batches_done : nat).

Record running : Type := mkRunning {
  running_loss : tval;
  running_cls_loss : tval;
  running_cons_loss : tval;
  preds_all : list R;
  labels_all : list Z
}.

(** Lines 122-129: the running sums and the collected predictions. *)
Definition accumulate (st : running) (loss : tval) (losses : gmap string tval)
    (outputs : gmap string matrix) (b : batch) : res running :=
  let n := Fin (INR (size0 (frames b))) in
  let running_loss := tadd (running_loss st) (tmul loss n) in
  let* cls := getitem losses "cls_loss" in
  let running_cls_loss := tadd (running_cls_loss st) (tmul cls n) in
  let* incons := getitem losses "incons_loss" in
  let running_cons_loss := tadd (running_cons_loss st) (tmul incons n) in
  let* logits := getitem outputs "logits" in
  let* preds := column (softmax_dim1 logits) 1 in
  Ok (mkRunning running_loss running_cls_loss running_cons_loss
                (preds_all st ++ preds) (labels_all st ++ labels b)).

(** The loop of [train_epoch], from batch index [i] on.  The optimizer is
    changed in place, so its events stay when a later statement raises. *)
Fixpoint train_loop (model : callable) (criterion : matrix -> matrix -> res tval)
    (batch_size accum_steps epoch max_epochs : Z)
    (batches : list batch) (i : nat) (st : running) (log : list event)
  : res running * list event :=
  match batches with
  | [] => (Ok st, log)
  | b :: rest =>
      match (let* outputs := model [VFrames (frames b)] [("batch_size"%string, VInt batch_size)] in
             let* result := combined_loss outputs (labels b) criterion epoch max_epochs in
             Ok (outputs, result)) with
      | Raise err => (Raise err, log)
      | Ok (outputs, (loss, losses)) =>
          let loss := tdiv_by loss (IZR accum_steps) in
          let log := log ++ [Backward (S i)] in
          if Z.eqb accum_steps 0 then (Raise ZeroDivisionError, log)
          else
            let log :=
              if Z.eqb (Z.of_nat (S i) mod accum_steps) 0
              then log ++ [Step (S i); ZeroGrad]
              else log in
            match accumulate st loss losses outputs b with
            | Raise err => (Raise err, log)
            | Ok st' =>
                train_loop model criterion batch_size accum_steps epoch max_epochs
                           rest (S i) st' log
            end
      end
  end.

Section Metrics.

(** The two scikit-learn metrics, as given functions. *)
Variable roc_auc_score : list Z -> list R -> res R.
Variable accuracy_score : list Z -> list Z -> res R.

Definition epoch_metrics (st : running) (n : nat) : res (gmap string tval) :=
  if Nat.eqb n 0 then Raise ZeroDivisionError
  else
    let epoch_loss := tdiv_by (running_loss st) (INR n) in
    let epoch_cls_loss := tdiv_by (running_cls_loss st) (INR n) in
    let epoch_cons_loss := tdiv_by (running_cons_loss st) (INR n) in
    let* epoch_auc := roc_auc_score (labels_all st) (preds_all st) in
    let* epoch_acc :=
      accuracy_score (labels_all st)
                     (map (fun p => if Rle_dec (1 / 2) p then 1%Z else 0%Z) (preds_all st)) in
    Ok (<["loss" := epoch_loss]>
        (<["cls_loss" := epoch_cls_loss]>
         (<["incons_loss" := epoch_cons_loss]>
          (<["auc" := Fin epoch_auc]>
           (<["acc" := Fin epoch_acc]> ∅))))).

(** [train_epoch]: the metrics (or the exception) and the optimizer's
    events. *)
Definition train_epoch (model : callable) (dataloader : list batch)
    (criterion : matrix -> matrix -> res tval)
    (batch_size accum_steps epoch max_epochs : Z)
  : res (gmap string tval) * list event :=
  let st0 := mkRunning (Fin 0) (Fin 0) (Fin 0) [] [] in
  match train_loop model criterion batch_size accum_steps epoch max_epochs
                   dataloader 0 st0 [ZeroGrad] with
  | (Raise err, log) => (Raise err, log)
  | (Ok st, log) =>
      if Z.eqb accum_steps 0 then (Raise ZeroDivisionError, log)
      else
        let log :=
          if negb (Z.eqb (Z.of_nat (dataset_len dataloader) mod accum_steps) 0)
          then log ++ [Step (length dataloader); ZeroGrad]
          else log in
        (epoch_metrics st (dataset_len dataloader), log)
  end.

(** The body of the loop of [val_epoch], lines 159-171. *)
Definition val_batch (model : callable) (criterion : matrix -> matrix -> res tval)
    (batch_size epoch max_epochs : Z) (st : running) (b : batch) : res running :=
  let* outputs := model [VFrames (frames b)] [("batch_size"%string, VInt batch_size)] in
  let* result := combined_loss outputs (labels b) criterion epoch max_epochs in
  let '(loss, losses) := result in
  accumulate st loss losses outputs b.

(** [val_epoch]: no gradient, no optimizer. *)
Definition val_epoch (model : callable) (dataloader : list batch)
    (criterion : matrix -> matrix -> res tval)
    (batch_size epoch max_epochs : Z) : res (gmap string tval) :=
  let* st := for_each (val_batch model criterion batch_size epoch max_epochs) dataloader
                      (mkRunning (Fin 0) (Fin 0) (Fin 0) [] []) in
  epoch_metrics st (dataset_len dataloader).

End Metrics.

(** The batches after which the optimizer stepped. *)
Definition steps (log : list event) : list nat :=
  flat_map (fun ev => match ev with Step n => [n] | _ => [] end) log.

(** *** The epoch loop of [main], lines 280-337

    The parameters of the model change from one epoch to the next, so the
    two drivers are taken per epoch: [train_epoch_at epoch] is the call
    [train_epoch(model, train_loader, ..., epoch, args.epochs)] of line
    292 and [val_epoch_at epoch] the call of line 297.  The unfreezing of
    the backbones and the plots are code outside these files and are given
    functions too.  [torch.save] is taken to succeed. *)

(** What the loop leaves behind: the variable [best_val_auc]; the epoch
    whose parameters [best_model.pth] holds, if the file was written; the
    checkpoints [checkpoint_{epoch+1}.pth] in the order they were written,
    each with its ['epoch'] and its ['best_val_auc']; the epochs at which
    the backbones were unfrozen. *)
Record outcome : Type := mkOutcome {
  best_val_auc : R;
  best_model : option nat;
  checkpoints : list (nat * R);
  unfrozen : list nat
}.

(** [val_metrics['auc'] > best_val_auc]: false for NaN. *)
Definition gt (a : tval) (b : R) : bool :=
  match a with
  | Fin x => if Rlt_dec b x then true else false
  | NaN => false
  end.

(** [epoch >= 0.7 * args.epochs], over the rationals as in
    [combined_loss]: the product is a whole number or a tenth away from
    one, far more than the rounding of the double 0.7 moves it. *)
Definition unfreeze_due (epoch : nat) (epochs : Z) : bool :=
  Qle_bool (0.7 * inject_Z epochs)%Q (inject_Z (Z.of_nat epoch)).

(** The values the two [print] calls of lines 317-323 read. *)
Definition print_metrics (train_metrics val_metrics : gmap string tval) : res unit :=
  let* _ := getitem train_metrics "loss" in
  let* _ := getitem train_metrics "auc" in
  let* _ := getitem train_metrics "acc" in
  let* _ := getitem val_metrics "loss" in
  let* _ := getitem val_metrics "auc" in
  let* _ := getitem val_metrics "acc" in
  Ok tt.

Section Main.

Variable train_epoch_at : nat -> res (gmap string tval).
Variable val_epoch_at : nat -> res (gmap string tval).
Variable unfreeze : nat -> res unit.
Variable train_viz_update : nat -> gmap string tval -> gmap string tval -> res unit.
Variable train_viz_plot_all : res unit.

(** One pass through the body of the loop.  The files written and
    [best_val_auc] stay when a later statement raises. *)
Definition main_epoch (epochs : Z) (st : outcome) (epoch : nat) : outcome * option exn :=
  match (if unfreeze_due epoch epochs then unfreeze epoch else Ok tt) with
  | Raise err => (st, Some err)
  | Ok _ =>
  let st :=
    if unfreeze_due epoch epochs
    then mkOutcome (best_val_auc st) (best_model st) (checkpoints st) (unfrozen st ++ [epoch])
    else st in
  match train_epoch_at epoch with
  | Raise err => (st, Some err)
  | Ok train_metrics =>
  match val_epoch_at epoch with
  | Raise err => (st, Some err)
  | Ok val_metrics =>
  match getitem val_metrics "auc" with
  | Raise err => (st, Some err)
  | Ok auc =>
  let st :=
    match auc with
    | Fin a =>
        if gt auc (best_val_auc st)
        then mkOutcome a (Some epoch) (checkpoints st) (unfrozen st)
        else st
    | NaN => st
    end in
  let st :=
    mkOutcome (best_val_auc st) (best_model st)
              (checkpoints st ++ [(epoch, best_val_auc st)]) (unfrozen st) in
  match print_metrics train_metrics val_metrics with
  | Raise err => (st, Some err)
  | Ok _ =>
  match train_viz_update epoch train_metrics val_metrics with
  | Raise err => (st, Some err)
  | Ok _ =>
  match (if Nat.eqb ((epoch + 1) mod 2) 0 then train_viz_plot_all else Ok tt) with
  | Raise err => (st, Some err)
  | Ok _ => (st, None)
  end end end end end end end.

(** [for epoch in todo: ...], stopping at the first exception. *)
Fixpoint epoch_loop (epochs : Z) (todo : list nat) (st : outcome) : outcome * option exn :=
  match todo with
  | [] => (st, None)
  | epoch :: rest =>
      match main_epoch epochs st epoch with
      | (st', Some err) => (st', Some err)
      | (st', None) => epoch_loop epochs rest st'
      end
  end.

(** Lines 280-337: [best_val_auc = 0.0] and the loop over
    [range(args.epochs)]. *)
Definition main (epochs : Z) : outcome * option exn :=
  epoch_loop epochs (seq 0 (Z.to_nat epochs)) (mkOutcome 0 None [] []).

End Main.


End Train.

Import Train.

(** ** eval.py *)

Module Eval.

Local Open Scope R_scope.

(** *** Checkpoints *)

(** A parameter tensor: its shape and its entries. *)
Record param : Type := mkParam {
  shape : list nat;
  data : list R
}.

(** What [torch.load] can give back: a tensor, a number, or a dictionary
    of such objects (the items in insertion order, keys distinct). *)
#[local] Unset Elimination Schemes.

Inductive pyobj : Type :=
| OTensor (t : param)
| ONumber (r : R)
| ODict (items : list (string * pyobj)).

#[local] Set Elimination Schemes.

(** [key in d] and [d[key]] on the items of a dictionary. *)
Definition contains (items : list (string * pyobj)) (key : string) : bool :=
  existsb (fun kv => String.eqb (fst kv) key) items.

Definition item (items : list (string * pyobj)) (key : string) : res pyobj :=
  match List.find (fun kv => String.eqb (fst kv) key) items with
  | Some kv => Ok (snd kv)
  | None => Raise (KeyError key)
  end.

(** What [load_state_dict] does with one parameter of the module: a key
    that is absent from the state dictionary leaves the parameter as it is
    (not an error when [strict=False]); a tensor of the parameter's shape
    is copied; anything else is an error. *)
Definition load_param (items : list (string * pyobj)) (name : string) (p : param)
  : param * bool :=
  match item items name with
  | Raise _ => (p, true)
  | Ok (OTensor t) => if bool_decide (shape t = shape p) then (t, true) else (p, false)
  | Ok _ => (p, false)
  end.

(** [module.load_state_dict(state_dict, strict=False)] of PyTorch, on the
    parameters of the module: keys of [state_dict] that name no parameter
    are ignored.  The module is changed in place: the result is its
    parameters after the call, and the exception if one is raised. *)
Definition load_state_dict (module : gmap string param) (state_dict : pyobj)
  : gmap string param * option exn :=
  match state_dict with
  | ODict items =>
      let module' := map_imap (fun name p => Some (fst (load_param items name p))) module in
      if forallb (fun np => snd (load_param items (fst np) (snd np))) (map_to_list module)
      then (module', None)
      else (module', Some (RuntimeError "Error(s) in loading state_dict"))
  | _ => (module, Some (TypeError "Expected state_dict to be dict-like"))
  end.

(** [load_model(model_path, dim, device)].  [torch_load] is the file
    system seen through [torch.load]; [fresh] holds the parameters of the
    newly built [DeepfakeDetector]. *)
Definition load_model (torch_load : string -> res pyobj) (fresh : gmap string param)
    (model_path : string) : res (gmap string param) :=
  let attempt :=
    match torch_load model_path with
    | Raise err => (fresh, Some err)
    | Ok blob => load_state_dict fresh blob
    end in
  match attempt with
  | (model, None) => Ok model
  | (model, Some _) =>
      let* checkpoint := torch_load model_path in
      match checkpoint with
      | ODict items =>
          if contains items "model_state_dict" then
            let* state := item items "model_state_dict" in
            match load_state_dict model state with
            | (model', None) => Ok model'
            | (_, Some err) => Raise err
            end
          else if contains items "state_dict" then
            let* state := item items "state_dict" in
            match load_state_dict model state with
            | (model', None) => Ok model'
            | (_, Some err) => Raise err
            end
          else Raise (ValueError ("Could not load model from " ++ model_path))
      | OTensor _ =>
          Raise (RuntimeError "Tensor.__contains__ only supports Tensor or scalar")
      | ONumber _ => Raise (TypeError "argument of type 'float' is not iterable")
      end
  end.

(** *** The evaluation driver *)

Record totals : Type := mkTotals {
  test_loss : tval;
  test_orth_loss : list tval;
  all_preds : matrix;
  all_labels : list Z
}.

Definition sigmoid (x : R) : R := 1 / (1 + exp (- x)).

Section Evaluate.

(** [torch.nn.BCEWithLogitsLoss()], which [evaluate] builds itself at line
    114, and the scikit-learn metrics computed from the labels, the
    thresholded and the raw predictions, as given functions.  What is
    proved from the size check of the criterion assumes it of this one. *)
Variable BCEWithLogitsLoss : matrix -> matrix -> res tval.
Variable sklearn_metrics : list Z -> list Z -> matrix -> res (gmap string tval).

(** The body of the loop of [evaluate], lines 120-132. *)
Definition evaluate_batch (model : callable) (args_batch_size : Z)
    (acc : totals) (b : batch) : res totals :=
  let* outputs :=
    model [VFrames (frames b)]
          [("batch_size"%string, VInt args_batch_size);
           ("ablation"%string, VStr "dynamic")] in
  let* result := combined_loss outputs (labels b) BCEWithLogitsLoss 1 1 in
  let '(loss, losses) := result in
  let test_loss := tadd (test_loss acc) (tmul loss (Fin (INR (size0 (frames b))))) in
  let* logits := getitem outputs "logits" in
  let probs := map (map sigmoid) logits in
  let* orth := getitem losses "orth_loss" in
  Ok (mkTotals test_loss (test_orth_loss acc ++ [orth])
               (all_preds acc ++ probs) (all_labels acc ++ labels b)).

(** [evaluate(model, dataloader, device, args)].  A prediction is a row of
    the [[B, 2]] probabilities; [p >= 0.5] has a truth value only for a row
    of one entry. *)
Definition evaluate (model : callable) (dataloader : list batch) (args_batch_size : Z)
  : res (gmap string tval * matrix * list Z) :=
  let* acc := for_each (evaluate_batch model args_batch_size) dataloader
                       (mkTotals (Fin 0) [] [] []) in
  if Nat.eqb (dataset_len dataloader) 0 then Raise ZeroDivisionError
  else
    let test_loss := tdiv_by (test_loss acc) (INR (dataset_len dataloader)) in
    let* binary_preds :=
      map_res (fun p : vector =>
                 match p with
                 | [v] => Ok (if Rle_dec (1 / 2) v then 1%Z else 0%Z)
                 | _ => Raise (ValueError "The truth value of an array is ambiguous")
                 end) (all_preds acc) in
    let* metrics := sklearn_metrics (all_labels acc) binary_preds (all_preds acc) in
    Ok (<["loss" := test_loss]> metrics, all_preds acc, all_labels acc).

End Evaluate.

End Eval.

Import Eval.

(** ** test.py *)

Module Test.

(** [torch.sigmoid(outputs['logits'].squeeze())[i].item()], lines 178 and
    181.  [squeeze] drops every dimension of size one: of a [[1, 1]]
    tensor nothing is left to index, of a [[1, C]] tensor the row is left,
    and a row of a tensor that stays two-dimensional is a number only
    when it has one entry. *)
Definition fake_prob (logits : matrix) (i : nat) : res R :=
  match logits with
  | [[_]] => Raise (IndexError "invalid index of a 0-dim tensor")
  | [row] =>
      match nth_error row i with
      | Some v => Ok (sigmoid v)
      | None => Raise (IndexError "index out of bounds")
      end
  | _ =>
      match nth_error logits i with
      | Some [v] => Ok (sigmoid v)
      | Some _ => Raise (RuntimeError "a Tensor with several elements cannot be converted to Scalar")
      | None => Raise (IndexError "index out of bounds")
      end
  end.

Section TestModel.

(** Lines 67-117, the construction of the model and of one batch from the
    dataset, and lines 122-137, the checks of the sub-modules, are code
    outside these files and are given; [torch.nn.BCEWithLogitsLoss()] is
    given as in eval.py. *)
Variable load_samples : res (FrameBatch * list Z).
Variable check_modules : FrameBatch -> res unit.
Variable BCEWithLogitsLoss : matrix -> matrix -> res tval.

(** [test_model(args)]: [True] when the body of the [try] runs to its
    end, [False] when it raises. *)
Definition test_model (model : callable) (max_epoch : Z) : bool :=
  let batch_size := 8%Z in
  match (let* sample := load_samples in
         let '(frames, labels) := sample in
         let* _ := check_modules frames in
         let* outputs :=
           model [VFrames frames]
                 [("batch_size"%string, VInt batch_size);
                  ("ablation"%string, VStr "dynamic")] in
         let* _ := getitem outputs "logits" in
         let* _ := combined_loss outputs labels BCEWithLogitsLoss 5 max_epoch in
         let* logits := getitem outputs "logits" in
         let* _ := map_res (fake_prob logits) (seq 0 (length labels)) in
         Ok tt) with
  | Ok _ => true
  | Raise _ => false
  end.

End TestModel.

End Test.

Import Test.

(** ** Notions used to state the properties *)

(** A small detector to run the definitions on: one feature per video,
    constant extractors, the gate weights of the identity. *)
Definition toy_detector : DeepfakeDetector :=
  {| dama_dim := 1;
     in_channels := 3;
     batch_size := 2;
     dama := fun x _ => Ok (map (fun _ => [1%R]) (videos x));
     tcm := fun x _ =>
       Ok (<["consistency_score" := map (fun _ => [0%R]) (videos x)]>
           (<["tcm_features" := map (fun _ => [2%R]) (videos x)]> ∅));
     gate_weight := ([1%R; 0%R], [0%R; 1%R]);
     gate_bias := (0%R, 0%R);
     classifier := fun m => Ok (map (fun _ => [0%R; 0%R]) m) |}.

(** The frames the loop assigns to device [g]: [frames_per_gpu], plus one
    for the first [remainder] devices. *)
Definition assigned (T G g : nat) : nat :=
  if Nat.ltb g (T mod G) then (T / G + 1)%nat else (T / G)%nat.

(** Two videos of four (empty) frames each. *)
Definition toy_frames : FrameBatch :=
  mkFrameBatch 4 [[[]; []; []; []]; [[]; []; []; []]].

(** A criterion that always returns 1. *)
Definition toy_criterion (logits onehot : matrix) : res tval := Ok (Fin 1).

(** The progress ratio [p = epoch / max_epochs]. *)
Definition progress (epoch max_epochs : Z) : Q := inject_Z epoch / inject_Z max_epochs.

(** The ramp weight as the specification writes it, for a progress [p]:
    [0.3 * min(1, (p - 0.2) / 0.8)]. *)
Definition ramp_of_progress (p : Q) : Q := 0.3 * Qmin 1 ((p - 0.2) / 0.8).

(** The per-video scores [incons_scores.mean(dim=1)] of the videos whose
    label satisfies [keep]. *)
Definition scores_where (keep : Z -> bool) (labels : list Z) (scores : matrix) : list tval :=
  map fst (List.filter snd (combine (mean_dim1 scores) (map keep labels))).

(** The two hinge terms of the consistency loss. *)
Definition term1 (labels : list Z) (scores : matrix) : tval :=
  relu (tsub (mean (scores_where (fun l => Z.eqb l 0) labels scores)) (Fin 0.1)).

Definition term2 (labels : list Z) (scores : matrix) : tval :=
  relu (tsub (Fin 0.3) (mean (scores_where (fun l => negb (Z.eqb l 0)) labels scores))).

(** A bundle with every key [combined_loss] reads, for one video. *)
Definition toy_bundle : gmap string matrix :=
  <["logits" := [[0; 0]]%R]>
  (<["tcm_inconsistency" := [[1 / 2]]%R]>
   (<["dama_feats" := [[1]]%R]>
    (<["tcm_feats" := [[2]]%R]> ∅))).

(** A model whose output has every key [combined_loss] reads, one row
    per video of the batch. *)
Definition complete_model : callable :=
  fun args kwargs =>
    match args with
    | [VFrames x] =>
        let n := size0 x in
        Ok (<["logits" := repeat [0; 0]%R n]>
            (<["tcm_inconsistency" := repeat [1 / 2]%R n]>
             (<["dama_feats" := repeat [1%R] n]>
              (<["tcm_feats" := repeat [2%R] n]> ∅))))
    | _ => Raise (TypeError "forward() got an argument of an unexpected type")
    end.

(** A batch of three videos. *)
Definition toy_batch : batch :=
  mkBatch (mkFrameBatch 4 [[[]; []; []; []]; [[]; []; []; []]; [[]; []; []; []]])
          [0; 1; 0]%Z.

(** The metrics of one epoch over [toy_batch] alone, with
    [accum_steps = 2], a classification loss of 1 and both scikit-learn
    metrics equal to 1. *)
Definition toy_metrics : gmap string tval :=
  <["loss" := Fin ((0 + 1 / 2 * INR 3) / INR 3)]>
  (<["cls_loss" := Fin ((0 + 1 * INR 3) / INR 3)]>
   (<["incons_loss" := Fin ((0 + 0 * INR 3) / INR 3)]>
    (<["auc" := Fin 1]> (<["acc" := Fin 1]> ∅)))).

(** A freshly built module with one parameter, the state dictionary of its
    trained version, and the trained parameters. *)
Definition fresh_params : gmap string param :=
  {["fusion_gate.0.bias"%string := mkParam [2%nat] [0; 0]%R]}.

Definition trained_state : list (string * pyobj) :=
  [("fusion_gate.0.bias"%string, OTensor (mkParam [2%nat] [1; 2]%R))].

Definition trained_params : gmap string param :=
  {["fusion_gate.0.bias"%string := mkParam [2%nat] [1; 2]%R]}.

(** A saved blob that holds the state dictionary under ['state_dict']
    only, and a checkpoint as train.py writes it after every epoch. *)
Definition state_dict_blob : pyobj :=
  ODict [("state_dict"%string, ODict trained_state)].

Definition epoch_checkpoint : pyobj :=
  ODict [("epoch"%string, ONumber 3);
         ("model_state_dict"%string, ODict trained_state);
         ("optimizer_state_dict"%string, ODict []);
         ("scheduler_state_dict"%string, ODict []);
         ("best_val_auc"%string, ONumber (9 / 10))].

(** What one batch contributes to the epoch: its total loss, the two
    components the driver reports, and its size. *)
Record contribution : Type := mkContribution {
  c_total : tval;
  c_cls : tval;
  c_incons : tval;
  c_size : nat
}.

Definition batch_contribution (model : callable) (criterion : matrix -> matrix -> res tval)
    (batch_size epoch max_epochs : Z) (b : batch) : res contribution :=
  let* outputs := model [VFrames (frames b)] [("batch_size"%string, VInt batch_size)] in
  let* result := combined_loss outputs (labels b) criterion epoch max_epochs in
  let* cls := getitem (snd result) "cls_loss" in
  let* incons := getitem (snd result) "incons_loss" in
  Ok (mkContribution (fst result) cls incons (size0 (frames b))).

(** The average of a per-batch quantity over the [n] samples of the
    epoch, each batch weighted by its size. *)
Definition weighted_mean (value : contribution -> tval) (cs : list contribution) (n : nat)
  : tval :=
  tdiv_by (tsum (map (fun c => tmul (value c) (Fin (INR (c_size c)))) cs)) (INR n).

(** [T/G] rounded up. *)
Definition ceil_div (T G : nat) : nat := ((T + G - 1) / G)%nat.

(** The two gate weights of one video: the softmax of the two outputs of
    the linear layer on the concatenated features. *)
Definition gate_logits (self : DeepfakeDetector) (row : vector) : vector :=
  [(dot row (fst (gate_weight self)) + fst (gate_bias self))%R;
   (dot row (snd (gate_weight self)) + snd (gate_bias self))%R].

Definition gate_of (self : DeepfakeDetector) (d t : vector) : vector :=
  softmax_row (gate_logits self (d ++ t)).

(** [contiguous s l e]: the shards of [l] tile the frames from [s] up to
    [e], each one starting where the one before it ends. *)
Fixpoint contiguous (s : nat) (l : list shard) (e : nat) : Prop :=
  match l with
  | [] => s = e
  | sh :: rest => start_idx sh = s /\ (s < end_idx sh)%nat /\ contiguous (end_idx sh) rest e
  end.

Definition total_size (l : list shard) : nat :=
  fold_right Nat.add 0%nat (map shard_size l).

(** Lines 94-112 of [forward]: what the multi-device path does with the
    features the devices returned. *)
Definition merge_and_classify (self : DeepfakeDetector) (x : FrameBatch)
    (all_dama_feats : list matrix) : res (gmap string matrix) :=
  let* dama_feats := mean_stack all_dama_feats in
  let* tcm_outputs := tcm self x dama_feats in
  let* tcm_consistency := getitem tcm_outputs "consistency_score" in
  let* tcm_feats := getitem tcm_outputs "tcm_features" in
  let* fusion := gated_fusion self dama_feats tcm_feats in
  let fused_feats := snd fusion in
  let* logits := classifier self fused_feats in
  Ok (<["logits" := logits]>
      (<["dama_feats" := dama_feats]>
       (<["tcm_consistency" := tcm_consistency]> ∅))).

(** ** Notions used to state the further properties *)

(** The mean of one row of scores. *)
Definition row_mean (row : vector) : R := (rsum row / INR (length row))%R.

(** The row means of the videos whose label satisfies [keep]. *)
Definition means_where (keep : Z -> bool) (labels : list Z) (scores : matrix) : list R :=
  map (fun ls => row_mean (snd ls))
      (List.filter (fun ls => keep (fst ls)) (combine labels scores)).

(** The sum of the squares of the entries of a matrix. *)
Definition sum_squares (m : matrix) : R := rsum (map (fun x => (x * x)%R) (concat m)).

(** What [complete_model] returns on [toy_batch]: a bundle for three
    videos. *)
Definition toy_bundle3 : gmap string matrix :=
  <["logits" := repeat [0; 0]%R 3]>
  (<["tcm_inconsistency" := repeat [1 / 2]%R 3]>
   (<["dama_feats" := repeat [1%R] 3]>
    (<["tcm_feats" := repeat [2%R] 3]> ∅))).

(** A bundle for one real video with mean score 0 and one fake video
    with mean score 1/2. *)
Definition dead_zone_bundle : gmap string matrix :=
  <["logits" := [[0; 0]; [0; 0]]%R]>
  (<["tcm_inconsistency" := [[0]; [1 / 2]]%R]>
   (<["dama_feats" := [[1]; [1]]%R]>
    (<["tcm_feats" := [[2]; [2]]%R]> ∅))).

(** The metrics of [val_epoch] over [toy_batch] alone, with a
    classification loss of 1 and both scikit-learn metrics equal to 1. *)
Definition toy_val_metrics : gmap string tval :=
  <["loss" := Fin ((0 + 1 * INR 3) / INR 3)]>
  (<["cls_loss" := Fin ((0 + 1 * INR 3) / INR 3)]>
   (<["incons_loss" := Fin ((0 + 0 * INR 3) / INR 3)]>
    (<["auc" := Fin 1]> (<["acc" := Fin 1]> ∅)))).

(** What [torch.save(model.state_dict(), path)] followed by
    [torch.load(path)] gives for a module with the parameters [m]: the bare
    dictionary from parameter names to tensors. *)
Definition state_dict_of (m : gmap string param) : pyobj :=
  ODict (map (fun np => (fst np, OTensor (snd np))) (map_to_list m)).

(** [torch.nn.BCEWithLogitsLoss()], the criterion [evaluate] builds: for
    an input and a target of the same size, the mean over the entries of
    [(1 - y) * x + ln (1 + exp (- x))]; for other sizes, the [ValueError]
    of its size check. *)
Definition bce_with_logits (input target : matrix) : res tval :=
  if bool_decide (map (@length R) input = map (@length R) target)
  then Ok (mean (map (fun xy => Fin ((1 - snd xy) * fst xy + ln (1 + exp (- fst xy)))%R)
                     (combine (concat input) (concat target))))
  else Raise (ValueError "Target size must be the same as input size").

(** [torch.cat(parts, dim=1)] for [B] videos: the frames of each video
    in the parts, one part after the other. *)
Definition cat_time (parts : list (list (list frame))) (B : nat) : list (list frame) :=
  map (fun i => concat (map (fun part => nth i part []) parts)) (seq 0 B).

(** The largest of 0 and the validation AUCs of the first [n] epochs. *)
Fixpoint running_best (auc : nat -> R) (n : nat) : R :=
  match n with
  | O => 0%R
  | S k => Rmax (running_best auc k) (auc k)
  end.

(** Epoch [epoch] of the loop of [main] goes through, with validation AUC
    [a]. *)
Definition epoch_completes
    (train_epoch_at val_epoch_at : nat -> res (gmap string tval))
    (unfreeze : nat -> res unit)
    (train_viz_update : nat -> gmap string tval -> gmap string tval -> res unit)
    (train_viz_plot_all : res unit) (epoch : nat) (a : R) : Prop :=
  unfreeze epoch = Ok tt /\
  exists train_metrics val_metrics,
    train_epoch_at epoch = Ok train_metrics /\
    val_epoch_at epoch = Ok val_metrics /\
    val_metrics !! "auc"%string = Some (Fin a) /\
    print_metrics train_metrics val_metrics = Ok tt /\
    train_viz_update epoch train_metrics val_metrics = Ok tt /\
    train_viz_plot_all = Ok tt.

(** The metrics of an epoch with validation AUC [a]. *)
Definition metrics_with_auc (a : R) : gmap string tval :=
  <["loss" := Fin 0]> (<["auc" := Fin a]> (<["acc" := Fin 1]> ∅)).

(** * The dispatcher's shards *)

Section Dispatcher.

Variables T G : nat.

Let size_of (g : nat) : nat := assigned T G g.

Let record (g s e : nat) : res shard := Ok (mkShard g s e).

Lemma contiguous_total s l e : contiguous s l e -> (s + total_size l = e)%nat.
Proof.
  revert s. induction l as [|sh rest IH]; intros s; simpl.
  - unfold total_size. simpl. lia.
  - intros (Hs & Hlt & Hrest). apply IH in Hrest.
    unfold total_size in *. simpl. unfold shard_size at 1.
    rewrite Hs. lia.
Qed.

Lemma contiguous_app s l1 m l2 e :
  contiguous s l1 m -> contiguous m l2 e -> contiguous s (l1 ++ l2) e.
Proof.
  revert s. induction l1 as [|sh rest IH]; intros s; simpl.
  - intros ->. auto.
  - intros (Hs & Hlt & Hrest) H2. repeat split; auto.
Qed.

(** The loop over the devices [k, k+1, ..., k+n-1], entered with the next
    free frame [s] and the shards [acc] made so far. *)
Lemma shard_loop_record n : forall k s acc,
  exists l,
    shard_loop record (T / G) (T mod G) (seq k n) s acc = Ok (acc ++ l) /\
    contiguous s l (s + fold_right Nat.add 0 (map size_of (seq k n)))%nat /\
    Forall (fun sh => shard_size sh = size_of (gpu_id sh) /\ (0 < shard_size sh)%nat) l /\
    map gpu_id l = List.filter (fun g => Nat.ltb 0 (size_of g)) (seq k n).
Proof.
  induction n as [|n IH]; intros k s acc.
  - exists []. simpl. rewrite app_nil_r. repeat split; auto; lia.
  - simpl seq. cbn [shard_loop].
    fold (assigned T G k). fold (size_of k).
    destruct (Nat.leb (size_of k) 0) eqn:Hz.
    + apply Nat.leb_le in Hz.
      destruct (IH (S k) s acc) as (l & Hl & Hc & Hf & Hg).
      exists l. cbn [map fold_right List.filter].
      replace (Nat.ltb 0 (size_of k)) with false
        by (symmetry; apply Nat.ltb_ge; lia).
      repeat split; auto.
      replace (s + (size_of k + fold_right Nat.add 0 (map size_of (seq (S k) n))))%nat
        with (s + fold_right Nat.add 0 (map size_of (seq (S k) n)))%nat by lia.
      exact Hc.
    + apply Nat.leb_gt in Hz.
      unfold record at 1. cbn [bind].
      destruct (IH (S k) (s + size_of k)%nat (acc ++ [mkShard k s (s + size_of k)]))
        as (l & Hl & Hc & Hf & Hg).
      exists (mkShard k s (s + size_of k) :: l).
      cbn [map fold_right List.filter].
      replace (Nat.ltb 0 (size_of k)) with true
        by (symmetry; apply Nat.ltb_lt; lia).
      repeat split.
      * rewrite Hl. rewrite <- app_assoc. reflexivity.
      * simpl. lia.
      * simpl.
        replace (s + (size_of k + fold_right Nat.add 0 (map size_of (seq (S k) n))))%nat
          with (s + size_of k + fold_right Nat.add 0 (map size_of (seq (S k) n)))%nat by lia.
        exact Hc.
      * constructor; auto. unfold shard_size. simpl. split; lia.
      * simpl. f_equal. exact Hg.
Qed.

(** The sizes assigned to the first [n] devices add up to [n] times the
    quotient plus one for each device below the remainder. *)
Lemma assigned_sum n :
  fold_right Nat.add 0%nat (map size_of (seq 0 n)) = (n * (T / G) + Nat.min n (T mod G))%nat.
Proof.
  induction n as [|n IH].
  - reflexivity.
  - rewrite seq_S, map_app, fold_right_app. cbn [map fold_right Nat.add].
    assert (Hshift : forall (l : list nat) (a : nat),
               fold_right Nat.add a l = (fold_right Nat.add 0 l + a)%nat).
    { induction l as [|x l IHl]; intros a; simpl; [lia | rewrite IHl; lia]. }
    rewrite Hshift, IH. unfold size_of, assigned.
    destruct (Nat.ltb n (T mod G)) eqn:Hlt.
    + apply Nat.ltb_lt in Hlt. lia.
    + apply Nat.ltb_ge in Hlt. lia.
Qed.

(** Among the first [n] devices, those that get a shard of [T/G + 1]
    frames are the ones below the remainder. *)
Lemma extra_count n :
  length (List.filter (fun g => Nat.eqb (size_of g) (T / G + 1))
                      (List.filter (fun g => Nat.ltb 0 (size_of g)) (seq 0 n)))
  = Nat.min n (T mod G).
Proof.
  induction n as [|n IH].
  - reflexivity.
  - rewrite seq_S, !List.filter_app, List.length_app, IH. cbn [List.filter Nat.add].
    assert (Hs : size_of n = if Nat.ltb n (T mod G) then (T / G + 1)%nat else (T / G)%nat)
      by reflexivity.
    destruct (Nat.ltb n (T mod G)) eqn:Hlt; rewrite Hs.
    + apply Nat.ltb_lt in Hlt.
      replace (Nat.ltb 0 (T / G + 1)) with true by (symmetry; apply Nat.ltb_lt; lia).
      cbn [List.filter]. rewrite Hs, Nat.eqb_refl. cbn [length]. lia.
    + apply Nat.ltb_ge in Hlt.
      destruct (Nat.ltb 0 (T / G)) eqn:Hq; cbn [List.filter length].
      * rewrite Hs.
        replace (Nat.eqb (T / G) (T / G + 1)) with false
          by (symmetry; apply Nat.eqb_neq; lia).
        cbn [length]. lia.
      * lia.
Qed.

End Dispatcher.

Lemma ceil_div_extra T G :
  G <> 0%nat -> (T mod G <> 0)%nat -> ceil_div T G = (T / G + 1)%nat.
Proof.
  intros HG Hr. unfold ceil_div.
  pose proof (Nat.div_mod T G HG) as Hdm.
  pose proof (Nat.mod_upper_bound T G HG) as Hub.
  symmetry. apply Nat.div_unique with (r := (T mod G - 1)%nat).
  - lia.
  - rewrite Nat.mul_add_distr_l. lia.
Qed.

Lemma filter_by_size T G (p : nat -> bool) (l : list shard) :
  Forall (fun sh => shard_size sh = assigned T G (gpu_id sh) /\ (0 < shard_size sh)%nat) l ->
  length (List.filter (fun sh => p (shard_size sh)) l)
  = length (List.filter (fun g => p (assigned T G g)) (map gpu_id l)).
Proof.
  induction 1 as [|sh l [Hsz _] _ IH]; simpl.
  - reflexivity.
  - rewrite Hsz. destruct (p (assigned T G (gpu_id sh))); simpl; rewrite IH; reflexivity.
Qed.

Example shards_10_on_4 :
  shards 10 4 = Ok [mkShard 0 0 3; mkShard 1 3 6; mkShard 2 6 8; mkShard 3 8 10].
Proof. reflexivity. Qed.

Example shards_2_on_4 : shards 2 4 = Ok [mkShard 0 0 1; mkShard 1 1 2].
Proof. reflexivity. Qed.

(** The loop of [forward] visits exactly the shards of [shards]: running
    it with any per-shard work [process] is the same as making the shards
    first and then doing the work on each, in order. *)
Lemma shard_plan_ok q r ids : forall s (acc : list shard),
  exists l,
    shard_loop (fun g s e => Ok (mkShard g s e)) q r ids s acc = Ok (acc ++ l) /\
    shard_loop (fun g s e => Ok (mkShard g s e)) q r ids s [] = Ok l.
Proof.
  induction ids as [|g rest IH]; intros s acc; cbn [shard_loop].
  - exists []. rewrite app_nil_r. split; reflexivity.
  - destruct (Nat.leb _ 0).
    + apply IH.
    + cbn [bind].
      destruct (IH (s + (if Nat.ltb g r then q + 1 else q))%nat
                   (acc ++ [mkShard g s (s + (if Nat.ltb g r then q + 1 else q))]))
        as (l & Hacc & Hnil).
      destruct (IH (s + (if Nat.ltb g r then q + 1 else q))%nat
                   ([] ++ [mkShard g s (s + (if Nat.ltb g r then q + 1 else q))]))
        as (l' & Hacc' & Hnil').
      assert (l' = l) by congruence. subst l'.
      exists (mkShard g s (s + (if Nat.ltb g r then q + 1 else q)) :: l). split.
      * rewrite Hacc, <- app_assoc. reflexivity.
      * rewrite Hacc'. reflexivity.
Qed.

Lemma shard_loop_plan {A : Type} (process : nat -> nat -> nat -> res A) q r ids :
  forall s (acc : list A),
  shard_loop process q r ids s acc
  = let* plan := shard_loop (fun g s e => Ok (mkShard g s e)) q r ids s [] in
    let* results := map_res (fun sh => process (gpu_id sh) (start_idx sh) (end_idx sh)) plan in
    Ok (acc ++ results).
Proof.
  induction ids as [|g rest IH]; intros s acc; cbn [shard_loop].
  - simpl. rewrite app_nil_r. reflexivity.
  - destruct (Nat.leb _ 0).
    + apply IH.
    + cbn [bind].
      destruct (shard_plan_ok q r rest (s + (if Nat.ltb g r then q + 1 else q))%nat
                  ([] ++ [mkShard g s (s + (if Nat.ltb g r then q + 1 else q))]))
        as (l & Hacc & Hnil).
      rewrite Hacc. cbn [bind app map_res gpu_id start_idx end_idx].
      destruct (process g s _) as [a|err]; cbn [bind]; [|reflexivity].
      rewrite IH, Hnil. cbn [bind].
      destruct (map_res _ l) as [rs|err]; cbn [bind]; [|reflexivity].
      rewrite <- app_assoc. reflexivity.
Qed.

(** On more than one device [forward] runs the extractor on the slice
    of each shard of [shards], in order, and goes on with the results. *)
Lemma forward_runs_shards (self : DeepfakeDetector) (G : nat) (x : FrameBatch) (bs : Z)
    (l : list shard) :
  (1 < G)%nat ->
  shards (num_frames x) G = Ok l ->
  forward self G x bs
  = let* all_dama_feats :=
      map_res (fun sh => dama self (slice_frames x (start_idx sh) (end_idx sh)) bs) l in
    merge_and_classify self x all_dama_feats.
Proof.
  intros HG Hl. unfold forward, shards in *.
  replace (Nat.leb G 1) with false by (symmetry; apply Nat.leb_gt; exact HG).
  rewrite shard_loop_plan, Hl. cbn [bind start_idx end_idx gpu_id].
  destruct (map_res _ l) as [results|err]; reflexivity.
Qed.

(** C6.  For [T] frames and [G > 1] devices the dispatcher's loop makes
    a list of shards that tile the frames [0 .. T) contiguously, whose sizes
    add up to [T]; exactly [T mod G] of them have the extra frame (size
    [T/G + 1], which is [T/G] rounded up), a shard's size is [T/G] rounded
    up when its device index is below [T mod G] and [T/G] otherwise, and
    the devices that get a shard are exactly those assigned at least one
    frame: no shard is empty.  These shards are what [forward] works on: on
    a batch of [T] frames it runs the extractor on the slice
    [x[:, start_idx:end_idx]] of each of them, in order, and merges the
    results. *)
Theorem dispatcher_shards (T G : nat) :
  (1 < G)%nat ->
  exists l,
    shards T G = Ok l /\
    contiguous 0 l T /\
    total_size l = T /\
    length (List.filter (fun sh => Nat.eqb (shard_size sh) (T / G + 1)) l) = (T mod G)%nat /\
    Forall (fun sh =>
              shard_size sh =
              if Nat.ltb (gpu_id sh) (T mod G) then ceil_div T G else (T / G)%nat) l /\
    Forall (fun sh => (0 < shard_size sh)%nat) l /\
    map gpu_id l = List.filter (fun g => Nat.ltb 0 (assigned T G g)) (seq 0 G) /\
    (forall (self : DeepfakeDetector) (x : FrameBatch) (bs : Z),
        num_frames x = T ->
        forward self G x bs
        = let* all_dama_feats :=
            map_res (fun sh => dama self (slice_frames x (start_idx sh) (end_idx sh)) bs) l in
          merge_and_classify self x all_dama_feats).
Proof.
  intros HG.
  assert (HG0 : G <> 0%nat) by lia.
  destruct (shard_loop_record T G G 0%nat 0%nat []) as (l & Hl & Hc & Hf & Hg).
  rewrite assigned_sum in Hc. simpl in Hl.
  pose proof (Nat.mod_upper_bound T G HG0) as Hub.
  pose proof (Nat.div_mod T G HG0) as Hdm.
  replace (0 + (G * (T / G) + Nat.min G (T mod G)))%nat with T in Hc by lia.
  exists l. repeat split.
  - exact Hl.
  - exact Hc.
  - apply contiguous_total in Hc. lia.
  - rewrite (filter_by_size T G (fun n => Nat.eqb n (T / G + 1)) l Hf), Hg.
    rewrite extra_count. lia.
  - eapply List.Forall_impl; [|exact Hf]. intros sh [Hsz _]. simpl in Hsz |- *.
    rewrite Hsz. unfold assigned.
    destruct (Nat.ltb (gpu_id sh) (T mod G)) eqn:Hlt; [|reflexivity].
    apply Nat.ltb_lt in Hlt. rewrite ceil_div_extra; lia.
  - eapply List.Forall_impl; [|exact Hf]. intros sh [_ Hpos]. exact Hpos.
  - exact Hg.
  - intros self x bs HT. apply forward_runs_shards; [exact HG|].
    rewrite HT. exact Hl.
Qed.

Lemma dispatcher_shards_witness :
  (1 < 4)%nat /\
  exists l,
    shards 10 4 = Ok l /\
    contiguous 0 l 10 /\
    total_size l = 10%nat /\
    length (List.filter (fun sh => Nat.eqb (shard_size sh) (10 / 4 + 1)) l) = (10 mod 4)%nat /\
    Forall (fun sh =>
              shard_size sh =
              if Nat.ltb (gpu_id sh) (10 mod 4) then ceil_div 10 4 else (10 / 4)%nat) l /\
    Forall (fun sh => (0 < shard_size sh)%nat) l /\
    map gpu_id l = List.filter (fun g => Nat.ltb 0 (assigned 10 4 g)) (seq 0 4) /\
    (forall (self : DeepfakeDetector) (x : FrameBatch) (bs : Z),
        num_frames x = 10%nat ->
        forward self 4 x bs
        = let* all_dama_feats :=
            map_res (fun sh => dama self (slice_frames x (start_idx sh) (end_idx sh)) bs) l in
          merge_and_classify self x all_dama_feats).
Proof.
  split; [lia | apply (dispatcher_shards 10 4); lia].
Defined.

(** * The fusion gate *)

Section Fusion.

Local Open Scope R_scope.

Lemma map_res_total {A B : Type} (f : A -> res B) (g : A -> B) (l : list A) :
  Forall (fun x => f x = Ok (g x)) l -> map_res f l = Ok (map g l).
Proof.
  induction 1 as [|x l Hx _ IH]; simpl.
  - reflexivity.
  - rewrite Hx, IH. reflexivity.
Qed.

Lemma combine_map_both {A B C : Type} (f : A -> B) (g : A -> C) (l : list A) :
  combine (map f l) (map g l) = map (fun x => (f x, g x)) l.
Proof. induction l as [|x l IH]; simpl; [|rewrite IH]; reflexivity. Qed.

Lemma combine_map_each {A B C D : Type} (f : A -> C) (g : B -> D) (u : list A) (v : list B) :
  combine (map f u) (map g v) = map (fun p => (f (fst p), g (snd p))) (combine u v).
Proof.
  revert v. induction u as [|x u IH]; intros [|y v]; simpl; try reflexivity.
  rewrite IH. reflexivity.
Qed.

Lemma combine_map_self {A B : Type} (f : A -> B) (l : list A) :
  combine (map f l) l = map (fun x => (f x, x)) l.
Proof. induction l as [|x l IH]; simpl; [|rewrite IH]; reflexivity. Qed.

Lemma fst_combine {A B : Type} (u : list A) (v : list B) :
  length u = length v -> map fst (combine u v) = u.
Proof.
  revert v. induction u as [|x u IH]; intros [|y v]; simpl; intros H; try discriminate.
  - reflexivity.
  - rewrite IH by congruence. reflexivity.
Qed.

Lemma snd_combine {A B : Type} (u : list A) (v : list B) :
  length u = length v -> map snd (combine u v) = v.
Proof.
  revert v. induction u as [|x u IH]; intros [|y v]; simpl; intros H; try discriminate.
  - reflexivity.
  - rewrite IH by congruence. reflexivity.
Qed.

(** A softmax over two logits: two positive weights that add up to 1. *)
Lemma softmax_pair (y0 y1 : R) :
  exists g0 g1,
    softmax_row [y0; y1] = [g0; g1] /\ g0 + g1 = 1 /\ 0 < g0 /\ 0 < g1.
Proof.
  pose proof (exp_pos y0) as H0. pose proof (exp_pos y1) as H1.
  exists (exp y0 / (exp y0 + (exp y1 + 0))), (exp y1 / (exp y0 + (exp y1 + 0))).
  repeat split.
  - field. lra.
  - apply Rdiv_lt_0_compat; lra.
  - apply Rdiv_lt_0_compat; lra.
Qed.

Lemma gate_of_pair self d t :
  exists g0 g1, gate_of self d t = [g0; g1] /\ g0 + g1 = 1 /\ 0 < g0 /\ 0 < g1.
Proof. unfold gate_of, gate_logits. apply softmax_pair. Qed.

Lemma linear_row_gate self row :
  length row = (dama_dim self * 2)%nat ->
  linear_row (fusion_gate_0 self) row = Ok (gate_logits self row).
Proof.
  intros Hlen. unfold linear_row. simpl in_features.
  rewrite Hlen, Nat.eqb_refl. reflexivity.
Qed.

Lemma column_pairs (m : matrix) (j : nat) :
  Forall (fun row => (j < length row)%nat) m ->
  column m j = Ok (map (fun row => nth j row 0) m).
Proof.
  intros H. unfold column. apply map_res_total.
  eapply List.Forall_impl; [|exact H]. intros row Hlt. simpl.
  destruct (nth_error row j) as [v|] eqn:Hn.
  - erewrite nth_error_nth by exact Hn. reflexivity.
  - apply nth_error_None in Hn. simpl in Hlt. lia.
Qed.

(** C8.  For feature matrices [dama_feats] and [tcm_feats] of the shape
    [[B, dama_dim]], whatever their entries, the fusion step returns a gate
    and fused features such that: the gate of every video is the softmax of
    the two-way linear projection of the concatenated features; its two
    weights are positive and add up to 1; and the fused features of the
    video are that convex combination
    [gate[0] * dama_feats + gate[1] * tcm_feats], entry by entry. *)
Theorem fusion_gate_convex (self : DeepfakeDetector) (dama_feats tcm_feats : matrix) :
  length dama_feats = length tcm_feats ->
  Forall (fun row => length row = dama_dim self) dama_feats ->
  Forall (fun row => length row = dama_dim self) tcm_feats ->
  exists gate fused_feats,
    gated_fusion self dama_feats tcm_feats = Ok (gate, fused_feats) /\
    gate = map (fun p => gate_of self (fst p) (snd p)) (combine dama_feats tcm_feats) /\
    Forall (fun g => exists g0 g1, g = [g0; g1] /\ g0 + g1 = 1 /\ 0 < g0 /\ 0 < g1) gate /\
    fused_feats =
      map (fun gp =>
             map (fun xy => nth 0 (fst gp) 0 * fst xy + nth 1 (fst gp) 0 * snd xy)
                 (combine (fst (snd gp)) (snd (snd gp))))
          (combine gate (combine dama_feats tcm_feats)).
Proof.
  intros Hlen Hd Ht.
  set (l := combine dama_feats tcm_feats).
  assert (Hfst : map fst l = dama_feats) by (apply fst_combine; exact Hlen).
  assert (Hsnd : map snd l = tcm_feats) by (apply snd_combine; exact Hlen).
  assert (Hrows : Forall (fun p => length (fst p) = dama_dim self /\
                                   length (snd p) = dama_dim self) l).
  { apply List.Forall_forall. intros [u v] Hin. simpl.
    rewrite List.Forall_forall in Hd, Ht. split.
    - apply Hd. eapply in_combine_l; exact Hin.
    - apply Ht. eapply in_combine_r; exact Hin. }
  remember (map (fun p => gate_of self (fst p) (snd p)) l) as gate eqn:Egate.
  assert (Hgate : Forall (fun g => exists g0 g1,
                            g = [g0; g1] /\ g0 + g1 = 1 /\ 0 < g0 /\ 0 < g1) gate).
  { subst gate. apply List.Forall_forall. intros g Hin. apply in_map_iff in Hin.
    destruct Hin as (p & <- & _). apply gate_of_pair. }
  assert (Hwide : forall j, (j < 2)%nat -> Forall (fun row => (j < length row)%nat) gate).
  { intros j Hj. eapply List.Forall_impl; [|exact Hgate].
    intros g (g0 & g1 & -> & _). simpl. lia. }
  assert (Hgl : @length (list R) gate = length dama_feats).
  { subst gate. unfold l. rewrite List.length_map, List.length_combine. lia. }
  exists gate.
  eexists. split; [|split; [reflexivity|split; [exact Hgate|rewrite Egate]]].
  - unfold gated_fusion, cat_last. rewrite Hlen, Nat.eqb_refl. cbn [bind].
    fold l. unfold fusion_gate, linear.
    rewrite (map_res_total _ (gate_logits self)).
    2:{ apply List.Forall_forall. intros row Hin. apply in_map_iff in Hin.
        destruct Hin as (p & <- & Hin). rewrite List.Forall_forall in Hrows.
        destruct (Hrows p Hin) as [Hu Hv].
        apply linear_row_gate. rewrite List.length_app, Hu, Hv. lia. }
    cbn [bind]. unfold softmax_dim1. rewrite !map_map. fold (gate_of self).
    change (map (fun x => softmax_row (gate_logits self (fst x ++ snd x))) l)
      with (map (fun p => gate_of self (fst p) (snd p)) l).
    rewrite <- Egate.
    rewrite (column_pairs gate 0) by (apply Hwide; lia). cbn [bind].
    rewrite (column_pairs gate 1) by (apply Hwide; lia). cbn [bind].
    unfold scale_rows. rewrite !List.length_map.
    rewrite Hgl, Nat.eqb_refl. cbn [bind].
    rewrite Hlen, Nat.eqb_refl. cbn [bind].
    unfold madd. rewrite bool_decide_eq_true_2.
    + reflexivity.
    + rewrite <- Hfst, <- Hsnd.
      rewrite Egate. rewrite !map_map, !combine_map_both, !map_map. simpl.
      apply map_ext_in. intros p Hin. rewrite !List.length_map.
      rewrite List.Forall_forall in Hrows. destruct (Hrows p Hin) as [Hu Hv]. congruence.
  - rewrite combine_map_self.
    rewrite <- Hfst, <- Hsnd.
    rewrite !map_map, !combine_map_both, !map_map.
    rewrite combine_map_both, map_map.
    apply map_ext. intros p. cbn [fst snd].
    rewrite combine_map_each, map_map. reflexivity.
Qed.

End Fusion.

Lemma fusion_gate_convex_witness :
  length [[1%R]] = length [[2%R]] /\
  Forall (fun row => length row = dama_dim toy_detector) [[1%R]] /\
  Forall (fun row => length row = dama_dim toy_detector) [[2%R]] /\
  exists gate fused_feats,
    gated_fusion toy_detector [[1%R]] [[2%R]] = Ok (gate, fused_feats) /\
    gate = map (fun p => gate_of toy_detector (fst p) (snd p)) (combine [[1%R]] [[2%R]]) /\
    Forall (fun g => exists g0 g1, g = [g0; g1] /\ (g0 + g1 = 1)%R /\ (0 < g0)%R /\ (0 < g1)%R)
           gate /\
    fused_feats =
      map (fun gp =>
             map (fun xy => (nth 0 (fst gp) 0 * fst xy + nth 1 (fst gp) 0 * snd xy)%R)
                 (combine (fst (snd gp)) (snd (snd gp))))
          (combine gate (combine [[1%R]] [[2%R]])).
Proof.
  assert (H1 : Forall (fun row : list R => length row = dama_dim toy_detector) [[1%R]])
    by (repeat constructor).
  assert (H2 : Forall (fun row : list R => length row = dama_dim toy_detector) [[2%R]])
    by (repeat constructor).
  split; [reflexivity|]. split; [exact H1|]. split; [exact H2|].
  apply (fusion_gate_convex toy_detector [[1%R]] [[2%R]] eq_refl H1 H2).
Defined.

(** * The call interface of the detector *)

Section Calls.

Ltac bind_ok H :=
  match type of H with
  | bind ?c _ = Ok _ =>
      let E := fresh "E" in
      destruct c eqn:E; cbn [bind] in H; [|discriminate H]
  end.

(** What a successful forward pass returns: a dictionary with the three
    keys ['logits'], ['dama_feats'] and ['tcm_consistency']. *)
Lemma _forward_single_gpu_outputs self x bs out :
  _forward_single_gpu self x bs = Ok out ->
  exists logits dama_feats tcm_consistency,
    out = <["logits" := logits]>
          (<["dama_feats" := dama_feats]>
           (<["tcm_consistency" := tcm_consistency]> ∅)).
Proof.
  unfold _forward_single_gpu. intros H.
  repeat bind_ok H. injection H as <-. eauto.
Qed.

Lemma forward_outputs self G x bs out :
  forward self G x bs = Ok out ->
  exists logits dama_feats tcm_consistency,
    out = <["logits" := logits]>
          (<["dama_feats" := dama_feats]>
           (<["tcm_consistency" := tcm_consistency]> ∅)).
Proof.
  unfold forward. destruct (Nat.leb G 1).
  - apply _forward_single_gpu_outputs.
  - intros H. repeat bind_ok H. injection H as <-. eauto.
Qed.

(** [combined_loss] reads ['tcm_inconsistency'] before it looks at the
    phase, so on a dictionary without that key it raises in every phase. *)
Lemma combined_loss_missing_key (outputs : gmap string matrix) labels criterion epoch max_epochs :
  outputs !! "tcm_inconsistency" = None ->
  exists err, combined_loss outputs labels criterion epoch max_epochs = Raise err.
Proof.
  intros Hnone. unfold combined_loss.
  destruct (getitem outputs "logits") as [logits|err]; cbn [bind]; [|eauto].
  destruct (one_hot2 labels) as [onehot|err]; cbn [bind]; [|eauto].
  unfold getitem at 1. rewrite Hnone. cbn [bind]. eauto.
Qed.

Example toy_forward_single :
  forward toy_detector 1 toy_frames 2
  = Ok (<["logits" := [[0; 0]; [0; 0]]%R]>
        (<["dama_feats" := [[1]; [1]]%R]>
         (<["tcm_consistency" := [[0]; [0]]%R]> ∅))).
Proof. reflexivity. Qed.

Example toy_forward_sharded : is_ok (forward toy_detector 2 toy_frames 2) = true.
Proof. reflexivity. Qed.

(** The failing input of C1, in the three phases: the forward pass
    succeeds and the loss raises [KeyError]. *)
Example toy_loss_raises :
  forall epoch, In epoch [0; 1; 5]%Z ->
  (let* outputs := forward toy_detector 1 toy_frames 2 in
   combined_loss outputs [0; 1]%Z toy_criterion epoch 10)
  = Raise (KeyError "tcm_inconsistency").
Proof.
  intros epoch [<-|[<-|[<-|[]]]]; reflexivity.
Qed.

(** C1 (the code departs from it).  Whatever the detector, the device
    count, the frames, the labels, the criterion and the epoch, feeding the
    output of [forward] to [combined_loss] raises: the output has no
    ['tcm_inconsistency'] (the forward pass names the score
    ['tcm_consistency']) and no ['tcm_feats'].  When the forward pass
    returns and the labels are class ids, the exception is
    [KeyError 'tcm_inconsistency'], in every phase. *)
Theorem forward_output_breaks_combined_loss
    (self : DeepfakeDetector) (num_gpus : nat) (x : FrameBatch) (bs : Z)
    (labels : list Z) (criterion : matrix -> matrix -> res tval) (epoch max_epochs : Z) :
  exists err,
    (let* outputs := forward self num_gpus x bs in
     combined_loss outputs labels criterion epoch max_epochs) = Raise err /\
    (forall outputs,
        forward self num_gpus x bs = Ok outputs ->
        outputs !! "tcm_inconsistency" = None /\
        outputs !! "tcm_feats" = None /\
        (is_ok (one_hot2 labels) = true -> err = KeyError "tcm_inconsistency")).
Proof.
  destruct (forward self num_gpus x bs) as [outputs|err0] eqn:Hf; cbn [bind].
  - destruct (forward_outputs _ _ _ _ _ Hf) as (lg & df & tc & ->).
    unfold combined_loss. unfold getitem at 1.
    replace ((<["logits" := lg]> (<["dama_feats" := df]> (<["tcm_consistency" := tc]> ∅)) : gmap string matrix) !! "logits") with (Some lg) by reflexivity.
    cbn [bind].
    destruct (one_hot2 labels) as [onehot|err1]; cbn [bind].
    + exists (KeyError "tcm_inconsistency"). split; [reflexivity|].
      intros out [= <-]. repeat split; reflexivity.
    + exists err1. split; [reflexivity|].
      intros out [= <-]. repeat split; try reflexivity. discriminate.
  - exists err0. split; [reflexivity|]. intros out Hout. discriminate Hout.
Qed.

(** C9.  The call made by the evaluation driver,
    [model(frames, batch_size=..., ablation='dynamic')], is rejected when
    the arguments are bound: [forward] has the parameters [(x, batch_size)]
    only.  So [evaluate] raises that [TypeError] on the first batch of any
    loader, and it returns for no loader at all (on an empty one the final
    division by the number of samples raises). *)
Theorem evaluate_call_rejected (self : DeepfakeDetector) (num_gpus : nat) (bs : Z) :
  (forall x : FrameBatch,
      call self num_gpus [VFrames x]
           [("batch_size"%string, VInt bs); ("ablation"%string, VStr "dynamic")]
      = Raise (TypeError "forward() got an unexpected keyword argument 'ablation'")) /\
  (forall criterion metrics b rest,
      evaluate criterion metrics (call self num_gpus) (b :: rest) bs
      = Raise (TypeError "forward() got an unexpected keyword argument 'ablation'")) /\
  (forall criterion metrics dataloader,
      is_ok (evaluate criterion metrics (call self num_gpus) dataloader bs) = false).
Proof.
  assert (Hcall : forall x : FrameBatch,
             call self num_gpus [VFrames x]
                  [("batch_size"%string, VInt bs); ("ablation"%string, VStr "dynamic")]
             = Raise (TypeError "forward() got an unexpected keyword argument 'ablation'"))
    by (intros x; reflexivity).
  assert (Hcons : forall criterion metrics b rest,
             evaluate criterion metrics (call self num_gpus) (b :: rest) bs
             = Raise (TypeError "forward() got an unexpected keyword argument 'ablation'")).
  { intros criterion metrics b rest. unfold evaluate. cbn [for_each].
    unfold evaluate_batch at 1. rewrite Hcall. reflexivity. }
  repeat split; auto.
  intros criterion metrics [|b rest].
  - reflexivity.
  - rewrite Hcons. reflexivity.
Qed.

(** The call made by the train driver binds. *)
Lemma train_call_binds (self : DeepfakeDetector) (num_gpus : nat) (x : FrameBatch) (bs : Z) :
  call self num_gpus [VFrames x] [("batch_size"%string, VInt bs)] = forward self num_gpus x bs.
Proof. reflexivity. Qed.

End Calls.

(** * The staged loss *)

Section StagedLoss.

Lemma Qltb_true (a b : Q) : (a < b)%Q -> Qltb a b = true.
Proof.
  intros H. unfold Qltb. destruct (Qle_bool b a) eqn:E; [|reflexivity].
  apply Qle_bool_iff in E. exfalso. apply (Qlt_not_le _ _ H E).
Qed.

Lemma Qltb_false (a b : Q) : (b <= a)%Q -> Qltb a b = false.
Proof.
  intros H. unfold Qltb. apply Qle_bool_iff in H. rewrite H. reflexivity.
Qed.

Lemma inject_Z_pos (z : Z) : (0 < z)%Z -> (0 < inject_Z z)%Q.
Proof. intros H. change 0%Q with (inject_Z 0). rewrite <- Zlt_Qlt. exact H. Qed.

Lemma Qpos_neq (m : Q) : (0 < m)%Q -> ~ (m == 0)%Q.
Proof. intros H E. rewrite E in H. exact (Qlt_irrefl 0 H). Qed.

(** With a positive epoch count, the comparisons the code makes between
    [epoch] and a fraction of [max_epochs] are comparisons of the progress
    ratio with that fraction. *)
Lemma progress_lt (epoch max_epochs : Z) (c : Q) :
  (0 < max_epochs)%Z ->
  (progress epoch max_epochs < c)%Q ->
  (inject_Z epoch < c * inject_Z max_epochs)%Q.
Proof.
  intros Hm H. apply inject_Z_pos in Hm. unfold progress in H.
  assert (E : (inject_Z epoch == (inject_Z epoch / inject_Z max_epochs) * inject_Z max_epochs)%Q)
    by (field; apply Qpos_neq, Hm).
  rewrite E. apply Qmult_lt_compat_r; assumption.
Qed.

Lemma progress_ge (epoch max_epochs : Z) (c : Q) :
  (0 < max_epochs)%Z ->
  (c <= progress epoch max_epochs)%Q ->
  (c * inject_Z max_epochs <= inject_Z epoch)%Q.
Proof.
  intros Hm H. apply inject_Z_pos in Hm. unfold progress in H.
  assert (E : (inject_Z epoch == (inject_Z epoch / inject_Z max_epochs) * inject_Z max_epochs)%Q)
    by (field; apply Qpos_neq, Hm).
  rewrite E. apply Qmult_le_compat_r; [assumption | apply Qlt_le_weak, Hm].
Qed.

(** The warm-up branch itself ([p < 0.1], for a positive epoch count): on
    a bundle that has ['logits'] and ['tcm_inconsistency'] and labels that
    are class ids, [combined_loss] returns the classification loss alone as
    the total, with the diagnostics ['incons_loss'] and ['orth_loss'] equal
    to 0.0 exactly.  Nothing is asked of ['dama_feats'] or ['tcm_feats']:
    the function returns before the orthogonality term. *)
Lemma combined_loss_warmup
    (outputs : gmap string matrix) (labels : list Z)
    (criterion : matrix -> matrix -> res tval) (epoch max_epochs : Z)
    (logits scores : matrix) (onehot : list (list Z)) (cls : tval) :
  outputs !! "logits" = Some logits ->
  outputs !! "tcm_inconsistency" = Some scores ->
  one_hot2 labels = Ok onehot ->
  criterion logits (float onehot) = Ok cls ->
  (0 < max_epochs)%Z ->
  (progress epoch max_epochs < 0.1)%Q ->
  exists losses,
    combined_loss outputs labels criterion epoch max_epochs = Ok (cls, losses) /\
    losses !! "cls_loss" = Some cls /\
    losses !! "incons_loss" = Some (Fin 0) /\
    losses !! "orth_loss" = Some (Fin 0).
Proof.
  intros Hlogits Hscores Hhot Hcrit Hmax Hp.
  exists (losses_dict cls (Fin 0) (Fin 0)).
  split; [|repeat split; reflexivity].
  unfold combined_loss, getitem.
  rewrite Hlogits. cbn [bind]. rewrite Hhot. cbn [bind]. rewrite Hscores. cbn [bind].
  rewrite (Qltb_true _ _ (progress_lt _ _ _ Hmax Hp)).
  rewrite Hcrit. reflexivity.
Qed.

Lemma combined_loss_warmup_witness :
  exists losses,
    combined_loss (<["logits" := [[0; 0]]%R]> (<["tcm_inconsistency" := [[0]]%R]> ∅))
                  [1%Z] toy_criterion 0 10 = Ok (Fin 1, losses) /\
    losses !! "cls_loss" = Some (Fin 1) /\
    losses !! "incons_loss" = Some (Fin 0) /\
    losses !! "orth_loss" = Some (Fin 0).
Proof.
  apply (combined_loss_warmup
           (<["logits" := [[0; 0]]%R]> (<["tcm_inconsistency" := [[0]]%R]> ∅))
           [1%Z] toy_criterion 0 10 [[0; 0]]%R [[0]]%R [[0; 1]]%Z (Fin 1)).
  - reflexivity.
  - reflexivity.
  - reflexivity.
  - reflexivity.
  - lia.
  - reflexivity.
Defined.

(** C4 (the code departs from it).  The warm-up branch is not reached
    on the bundles the drivers pass: line 55 reads ['tcm_inconsistency']
    before the phase is tested, and no output of [forward] has that key.
    So in the warm-up phase ([p < 0.1], positive epoch count), on the
    output of any forward pass and with class ids as labels,
    [combined_loss] raises [KeyError] instead of returning the
    classification loss, whatever the criterion; so it does at epoch 0 of
    10 on the output of the small detector.  With a score put under the
    key the loss reads, the same call returns what the claim says. *)
Theorem warmup_raises_on_forward_output :
  (let* outputs := forward toy_detector 1 toy_frames 2 in
   combined_loss outputs [0; 1]%Z toy_criterion 0 10)
  = Raise (KeyError "tcm_inconsistency") /\
  (forall (self : DeepfakeDetector) (num_gpus : nat) (x : FrameBatch) (bs : Z)
          (outputs : gmap string matrix) (labels : list Z) (onehot : list (list Z))
          (criterion : matrix -> matrix -> res tval) (epoch max_epochs : Z),
      forward self num_gpus x bs = Ok outputs ->
      one_hot2 labels = Ok onehot ->
      (0 < max_epochs)%Z ->
      (progress epoch max_epochs < 0.1)%Q ->
      combined_loss outputs labels criterion epoch max_epochs
      = Raise (KeyError "tcm_inconsistency") /\
      (forall (logits scores : matrix) (cls : tval),
          outputs !! "logits" = Some logits ->
          criterion logits (float onehot) = Ok cls ->
          exists losses,
            combined_loss (<["tcm_inconsistency" := scores]> outputs) labels criterion
                          epoch max_epochs = Ok (cls, losses) /\
            losses !! "cls_loss" = Some cls /\
            losses !! "incons_loss" = Some (Fin 0) /\
            losses !! "orth_loss" = Some (Fin 0))).
Proof.
  split; [reflexivity|].
  intros self num_gpus x bs outputs labels onehot criterion epoch max_epochs
         Hf Hlabels Hmax Hp.
  split.
  - destruct (forward_outputs _ _ _ _ _ Hf) as (lg & df & tc & ->).
    unfold combined_loss. unfold getitem at 1.
    replace ((<["logits" := lg]> (<["dama_feats" := df]> (<["tcm_consistency" := tc]> ∅))
              : gmap string matrix) !! "logits") with (Some lg) by reflexivity.
    cbn [bind]. rewrite Hlabels. reflexivity.
  - intros logits scores cls Hlogits Hcls.
    apply (combined_loss_warmup _ labels criterion epoch max_epochs logits scores onehot cls);
      try assumption.
    + rewrite lookup_insert_ne by discriminate. exact Hlogits.
    + apply lookup_insert_eq.
Qed.

(** C5.  For a positive epoch count, the weight of line 86 is
    [0.3 * min(1, (p - 0.2) / 0.8)] at the progress [p]; it does not
    decrease when the progress grows (in particular on [[0.2, 1)]), it is 0
    at [p = 0.2] and it is 0.3 from [p = 1] on. *)
Theorem ramp_weight (epoch max_epochs epoch' max_epochs' : Z) :
  (0 < max_epochs)%Z ->
  (0 < max_epochs')%Z ->
  (ramp epoch max_epochs == ramp_of_progress (progress epoch max_epochs))%Q /\
  ((progress epoch max_epochs <= progress epoch' max_epochs')%Q ->
   (ramp epoch max_epochs <= ramp epoch' max_epochs')%Q) /\
  ((progress epoch max_epochs == 0.2)%Q -> (ramp epoch max_epochs == 0)%Q) /\
  ((1 <= progress epoch max_epochs)%Q -> (ramp epoch max_epochs == 0.3)%Q).
Proof.
  assert (Hform : forall e m, (0 < m)%Z ->
             (ramp e m == ramp_of_progress (progress e m))%Q).
  { intros e m Hm. apply inject_Z_pos, Qpos_neq in Hm.
    unfold ramp, ramp_of_progress, progress.
    assert (E : ((inject_Z e - 0.2 * inject_Z m) / (0.8 * inject_Z m)
                 == (inject_Z e / inject_Z m - 0.2) / 0.8)%Q)
      by (field; exact Hm).
    rewrite E. reflexivity. }
  assert (Hmono : forall p q, (p <= q)%Q -> (ramp_of_progress p <= ramp_of_progress q)%Q).
  { intros p q Hpq. unfold ramp_of_progress.
    assert (H1 : ((p - 0.2) / 0.8 <= (q - 0.2) / 0.8)%Q).
    { unfold Qdiv. apply Qmult_le_compat_r; [Lqa.lra | discriminate]. }
    pose proof (Q.min_le_compat_l _ _ 1%Q H1). Lqa.lra. }
  intros Hm Hm'. repeat split.
  - apply Hform, Hm.
  - intros Hle. rewrite (Hform _ _ Hm), (Hform _ _ Hm'). apply Hmono, Hle.
  - intros Hp. rewrite (Hform _ _ Hm). unfold ramp_of_progress. rewrite Hp. reflexivity.
  - intros Hp. rewrite (Hform _ _ Hm). unfold ramp_of_progress.
    rewrite Q.min_l; [reflexivity|]. apply Qle_shift_div_l; [reflexivity | Lqa.lra].
Qed.

Lemma ramp_weight_witness :
  (ramp 5 10 == ramp_of_progress (progress 5 10))%Q /\
  ((progress 5 10 <= progress 7 10)%Q -> (ramp 5 10 <= ramp 7 10)%Q) /\
  ((progress 5 10 == 0.2)%Q -> (ramp 5 10 == 0)%Q) /\
  ((1 <= progress 5 10)%Q -> (ramp 5 10 == 0.3)%Q).
Proof.
  apply (ramp_weight 5 10 7 10); lia.
Defined.

Example ramp_at_one_fifth : (ramp 2 10 == 0)%Q.
Proof. reflexivity. Qed.

Example ramp_half_way : (ramp 6 10 == 0.15)%Q.
Proof. reflexivity. Qed.

Example ramp_capped : (ramp 10 10 == 0.3)%Q /\ (ramp 15 10 == 0.3)%Q.
Proof. split; reflexivity. Qed.

(** The one-hot rows determine the masks from the labels. *)
Lemma one_hot2_masks (labels : list Z) : forall onehot,
  one_hot2 labels = Ok onehot ->
  length onehot = length labels /\
  map (fun row => Z.eqb (nth 0 row 0%Z) 1) onehot = map (fun l => Z.eqb l 0) labels.
Proof.
  unfold one_hot2.
  induction labels as [|l labels IH]; intros onehot H; simpl in H.
  - injection H as <-. split; reflexivity.
  - destruct (Z.eqb l 0) eqn:E0; [|destruct (Z.eqb l 1) eqn:E1];
      cbn [bind] in H; try discriminate H.
    + destruct (map_res _ labels) as [rest|err]; cbn [bind] in H; try discriminate H.
      injection H as <-. destruct (IH rest eq_refl) as [Hlen Hmask].
      simpl. rewrite Hlen, Hmask, E0. split; reflexivity.
    + destruct (map_res _ labels) as [rest|err]; cbn [bind] in H; try discriminate H.
      injection H as <-. destruct (IH rest eq_refl) as [Hlen Hmask].
      simpl. rewrite Hlen, Hmask, E0. split; reflexivity.
Qed.

Lemma tadd_nan_r (a : tval) : tadd a NaN = NaN.
Proof. destruct a; reflexivity. Qed.

(** The Full phase ([p >= 0.2], for a positive epoch count) on a bundle
    that has the four keys, with scores for every label and feature
    matrices of one batch size: the total is
    [cls_loss + ramp * incons_loss + 0.01 * orth_loss]. *)
Lemma combined_loss_full
    (outputs : gmap string matrix) (labels : list Z)
    (criterion : matrix -> matrix -> res tval) (epoch max_epochs : Z)
    (logits scores dama_feats tcm_feats : matrix) (onehot : list (list Z)) (cls : tval) :
  outputs !! "logits" = Some logits ->
  outputs !! "tcm_inconsistency" = Some scores ->
  outputs !! "dama_feats" = Some dama_feats ->
  outputs !! "tcm_feats" = Some tcm_feats ->
  one_hot2 labels = Ok onehot ->
  criterion logits (float onehot) = Ok cls ->
  length scores = length labels ->
  length dama_feats = length tcm_feats ->
  (0 < max_epochs)%Z ->
  (0.2 <= progress epoch max_epochs)%Q ->
  exists product,
    mm_t dama_feats tcm_feats = Ok product /\
    let incons := tadd (term1 labels scores) (term2 labels scores) in
    let orth := Fin (norm product ^ 2) in
    combined_loss outputs labels criterion epoch max_epochs
    = Ok (tadd (tadd cls (tmul (Fin (Q2R (ramp epoch max_epochs))) incons))
               (tmul (Fin 0.01) orth),
          losses_dict cls incons orth).
Proof.
  intros Hlogits Hscores Hd Ht Hhot Hcrit Hlen Hfeat Hmax Hp.
  destruct (one_hot2_masks _ _ Hhot) as [Hhl Hmask].
  pose proof (progress_ge _ _ _ Hmax Hp) as Hge.
  pose proof (inject_Z_pos _ Hmax) as Hpos.
  assert (Hprod : exists product, mm_t dama_feats tcm_feats = Ok product).
  { unfold mm_t. rewrite Hfeat, Nat.eqb_refl. eauto. }
  destruct Hprod as [product Hprod]. exists product. split; [exact Hprod|].
  cbv zeta. unfold combined_loss, getitem.
  rewrite Hlogits. cbn [bind]. rewrite Hhot. cbn [bind]. rewrite Hscores. cbn [bind].
  rewrite (Qltb_false (inject_Z epoch) (0.1 * inject_Z max_epochs)) by Lqa.lra.
  rewrite (Qltb_false (inject_Z epoch) (0.2 * inject_Z max_epochs)) by Lqa.lra.
  rewrite andb_false_r. rewrite Hcrit. cbn [bind].
  rewrite Hmask. unfold masked_select.
  assert (Hl1 : length (mean_dim1 scores) = length (map (fun l => Z.eqb l 0) labels)).
  { unfold mean_dim1. rewrite !List.length_map. exact Hlen. }
  rewrite !List.length_map in *. rewrite Hl1, Nat.eqb_refl. cbn [bind].
  destruct (Qeq_bool (0.8 * inject_Z max_epochs) 0) eqn:Ez.
  { apply Qeq_bool_iff in Ez. exfalso. Lqa.lra. }
  cbn [bind]. rewrite Hd. cbn [bind]. rewrite Ht. cbn [bind]. rewrite Hprod. cbn [bind].
  unfold term1, term2, scores_where. rewrite map_map. reflexivity.
Qed.

(** No label is kept: the selection is empty. *)
Lemma scores_where_none (keep : Z -> bool) (labels : list Z) (scores : matrix) :
  Forall (fun l => keep l = false) labels ->
  scores_where keep labels scores = [].
Proof.
  intros Hall. unfold scores_where.
  generalize (mean_dim1 scores). induction Hall as [|l ls Hl _ IH]; intros means.
  - destruct means; reflexivity.
  - destruct means as [|v means]; [reflexivity|].
    cbn [map combine List.filter snd]. rewrite Hl. apply IH.
Qed.

(** C2 (as the code has it).  In the Full phase, on a bundle with the
    four keys, a batch whose labels are all real or all fake does not make
    [combined_loss] raise; the mean over the empty side is NaN and is not
    replaced by zero, so the diagnostic ['incons_loss'] and the total loss
    are NaN. *)
Theorem combined_loss_empty_side
    (outputs : gmap string matrix) (labels : list Z)
    (criterion : matrix -> matrix -> res tval) (epoch max_epochs : Z)
    (logits scores dama_feats tcm_feats : matrix) (onehot : list (list Z)) (cls : tval) :
  outputs !! "logits" = Some logits ->
  outputs !! "tcm_inconsistency" = Some scores ->
  outputs !! "dama_feats" = Some dama_feats ->
  outputs !! "tcm_feats" = Some tcm_feats ->
  one_hot2 labels = Ok onehot ->
  criterion logits (float onehot) = Ok cls ->
  length scores = length labels ->
  length dama_feats = length tcm_feats ->
  (0 < max_epochs)%Z ->
  (0.2 <= progress epoch max_epochs)%Q ->
  Forall (fun l => l = 0%Z) labels \/ Forall (fun l => l = 1%Z) labels ->
  exists orth,
    combined_loss outputs labels criterion epoch max_epochs
    = Ok (NaN, losses_dict cls NaN orth).
Proof.
  intros Hlogits Hscores Hd Ht Hhot Hcrit Hlen Hfeat Hmax Hp Hside.
  destruct (combined_loss_full _ _ _ _ _ _ _ _ _ _ _
              Hlogits Hscores Hd Ht Hhot Hcrit Hlen Hfeat Hmax Hp)
    as (product & _ & Hfull).
  cbv zeta in Hfull.
  assert (Hnan : tadd (term1 labels scores) (term2 labels scores) = NaN).
  { destruct Hside as [Hreal|Hfake].
    - unfold term2. rewrite scores_where_none.
      + simpl. apply tadd_nan_r.
      + eapply List.Forall_impl; [|exact Hreal]. intros l ->. reflexivity.
    - unfold term1. rewrite scores_where_none.
      + reflexivity.
      + eapply List.Forall_impl; [|exact Hfake]. intros l ->. reflexivity. }
  rewrite Hnan in Hfull. exists (Fin (norm product ^ 2)).
  rewrite Hfull. cbn [tmul]. rewrite tadd_nan_r. reflexivity.
Qed.

Lemma combined_loss_empty_side_witness :
  exists orth,
    combined_loss toy_bundle [0%Z] toy_criterion 1 1 = Ok (NaN, losses_dict (Fin 1) NaN orth).
Proof.
  apply (combined_loss_empty_side toy_bundle [0%Z] toy_criterion 1 1
           [[0; 0]]%R [[1 / 2]]%R [[1]]%R [[2]]%R [[1; 0]]%Z (Fin 1)).
  - reflexivity.
  - reflexivity.
  - reflexivity.
  - reflexivity.
  - reflexivity.
  - reflexivity.
  - reflexivity.
  - reflexivity.
  - lia.
  - discriminate.
  - left. repeat constructor.
Defined.

(** The input that refutes C2 as it is stated: one real video with mean
    inconsistency 1/2 in the Full phase.  The real side's hinge term is
    [relu (1/2 - 0.1)], a number; with a zero contribution from the empty
    fake side the consistency loss would be that number, and the code
    reports NaN. *)
Lemma empty_side_is_not_zero :
  exists total losses,
    combined_loss toy_bundle [0%Z] toy_criterion 1 1 = Ok (total, losses) /\
    (exists r, term1 [0%Z] [[1 / 2]]%R = Fin r) /\
    losses !! "incons_loss" = Some NaN /\
    losses !! "incons_loss" <> Some (tadd (term1 [0%Z] [[1 / 2]]%R) (Fin 0)).
Proof.
  eexists. eexists.
  split; [reflexivity|].
  split; [eexists; reflexivity|].
  split; [reflexivity|].
  intros H. discriminate H.
Qed.

End StagedLoss.

(** * The train driver *)

Section TrainDriver.

Local Open Scope R_scope.

(** C3 (the code departs from it).  Ten batches of three videos, thirty
    samples, with [accum_steps = 3]: the optimizer steps after batches 3, 6
    and 9 and never after batch 10, whose gradients are accumulated last.
    The flush tests the number of samples, 30, which is a multiple of 3. *)
Theorem flush_tests_sample_count
    (roc_auc_score : list Z -> list R -> res R)
    (accuracy_score : list Z -> list Z -> res R) :
  let run := train_epoch roc_auc_score accuracy_score complete_model
                         (repeat toy_batch 10) toy_criterion 3 3 0 10 in
  length (repeat toy_batch 10) = 10%nat /\
  dataset_len (repeat toy_batch 10) = 30%nat /\
  steps (snd run) = [3; 6; 9]%nat /\
  List.last (snd run) ZeroGrad = Backward 10.
Proof.
  cbv zeta. repeat split; reflexivity.
Qed.

(** With one video per batch the ten batches hold ten samples, and the
    same driver does flush. *)
Example flush_on_ten_samples
    (roc_auc_score : list Z -> list R -> res R)
    (accuracy_score : list Z -> list Z -> res R) :
  steps (snd (train_epoch roc_auc_score accuracy_score complete_model
                          (repeat (mkBatch (mkFrameBatch 4 [[[]; []; []; []]]) [1%Z]) 10)
                          toy_criterion 1 3 0 10))
  = [3; 6; 9; 10]%nat.
Proof. reflexivity. Qed.

End TrainDriver.

(** * The epoch averages *)

Section EpochAverages.

Local Open Scope R_scope.

Lemma tadd_assoc (a b c : tval) : tadd (tadd a b) c = tadd a (tadd b c).
Proof.
  destruct a as [x|], b as [y|], c as [z|]; simpl; try reflexivity.
  f_equal. ring.
Qed.

Lemma tadd_zero_l (a : tval) : tadd (Fin 0) a = a.
Proof. destruct a as [x|]; simpl; [f_equal; ring | reflexivity]. Qed.

(** Dividing every total by [d] before the weighted sum divides the sum. *)
Lemma tsum_scaled (d : R) (cs : list contribution) :
  d <> 0 ->
  tsum (map (fun c => tmul (tdiv_by (c_total c) d) (Fin (INR (c_size c)))) cs)
  = tdiv_by (tsum (map (fun c => tmul (c_total c) (Fin (INR (c_size c)))) cs)) d.
Proof.
  intros Hd. induction cs as [|c cs IH]; simpl.
  - f_equal. field. exact Hd.
  - fold (tsum (map (fun c => tmul (tdiv_by (c_total c) d) (Fin (INR (c_size c)))) cs)).
    fold (tsum (map (fun c => tmul (c_total c) (Fin (INR (c_size c)))) cs)).
    rewrite IH.
    destruct (c_total c) as [x|];
      destruct (tsum (map (fun c => tmul (c_total c) (Fin (INR (c_size c)))) cs)) as [y|];
      simpl; try reflexivity.
    f_equal. field. exact Hd.
Qed.

Lemma tdiv_by_swap (a : tval) (d n : R) :
  d <> 0 -> n <> 0 -> tdiv_by (tdiv_by a d) n = tdiv_by (tdiv_by a n) d.
Proof.
  intros Hd Hn. destruct a as [x|]; simpl; [|reflexivity].
  f_equal. field. split; assumption.
Qed.

(** The loop of [train_epoch], when it runs to its end: every batch
    contributes, the running sums grow by the contributions (the total
    after its division by [accum_steps]), and the optimizer steps after the
    batches whose number is a multiple of [accum_steps]. *)
Lemma train_loop_sums (model : callable) (criterion : matrix -> matrix -> res tval)
    (bs a e m : Z) (batches : list batch) :
  forall (i : nat) (st st' : running) (log log' : list event),
  train_loop model criterion bs a e m batches i st log = (Ok st', log') ->
  exists cs,
    map_res (batch_contribution model criterion bs e m) batches = Ok cs /\
    running_loss st'
    = tadd (running_loss st)
           (tsum (map (fun c => tmul (tdiv_by (c_total c) (IZR a)) (Fin (INR (c_size c)))) cs)) /\
    running_cls_loss st'
    = tadd (running_cls_loss st)
           (tsum (map (fun c => tmul (c_cls c) (Fin (INR (c_size c)))) cs)) /\
    running_cons_loss st'
    = tadd (running_cons_loss st)
           (tsum (map (fun c => tmul (c_incons c) (Fin (INR (c_size c)))) cs)) /\
    steps log'
    = (steps log
       ++ List.filter (fun k => Z.eqb (Z.of_nat k mod a) 0) (seq (S i) (length batches)))%list.
Proof.
  induction batches as [|b rest IH]; intros i st st' log log' H.
  - simpl in H. injection H as <- <-. exists []. simpl.
    rewrite app_nil_r. repeat split; destruct st as [[x|] [y|] [z|] ? ?]; simpl;
      try reflexivity; f_equal; ring.
  - cbn [train_loop] in H. unfold batch_contribution. cbn [map_res].
    destruct (model _ _) as [outputs|err]; cbn [bind] in H |- *; [|discriminate H].
    destruct (combined_loss outputs (labels b) criterion e m) as [[loss losses]|err];
      cbn [bind fst snd] in H |- *; [|discriminate H].
    destruct (Z.eqb a 0) eqn:Ea; [discriminate H|].
    unfold accumulate in H.
    destruct (getitem losses "cls_loss") as [cls|err]; cbn [bind fst snd] in H |- *;
      [|discriminate H].
    destruct (getitem losses "incons_loss") as [incons|err]; cbn [bind] in H |- *;
      [|discriminate H].
    destruct (getitem outputs "logits") as [logits|err]; cbn [bind] in H; [|discriminate H].
    destruct (column (softmax_dim1 logits) 1) as [preds|err]; cbn [bind] in H;
      [|discriminate H].
    apply IH in H. destruct H as (cs & Hcs & Hloss & Hcls & Hcons & Hsteps).
    fold (batch_contribution model criterion bs e m). rewrite Hcs. cbn [bind].
    eexists. split; [reflexivity|].
    cbn [running_loss running_cls_loss running_cons_loss] in Hloss, Hcls, Hcons.
    cbn [map tsum fold_right c_total c_cls c_incons c_size].
    rewrite Hloss, Hcls, Hcons, !tadd_assoc.
    repeat split.
    rewrite Hsteps. cbn [seq List.filter length].
    destruct (Z.eqb (Z.of_nat (S i) mod a) 0).
    + unfold steps. rewrite !flat_map_app. simpl. rewrite <- !app_assoc. reflexivity.
    + unfold steps. rewrite !flat_map_app. simpl. rewrite app_nil_r. reflexivity.
Qed.

(** What a run of [train_epoch] that returns metrics has done. *)
Lemma train_epoch_returns
    (roc_auc_score : list Z -> list R -> res R)
    (accuracy_score : list Z -> list Z -> res R)
    (model : callable) (dataloader : list batch)
    (criterion : matrix -> matrix -> res tval) (bs a e m : Z)
    (metrics : gmap string tval) (log : list event) :
  train_epoch roc_auc_score accuracy_score model dataloader criterion bs a e m
  = (Ok metrics, log) ->
  a <> 0%Z /\
  dataset_len dataloader <> 0%nat /\
  (exists cs,
      map_res (batch_contribution model criterion bs e m) dataloader = Ok cs /\
      metrics !! "loss"
      = Some (tdiv_by (weighted_mean c_total cs (dataset_len dataloader)) (IZR a)) /\
      metrics !! "cls_loss" = Some (weighted_mean c_cls cs (dataset_len dataloader)) /\
      metrics !! "incons_loss" = Some (weighted_mean c_incons cs (dataset_len dataloader))) /\
  steps log
  = (List.filter (fun k => Z.eqb (Z.of_nat k mod a) 0) (seq 1 (length dataloader))
     ++ (if Z.eqb (Z.of_nat (dataset_len dataloader) mod a) 0
         then [] else [length dataloader]))%list.
Proof.
  unfold train_epoch. intros H.
  destruct (train_loop model criterion bs a e m dataloader 0
                       (mkRunning (Fin 0) (Fin 0) (Fin 0) [] []) [ZeroGrad])
    as [[st|err] log0] eqn:Hloop; [|discriminate H].
  destruct (Z.eqb a 0) eqn:Ea; [discriminate H|].
  apply Z.eqb_neq in Ea.
  injection H as Hm <-.
  unfold epoch_metrics in Hm.
  destruct (Nat.eqb (dataset_len dataloader) 0) eqn:En; [discriminate Hm|].
  apply Nat.eqb_neq in En.
  destruct (roc_auc_score _ _) as [auc|err]; cbn [bind] in Hm; [|discriminate Hm].
  destruct (accuracy_score _ _) as [acc|err]; cbn [bind] in Hm; [|discriminate Hm].
  injection Hm as <-.
  apply train_loop_sums in Hloop.
  destruct Hloop as (cs & Hcs & Hloss & Hcls & Hcons & Hsteps).
  cbn [running_loss running_cls_loss running_cons_loss] in Hloss, Hcls, Hcons.
  rewrite tadd_zero_l in Hloss, Hcls, Hcons.
  assert (Ha : IZR a <> 0) by (apply not_0_IZR; exact Ea).
  assert (Hn : INR (dataset_len dataloader) <> 0) by (apply not_0_INR; exact En).
  split; [exact Ea|]. split; [exact En|]. split.
  - exists cs. split; [exact Hcs|]. unfold weighted_mean. repeat split.
    + change ((<["loss" := tdiv_by (running_loss st) (INR (dataset_len dataloader))]> _
               : gmap string tval) !! "loss")
        with (Some (tdiv_by (running_loss st) (INR (dataset_len dataloader)))).
      rewrite Hloss, tsum_scaled by exact Ha.
      rewrite tdiv_by_swap by assumption. reflexivity.
    + change (Some (tdiv_by (running_cls_loss st) (INR (dataset_len dataloader)))
              = Some (tdiv_by (tsum (map (fun c => tmul (c_cls c) (Fin (INR (c_size c)))) cs))
                              (INR (dataset_len dataloader)))).
      rewrite Hcls. reflexivity.
    + change (Some (tdiv_by (running_cons_loss st) (INR (dataset_len dataloader)))
              = Some (tdiv_by (tsum (map (fun c => tmul (c_incons c) (Fin (INR (c_size c)))) cs))
                              (INR (dataset_len dataloader)))).
      rewrite Hcons. reflexivity.
  - destruct (Z.eqb (Z.of_nat (dataset_len dataloader) mod a) 0); cbn [negb].
    + rewrite Hsteps. simpl. rewrite app_nil_r. reflexivity.
    + unfold steps in *. rewrite flat_map_app, Hsteps. reflexivity.
Qed.

(** C10.  Whenever [train_epoch] returns its metrics, the reported
    ['loss'] is the size-weighted average of the batches' total losses
    divided by [accum_steps], while ['cls_loss'] and ['incons_loss'] are the
    size-weighted averages of the components, not divided.  And the
    reported ['loss'] can be smaller than the reported ['cls_loss']: with
    [accum_steps = 2] and a classification loss of 1 in the warm-up phase,
    the driver reports a loss of 1/2 next to a [cls_loss] of 1. *)
Theorem epoch_loss_divided_by_accum_steps :
  (forall (roc_auc_score : list Z -> list R -> res R)
          (accuracy_score : list Z -> list Z -> res R)
          (model : callable) (dataloader : list batch)
          (criterion : matrix -> matrix -> res tval) (bs accum_steps e m : Z)
          (metrics : gmap string tval) (log : list event),
      train_epoch roc_auc_score accuracy_score model dataloader criterion bs accum_steps e m
      = (Ok metrics, log) ->
      exists cs,
        map_res (batch_contribution model criterion bs e m) dataloader = Ok cs /\
        metrics !! "loss"
        = Some (tdiv_by (weighted_mean c_total cs (dataset_len dataloader)) (IZR accum_steps)) /\
        metrics !! "cls_loss" = Some (weighted_mean c_cls cs (dataset_len dataloader)) /\
        metrics !! "incons_loss" = Some (weighted_mean c_incons cs (dataset_len dataloader))) /\
  (exists metrics log loss cls,
      train_epoch (fun _ _ => Ok 1) (fun _ _ => Ok 1) complete_model [toy_batch]
                  toy_criterion 3 2 0 10 = (Ok metrics, log) /\
      metrics !! "loss" = Some (Fin loss) /\
      metrics !! "cls_loss" = Some (Fin cls) /\
      loss = 1 / 2 /\ cls = 1 /\ loss < cls).
Proof.
  split.
  - intros roc acc model dataloader criterion bs a e m metrics log Hrun.
    apply train_epoch_returns in Hrun. tauto.
  - eexists. eexists. eexists. eexists.
    split; [reflexivity|]. split; [reflexivity|]. split; [reflexivity|].
    simpl. repeat split; lra.
Qed.

Lemma epoch_loss_divided_by_accum_steps_witness :
  exists cs,
    map_res (batch_contribution complete_model toy_criterion 3 0 10) [toy_batch] = Ok cs /\
    toy_metrics !! "loss"
    = Some (tdiv_by (weighted_mean c_total cs (dataset_len [toy_batch])) (IZR 2)) /\
    toy_metrics !! "cls_loss" = Some (weighted_mean c_cls cs (dataset_len [toy_batch])) /\
    toy_metrics !! "incons_loss" = Some (weighted_mean c_incons cs (dataset_len [toy_batch])).
Proof.
  apply (proj1 epoch_loss_divided_by_accum_steps
               (fun _ _ => Ok 1) (fun _ _ => Ok 1) complete_model [toy_batch]
               toy_criterion 3%Z 2%Z 0%Z 10%Z
               toy_metrics [ZeroGrad; Backward 1; Step 1; ZeroGrad]).
  reflexivity.
Defined.

End EpochAverages.

(** * Loading a checkpoint *)

Section Checkpoints.

Lemma map_imap_same {A : Type} (f : string -> A -> option A) (m : gmap string A) :
  (forall i x, m !! i = Some x -> f i x = Some x) -> map_imap f m = m.
Proof.
  intros H. apply map_eq. intros i. rewrite map_lookup_imap.
  destruct (m !! i) as [x|] eqn:E; simpl; [apply H; exact E | reflexivity].
Qed.

(** A dictionary none of whose keys names a parameter is accepted by the
    non-strict [load_state_dict], which then changes nothing. *)
Lemma load_state_dict_foreign_keys (module : gmap string param) (items : list (string * pyobj)) :
  (forall name p, module !! name = Some p -> contains items name = false) ->
  load_state_dict module (ODict items) = (module, None).
Proof.
  intros Hforeign.
  assert (Hparam : forall name p, module !! name = Some p ->
                                  load_param items name p = (p, true)).
  { intros name p Hin. unfold load_param, item.
    destruct (List.find _ items) as [kv|] eqn:Ef; [|reflexivity].
    apply find_some in Ef. destruct Ef as [Hkv Heq].
    apply Hforeign in Hin. unfold contains in Hin.
    assert (Hex : existsb (fun kv => String.eqb (fst kv) name) items = true)
      by (apply existsb_exists; exists kv; split; assumption).
    congruence. }
  unfold load_state_dict.
  rewrite map_imap_same by (intros i x Hi; rewrite (Hparam i x Hi); reflexivity).
  replace (forallb _ (map_to_list module)) with true; [reflexivity|].
  symmetry. apply forallb_forall. intros [name p] Hin. simpl.
  apply list_elem_of_In, elem_of_map_to_list in Hin.
  rewrite (Hparam name p Hin). reflexivity.
Qed.

(** So the first [load_state_dict] of [load_model] succeeds on such a
    blob, and [load_model] returns the module as it was built: neither
    fallback runs. *)
Lemma load_model_foreign_keys (torch_load : string -> res pyobj) (fresh : gmap string param)
    (model_path : string) (items : list (string * pyobj)) :
  torch_load model_path = Ok (ODict items) ->
  (forall name p, fresh !! name = Some p -> contains items name = false) ->
  load_model torch_load fresh model_path = Ok fresh.
Proof.
  intros Hload Hforeign. unfold load_model.
  rewrite Hload, load_state_dict_foreign_keys by exact Hforeign. reflexivity.
Qed.

(** The fallbacks do what C7 says once the first attempt has raised. *)
Lemma load_model_fallback (torch_load : string -> res pyobj) (fresh partly : gmap string param)
    (model_path : string) (items : list (string * pyobj)) (err : exn) :
  torch_load model_path = Ok (ODict items) ->
  load_state_dict fresh (ODict items) = (partly, Some err) ->
  load_model torch_load fresh model_path
  = if contains items "model_state_dict" then
      let* state := item items "model_state_dict" in
      match load_state_dict partly state with
      | (model, None) => Ok model
      | (_, Some err') => Raise err'
      end
    else if contains items "state_dict" then
      let* state := item items "state_dict" in
      match load_state_dict partly state with
      | (model, None) => Ok model
      | (_, Some err') => Raise err'
      end
    else Raise (ValueError ("Could not load model from " ++ model_path)).
Proof.
  intros Hload Hfirst. unfold load_model. rewrite Hload, Hfirst. cbn [bind]. reflexivity.
Qed.

Example fallback_reached :
  load_model (fun _ => Ok (ODict [("fusion_gate.0.bias"%string, OTensor (mkParam [3%nat] [0; 0; 0]%R));
                                  ("state_dict"%string, ODict trained_state)]))
             fresh_params "model.pth"
  = Ok trained_params.
Proof. vm_compute. reflexivity. Qed.

(** C7 (the code departs from it).  A blob that holds the trained state
    under ['state_dict'] only is accepted by the first, non-strict
    [load_state_dict], which finds no parameter name among its keys and
    copies nothing: [load_model] returns the freshly built parameters and
    never reads the nested state.  The same happens with a checkpoint as
    train.py writes it, under ['model_state_dict'].  A bare state
    dictionary is loaded. *)
Theorem state_dict_blob_is_not_loaded :
  load_model (fun _ => Ok state_dict_blob) fresh_params "model.pth" = Ok fresh_params /\
  load_model (fun _ => Ok epoch_checkpoint) fresh_params "model.pth" = Ok fresh_params /\
  load_model (fun _ => Ok (ODict trained_state)) fresh_params "model.pth" = Ok trained_params /\
  fresh_params !! "fusion_gate.0.bias" = Some (mkParam [2%nat] [0; 0]%R) /\
  trained_params !! "fusion_gate.0.bias" = Some (mkParam [2%nat] [1; 2]%R).
Proof.
  assert (Hforeign : forall items,
             contains items "fusion_gate.0.bias" = false ->
             forall name p, fresh_params !! name = Some p -> contains items name = false).
  { intros items Hnone name p Hin. unfold fresh_params in Hin.
    apply lookup_singleton_Some in Hin. destruct Hin as [<- _]. exact Hnone. }
  split; [|split; [|split; [|split]]].
  - apply load_model_foreign_keys with (items := [("state_dict"%string, ODict trained_state)]).
    + reflexivity.
    + apply Hforeign. reflexivity.
  - eapply load_model_foreign_keys.
    + reflexivity.
    + apply Hforeign. reflexivity.
  - vm_compute. reflexivity.
  - reflexivity.
  - reflexivity.
Qed.

End Checkpoints.

(** * Further properties of the staged loss *)

Section StagedLossMore.

Local Open Scope R_scope.

Lemma rsum_squares_nonneg (l : list R) : 0 <= rsum (map (fun x => x * x) l).
Proof.
  induction l as [|x l IH]; simpl.
  - lra.
  - pose proof (Rle_0_sqr x) as Hx. unfold Rsqr in Hx. lra.
Qed.

(** The squared Frobenius norm is the sum of the squared entries. *)
Lemma norm_squared (m : matrix) : norm m ^ 2 = sum_squares m.
Proof.
  unfold norm, sum_squares. simpl. rewrite Rmult_1_r.
  apply sqrt_sqrt. apply rsum_squares_nonneg.
Qed.

Lemma tsum_Fin (l : list R) : tsum (map Fin l) = Fin (rsum l).
Proof.
  induction l as [|x l IH]; simpl.
  - reflexivity.
  - fold (tsum (map Fin l)). rewrite IH. reflexivity.
Qed.

Lemma mean_Fin (l : list R) : l <> [] -> mean (map Fin l) = Fin (rsum l / INR (length l)).
Proof.
  intros Hne. destruct l as [|x l]; [congruence|].
  unfold mean. cbn [map]. change (Fin x :: map Fin l) with (map Fin (x :: l)).
  rewrite tsum_Fin, List.length_map. reflexivity.
Qed.

(** With no empty row of scores, the selected per-video scores are the
    row means of the selected videos. *)
Lemma scores_where_means (keep : Z -> bool) (labels : list Z) : forall (scores : matrix),
  length scores = length labels ->
  Forall (fun row => row <> []) scores ->
  scores_where keep labels scores = map Fin (means_where keep labels scores).
Proof.
  unfold scores_where, means_where, mean_dim1.
  induction labels as [|l labels IH]; intros [|row scores] Hlen Hrows; try discriminate.
  - reflexivity.
  - inversion Hrows as [|? ? Hrow Hrest]; subst.
    cbn [map combine List.filter fst snd]. destruct (keep l); cbn [map fst snd].
    + rewrite (mean_Fin row Hrow). unfold row_mean. f_equal.
      apply IH; [simpl in Hlen; lia | exact Hrest].
    + apply IH; [simpl in Hlen; lia | exact Hrest].
Qed.

Lemma rsum_bounds (c : R) (l : list R) :
  (Forall (fun x => x <= c) l -> rsum l <= INR (length l) * c) /\
  (Forall (fun x => c <= x) l -> INR (length l) * c <= rsum l).
Proof.
  split; induction 1 as [|x l Hx _ IH]; cbn [rsum fold_right length];
    try (simpl; lra); rewrite S_INR; fold (rsum l); lra.
Qed.

Lemma mean_le (c : R) (l : list R) :
  l <> [] -> Forall (fun x => x <= c) l -> rsum l / INR (length l) <= c.
Proof.
  intros Hne Hall. pose proof (proj1 (rsum_bounds c l) Hall) as Hs.
  assert (Hn : 0 < INR (length l)).
  { apply lt_0_INR. destruct l; [congruence | simpl; lia]. }
  apply Rmult_le_reg_r with (INR (length l)); [exact Hn|].
  unfold Rdiv. rewrite Rmult_assoc, Rinv_l; lra.
Qed.

Lemma mean_ge (c : R) (l : list R) :
  l <> [] -> Forall (fun x => c <= x) l -> c <= rsum l / INR (length l).
Proof.
  intros Hne Hall. pose proof (proj2 (rsum_bounds c l) Hall) as Hs.
  assert (Hn : 0 < INR (length l)).
  { apply lt_0_INR. destruct l; [congruence | simpl; lia]. }
  apply Rmult_le_reg_r with (INR (length l)); [exact Hn|].
  unfold Rdiv. rewrite Rmult_assoc, Rinv_l; lra.
Qed.

Lemma means_where_nonempty (keep : Z -> bool) (l : Z) (labels : list Z) :
  forall scores : matrix,
  length scores = length labels -> In l labels -> keep l = true ->
  means_where keep labels scores <> [].
Proof.
  unfold means_where.
  induction labels as [|l0 labels IH]; intros [|row scores] Hlen Hin Hkeep;
    try discriminate; try contradiction.
  cbn [combine List.filter fst]. destruct (keep l0) eqn:E0.
  - discriminate.
  - destruct Hin as [->|Hin]; [congruence|].
    apply IH; [simpl in Hlen; lia | exact Hin | exact Hkeep].
Qed.

(** X1.  In the orthogonality-only phase ([0.1 <= p < 0.2], positive
    epoch count) the total is the classification loss plus 0.01 times the
    sum of the squared entries of [dama_feats^T tcm_feats]; the diagnostic
    ['incons_loss'] is 0 and ['orth_loss'] is that sum of squares. *)
Theorem combined_loss_orth_only
    (outputs : gmap string matrix) (labels : list Z)
    (criterion : matrix -> matrix -> res tval) (epoch max_epochs : Z)
    (logits scores dama_feats tcm_feats : matrix) (onehot : list (list Z)) (cls : tval) :
  outputs !! "logits" = Some logits ->
  outputs !! "tcm_inconsistency" = Some scores ->
  outputs !! "dama_feats" = Some dama_feats ->
  outputs !! "tcm_feats" = Some tcm_feats ->
  one_hot2 labels = Ok onehot ->
  criterion logits (float onehot) = Ok cls ->
  length dama_feats = length tcm_feats ->
  (0 < max_epochs)%Z ->
  (0.1 <= progress epoch max_epochs)%Q ->
  (progress epoch max_epochs < 0.2)%Q ->
  exists product,
    mm_t dama_feats tcm_feats = Ok product /\
    combined_loss outputs labels criterion epoch max_epochs
    = Ok (tadd cls (Fin (0.01 * sum_squares product)),
          losses_dict cls (Fin 0) (Fin (sum_squares product))).
Proof.
  intros Hlogits Hscores Hd Ht Hhot Hcrit Hfeat Hmax Hlo Hhi.
  pose proof (progress_ge _ _ _ Hmax Hlo) as Hge.
  pose proof (progress_lt _ _ _ Hmax Hhi) as Hlt.
  assert (Hprod : exists product, mm_t dama_feats tcm_feats = Ok product).
  { unfold mm_t. rewrite Hfeat, Nat.eqb_refl. eauto. }
  destruct Hprod as [product Hprod]. exists product. split; [exact Hprod|].
  unfold combined_loss, getitem.
  rewrite Hlogits. cbn [bind]. rewrite Hhot. cbn [bind]. rewrite Hscores. cbn [bind].
  rewrite (Qltb_false _ _ Hge), (Qltb_true _ _ Hlt).
  replace (Qle_bool (0.1 * inject_Z max_epochs) (inject_Z epoch)) with true
    by (symmetry; apply Qle_bool_iff; exact Hge).
  cbn [andb]. rewrite Hcrit. cbn [bind]. rewrite Hd. cbn [bind]. rewrite Ht. cbn [bind].
  rewrite Hprod. cbn [bind]. rewrite norm_squared.
  f_equal. f_equal.
  replace (Q2R 0) with 0 by (unfold Q2R; simpl; lra).
  destruct cls as [c|]; simpl; [f_equal; ring | reflexivity].
Qed.

Lemma combined_loss_orth_only_witness :
  exists product,
    mm_t [[1]] [[2]] = Ok product /\
    combined_loss toy_bundle [0%Z] toy_criterion 1 10
    = Ok (tadd (Fin 1) (Fin (0.01 * sum_squares product)),
          losses_dict (Fin 1) (Fin 0) (Fin (sum_squares product))).
Proof.
  apply (combined_loss_orth_only toy_bundle [0%Z] toy_criterion 1 10
           [[0; 0]] [[1 / 2]] [[1]] [[2]] [[1; 0]]%Z (Fin 1)).
  - reflexivity.
  - reflexivity.
  - reflexivity.
  - reflexivity.
  - reflexivity.
  - reflexivity.
  - reflexivity.
  - lia.
  - discriminate.
  - reflexivity.
Defined.

(** X2.  In the Full phase, on a batch that has a real and a fake video
    and no empty row of scores, the consistency loss is a number and it is
    not negative. *)
Theorem consistency_loss_nonneg
    (outputs : gmap string matrix) (labels : list Z)
    (criterion : matrix -> matrix -> res tval) (epoch max_epochs : Z)
    (logits scores dama_feats tcm_feats : matrix) (onehot : list (list Z)) (cls : tval) :
  outputs !! "logits" = Some logits ->
  outputs !! "tcm_inconsistency" = Some scores ->
  outputs !! "dama_feats" = Some dama_feats ->
  outputs !! "tcm_feats" = Some tcm_feats ->
  one_hot2 labels = Ok onehot ->
  criterion logits (float onehot) = Ok cls ->
  length scores = length labels ->
  length dama_feats = length tcm_feats ->
  (0 < max_epochs)%Z ->
  (0.2 <= progress epoch max_epochs)%Q ->
  Forall (fun row => row <> []) scores ->
  In 0%Z labels ->
  In 1%Z labels ->
  exists total losses r,
    combined_loss outputs labels criterion epoch max_epochs = Ok (total, losses) /\
    losses !! "incons_loss" = Some (Fin r) /\
    0 <= r.
Proof.
  intros Hlogits Hscores Hd Ht Hhot Hcrit Hlen Hfeat Hmax Hp Hrows Hreal Hfake.
  destruct (combined_loss_full _ _ _ _ _ _ _ _ _ _ _
              Hlogits Hscores Hd Ht Hhot Hcrit Hlen Hfeat Hmax Hp)
    as (product & _ & Hfull).
  cbv zeta in Hfull.
  pose proof (means_where_nonempty (fun l => Z.eqb l 0) 0%Z labels scores
                Hlen Hreal eq_refl) as Hne1.
  pose proof (means_where_nonempty (fun l => negb (Z.eqb l 0)) 1%Z labels scores
                Hlen Hfake eq_refl) as Hne2.
  unfold term1, term2 in Hfull.
  rewrite !scores_where_means in Hfull by assumption.
  rewrite !mean_Fin in Hfull by assumption.
  cbn [tsub relu tadd] in Hfull.
  eexists. eexists. eexists. split; [exact Hfull|]. split; [reflexivity|].
  pose proof (Rmax_l 0 (rsum (means_where (fun l => Z.eqb l 0) labels scores)
                        / INR (length (means_where (fun l => Z.eqb l 0) labels scores)) - 0.1)).
  pose proof (Rmax_l 0 (0.3 - rsum (means_where (fun l => negb (Z.eqb l 0)) labels scores)
                        / INR (length (means_where (fun l => negb (Z.eqb l 0)) labels scores)))).
  lra.
Qed.

Lemma consistency_loss_nonneg_witness :
  exists total losses r,
    combined_loss toy_bundle3 [0; 1; 0]%Z toy_criterion 5 10 = Ok (total, losses) /\
    losses !! "incons_loss" = Some (Fin r) /\
    0 <= r.
Proof.
  apply (consistency_loss_nonneg toy_bundle3 [0; 1; 0]%Z toy_criterion 5 10
           (repeat [0; 0] 3) (repeat [1 / 2] 3) (repeat [1] 3) (repeat [2] 3)
           [[1; 0]; [0; 1]; [1; 0]]%Z (Fin 1)).
  - reflexivity.
  - reflexivity.
  - reflexivity.
  - reflexivity.
  - reflexivity.
  - reflexivity.
  - reflexivity.
  - reflexivity.
  - lia.
  - discriminate.
  - repeat constructor; discriminate.
  - simpl. auto.
  - simpl. auto.
Defined.

(** X3.  The dead zone: in the Full phase, on a batch that has a real
    and a fake video and no empty row of scores, if the mean score of every
    real video is at most 0.1 and that of every fake video at least 0.3, the
    consistency loss is 0. *)
Theorem consistency_loss_dead_zone
    (outputs : gmap string matrix) (labels : list Z)
    (criterion : matrix -> matrix -> res tval) (epoch max_epochs : Z)
    (logits scores dama_feats tcm_feats : matrix) (onehot : list (list Z)) (cls : tval) :
  outputs !! "logits" = Some logits ->
  outputs !! "tcm_inconsistency" = Some scores ->
  outputs !! "dama_feats" = Some dama_feats ->
  outputs !! "tcm_feats" = Some tcm_feats ->
  one_hot2 labels = Ok onehot ->
  criterion logits (float onehot) = Ok cls ->
  length scores = length labels ->
  length dama_feats = length tcm_feats ->
  (0 < max_epochs)%Z ->
  (0.2 <= progress epoch max_epochs)%Q ->
  Forall (fun row => row <> []) scores ->
  In 0%Z labels ->
  In 1%Z labels ->
  Forall (fun x => x <= 0.1) (means_where (fun l => Z.eqb l 0) labels scores) ->
  Forall (fun x => 0.3 <= x) (means_where (fun l => negb (Z.eqb l 0)) labels scores) ->
  exists total losses,
    combined_loss outputs labels criterion epoch max_epochs = Ok (total, losses) /\
    losses !! "incons_loss" = Some (Fin 0).
Proof.
  intros Hlogits Hscores Hd Ht Hhot Hcrit Hlen Hfeat Hmax Hp Hrows Hreal Hfake Hlow Hhigh.
  destruct (combined_loss_full _ _ _ _ _ _ _ _ _ _ _
              Hlogits Hscores Hd Ht Hhot Hcrit Hlen Hfeat Hmax Hp)
    as (product & _ & Hfull).
  cbv zeta in Hfull.
  pose proof (means_where_nonempty (fun l => Z.eqb l 0) 0%Z labels scores
                Hlen Hreal eq_refl) as Hne1.
  pose proof (means_where_nonempty (fun l => negb (Z.eqb l 0)) 1%Z labels scores
                Hlen Hfake eq_refl) as Hne2.
  pose proof (mean_le _ _ Hne1 Hlow) as H1.
  pose proof (mean_ge _ _ Hne2 Hhigh) as H2.
  unfold term1, term2 in Hfull.
  rewrite !scores_where_means in Hfull by assumption.
  rewrite !mean_Fin in Hfull by assumption.
  cbn [tsub relu tadd] in Hfull.
  rewrite !Rmax_left in Hfull by lra.
  replace (0 + 0) with 0 in Hfull by ring.
  eexists. eexists. split; [exact Hfull|]. reflexivity.
Qed.

Lemma consistency_loss_dead_zone_witness :
  exists total losses,
    combined_loss dead_zone_bundle [0; 1]%Z toy_criterion 5 10 = Ok (total, losses) /\
    losses !! "incons_loss" = Some (Fin 0).
Proof.
  apply (consistency_loss_dead_zone dead_zone_bundle [0; 1]%Z toy_criterion 5 10
           [[0; 0]; [0; 0]] [[0]; [1 / 2]] [[1]; [1]] [[2]; [2]]
           [[1; 0]; [0; 1]]%Z (Fin 1)).
  - reflexivity.
  - reflexivity.
  - reflexivity.
  - reflexivity.
  - reflexivity.
  - reflexivity.
  - reflexivity.
  - reflexivity.
  - lia.
  - discriminate.
  - repeat constructor; discriminate.
  - simpl. auto.
  - simpl. auto.
  - repeat constructor. unfold row_mean. simpl. lra.
  - repeat constructor. unfold row_mean. simpl. lra.
Defined.

(** X4.  With [max_epochs = 0] and an epoch that is not negative the
    function reaches the Full phase and the division of line 86 raises
    [ZeroDivisionError], after the criterion has been called. *)
Theorem combined_loss_zero_epochs
    (outputs : gmap string matrix) (labels : list Z)
    (criterion : matrix -> matrix -> res tval) (epoch : Z)
    (logits scores : matrix) (onehot : list (list Z)) (cls : tval) :
  outputs !! "logits" = Some logits ->
  outputs !! "tcm_inconsistency" = Some scores ->
  one_hot2 labels = Ok onehot ->
  criterion logits (float onehot) = Ok cls ->
  length scores = length labels ->
  (0 <= epoch)%Z ->
  combined_loss outputs labels criterion epoch 0 = Raise ZeroDivisionError.
Proof.
  intros Hlogits Hscores Hhot Hcrit Hlen Hep.
  destruct (one_hot2_masks _ _ Hhot) as [Hhl Hmask].
  assert (He : (0 <= inject_Z epoch)%Q).
  { change 0%Q with (inject_Z 0). rewrite <- Zle_Qle. exact Hep. }
  unfold combined_loss, getitem.
  rewrite Hlogits. cbn [bind]. rewrite Hhot. cbn [bind]. rewrite Hscores. cbn [bind].
  change (inject_Z 0) with 0%Q.
  rewrite (Qltb_false (inject_Z epoch) (0.1 * 0)) by Lqa.lra.
  rewrite (Qltb_false (inject_Z epoch) (0.2 * 0)) by Lqa.lra.
  rewrite andb_false_r. rewrite Hcrit. cbn [bind].
  rewrite Hmask. unfold masked_select, mean_dim1.
  rewrite !List.length_map, Hlen, Nat.eqb_refl. cbn [bind]. reflexivity.
Qed.

Lemma combined_loss_zero_epochs_witness :
  combined_loss toy_bundle [0%Z] toy_criterion 0 0 = Raise ZeroDivisionError.
Proof.
  apply (combined_loss_zero_epochs toy_bundle [0%Z] toy_criterion 0
           [[0; 0]] [[1 / 2]] [[1; 0]]%Z (Fin 1)).
  - reflexivity.
  - reflexivity.
  - reflexivity.
  - reflexivity.
  - reflexivity.
  - lia.
Defined.

End StagedLossMore.

(** * Further properties of the epoch drivers *)

Section DriversMore.

Local Open Scope R_scope.

(** The loop of [val_epoch], when it runs to its end: the running sums
    grow by the contributions, the total undivided. *)
Lemma val_loop_sums (model : callable) (criterion : matrix -> matrix -> res tval)
    (bs e m : Z) (batches : list batch) :
  forall (st st' : running),
  for_each (val_batch model criterion bs e m) batches st = Ok st' ->
  exists cs,
    map_res (batch_contribution model criterion bs e m) batches = Ok cs /\
    running_loss st'
    = tadd (running_loss st) (tsum (map (fun c => tmul (c_total c) (Fin (INR (c_size c)))) cs)) /\
    running_cls_loss st'
    = tadd (running_cls_loss st) (tsum (map (fun c => tmul (c_cls c) (Fin (INR (c_size c)))) cs)) /\
    running_cons_loss st'
    = tadd (running_cons_loss st)
           (tsum (map (fun c => tmul (c_incons c) (Fin (INR (c_size c)))) cs)).
Proof.
  induction batches as [|b rest IH]; intros st st' H.
  - simpl in H. injection H as <-. exists []. simpl.
    repeat split; destruct st as [[x|] [y|] [z|] ? ?]; simpl;
      try reflexivity; f_equal; ring.
  - cbn [for_each] in H. unfold val_batch at 1 in H.
    unfold batch_contribution. cbn [map_res].
    destruct (model _ _) as [outputs|err]; cbn [bind] in H |- *; [|discriminate H].
    destruct (combined_loss outputs (labels b) criterion e m) as [[loss losses]|err];
      cbn [bind fst snd] in H |- *; [|discriminate H].
    unfold accumulate in H.
    destruct (getitem losses "cls_loss") as [cls|err]; cbn [bind] in H |- *;
      [|discriminate H].
    destruct (getitem losses "incons_loss") as [incons|err]; cbn [bind] in H |- *;
      [|discriminate H].
    destruct (getitem outputs "logits") as [logits|err]; cbn [bind] in H; [|discriminate H].
    destruct (column (softmax_dim1 logits) 1) as [preds|err]; cbn [bind] in H;
      [|discriminate H].
    apply IH in H. destruct H as (cs & Hcs & Hloss & Hcls & Hcons).
    fold (batch_contribution model criterion bs e m). rewrite Hcs. cbn [bind].
    eexists. split; [reflexivity|].
    cbn [running_loss running_cls_loss running_cons_loss] in Hloss, Hcls, Hcons.
    cbn [map tsum fold_right c_total c_cls c_incons c_size].
    rewrite Hloss, Hcls, Hcons, !tadd_assoc.
    repeat split.
Qed.

(** What a run of [val_epoch] that returns metrics has computed. *)
Lemma val_epoch_returns
    (roc_auc_score : list Z -> list R -> res R)
    (accuracy_score : list Z -> list Z -> res R)
    (model : callable) (dataloader : list batch)
    (criterion : matrix -> matrix -> res tval) (bs e m : Z)
    (metrics : gmap string tval) :
  val_epoch roc_auc_score accuracy_score model dataloader criterion bs e m = Ok metrics ->
  dataset_len dataloader <> 0%nat /\
  exists cs,
    map_res (batch_contribution model criterion bs e m) dataloader = Ok cs /\
    metrics !! "loss" = Some (weighted_mean c_total cs (dataset_len dataloader)) /\
    metrics !! "cls_loss" = Some (weighted_mean c_cls cs (dataset_len dataloader)) /\
    metrics !! "incons_loss" = Some (weighted_mean c_incons cs (dataset_len dataloader)).
Proof.
  unfold val_epoch. intros H.
  destruct (for_each _ dataloader _) as [st|err] eqn:Hloop; cbn [bind] in H;
    [|discriminate H].
  unfold epoch_metrics in H.
  destruct (Nat.eqb (dataset_len dataloader) 0) eqn:En; [discriminate H|].
  apply Nat.eqb_neq in En.
  destruct (roc_auc_score _ _) as [auc|err]; cbn [bind] in H; [|discriminate H].
  destruct (accuracy_score _ _) as [acc|err]; cbn [bind] in H; [|discriminate H].
  injection H as <-.
  apply val_loop_sums in Hloop. destruct Hloop as (cs & Hcs & Hloss & Hcls & Hcons).
  cbn [running_loss running_cls_loss running_cons_loss] in Hloss, Hcls, Hcons.
  rewrite tadd_zero_l in Hloss, Hcls, Hcons.
  split; [exact En|]. exists cs. split; [exact Hcs|]. unfold weighted_mean.
  repeat split.
  - change (Some (tdiv_by (running_loss st) (INR (dataset_len dataloader)))
            = Some (tdiv_by (tsum (map (fun c => tmul (c_total c) (Fin (INR (c_size c)))) cs))
                            (INR (dataset_len dataloader)))).
    rewrite Hloss. reflexivity.
  - change (Some (tdiv_by (running_cls_loss st) (INR (dataset_len dataloader)))
            = Some (tdiv_by (tsum (map (fun c => tmul (c_cls c) (Fin (INR (c_size c)))) cs))
                            (INR (dataset_len dataloader)))).
    rewrite Hcls. reflexivity.
  - change (Some (tdiv_by (running_cons_loss st) (INR (dataset_len dataloader)))
            = Some (tdiv_by (tsum (map (fun c => tmul (c_incons c) (Fin (INR (c_size c)))) cs))
                            (INR (dataset_len dataloader)))).
    rewrite Hcons. reflexivity.
Qed.

(** X6.  Whenever [val_epoch] returns its metrics, the loader is not
    empty and the reported ['loss'], ['cls_loss'] and ['incons_loss'] are the
    size-weighted averages of the batches' total loss and of its two
    components. *)
Theorem val_epoch_averages
    (roc_auc_score : list Z -> list R -> res R)
    (accuracy_score : list Z -> list Z -> res R)
    (model : callable) (dataloader : list batch)
    (criterion : matrix -> matrix -> res tval) (bs e m : Z)
    (metrics : gmap string tval) :
  val_epoch roc_auc_score accuracy_score model dataloader criterion bs e m = Ok metrics ->
  dataset_len dataloader <> 0%nat /\
  exists cs,
    map_res (batch_contribution model criterion bs e m) dataloader = Ok cs /\
    metrics !! "loss" = Some (weighted_mean c_total cs (dataset_len dataloader)) /\
    metrics !! "cls_loss" = Some (weighted_mean c_cls cs (dataset_len dataloader)) /\
    metrics !! "incons_loss" = Some (weighted_mean c_incons cs (dataset_len dataloader)).
Proof. apply val_epoch_returns. Qed.

Lemma val_epoch_averages_witness :
  dataset_len [toy_batch] <> 0%nat /\
  exists cs,
    map_res (batch_contribution complete_model toy_criterion 3 0 10) [toy_batch] = Ok cs /\
    toy_val_metrics !! "loss" = Some (weighted_mean c_total cs (dataset_len [toy_batch])) /\
    toy_val_metrics !! "cls_loss" = Some (weighted_mean c_cls cs (dataset_len [toy_batch])) /\
    toy_val_metrics !! "incons_loss"
    = Some (weighted_mean c_incons cs (dataset_len [toy_batch])).
Proof.
  apply (val_epoch_averages (fun _ _ => Ok 1) (fun _ _ => Ok 1) complete_model [toy_batch]
           toy_criterion 3%Z 0%Z 10%Z toy_val_metrics).
  reflexivity.
Defined.

(** X8.  Whenever [train_epoch] returns its metrics, the optimizer has
    stepped after each batch whose number is a multiple of [accum_steps]
    and, if the number of samples is not a multiple of [accum_steps], once
    more at the end.  So a step follows the last batch exactly when the
    number of batches is a multiple of [accum_steps] or the number of
    samples is not. *)
Theorem optimizer_steps_of_an_epoch
    (roc_auc_score : list Z -> list R -> res R)
    (accuracy_score : list Z -> list Z -> res R)
    (model : callable) (dataloader : list batch)
    (criterion : matrix -> matrix -> res tval) (bs accum_steps e m : Z)
    (metrics : gmap string tval) (log : list event) :
  train_epoch roc_auc_score accuracy_score model dataloader criterion bs accum_steps e m
  = (Ok metrics, log) ->
  steps log
  = (List.filter (fun k => Z.eqb (Z.of_nat k mod accum_steps) 0) (seq 1 (length dataloader))
     ++ (if Z.eqb (Z.of_nat (dataset_len dataloader) mod accum_steps) 0
         then [] else [length dataloader]))%list /\
  (In (length dataloader) (steps log) <->
   (Z.of_nat (length dataloader) mod accum_steps = 0)%Z \/
   (Z.of_nat (dataset_len dataloader) mod accum_steps <> 0)%Z).
Proof.
  intros H. apply train_epoch_returns in H.
  destruct H as (_ & Hn & _ & Hsteps).
  split; [exact Hsteps|].
  assert (Hlen : (1 <= length dataloader)%nat).
  { destruct dataloader; [exfalso; apply Hn; reflexivity | simpl; lia]. }
  rewrite Hsteps, in_app_iff, filter_In, in_seq.
  destruct (Z.eqb (Z.of_nat (dataset_len dataloader) mod accum_steps) 0) eqn:Ed.
  - apply Z.eqb_eq in Ed. split.
    + intros [[_ Hk]|[]]. left. apply Z.eqb_eq. exact Hk.
    + intros [Hk|Hd]; [|contradiction]. left. split; [lia|]. apply Z.eqb_eq. exact Hk.
  - apply Z.eqb_neq in Ed. split.
    + intros _. right. exact Ed.
    + intros _. right. left. reflexivity.
Qed.

Lemma optimizer_steps_of_an_epoch_witness :
  steps [ZeroGrad; Backward 1; Step 1; ZeroGrad]
  = (List.filter (fun k => Z.eqb (Z.of_nat k mod 2) 0) (seq 1 (length [toy_batch]))
     ++ (if Z.eqb (Z.of_nat (dataset_len [toy_batch]) mod 2) 0
         then [] else [length [toy_batch]]))%list /\
  (In (length [toy_batch]) (steps [ZeroGrad; Backward 1; Step 1; ZeroGrad]) <->
   (Z.of_nat (length [toy_batch]) mod 2 = 0)%Z \/
   (Z.of_nat (dataset_len [toy_batch]) mod 2 <> 0)%Z).
Proof.
  apply (optimizer_steps_of_an_epoch
           (fun _ _ => Ok 1) (fun _ _ => Ok 1) complete_model [toy_batch]
           toy_criterion 3%Z 2%Z 0%Z 10%Z toy_metrics).
  reflexivity.
Defined.

(** X9.  On a loader without samples neither driver returns metrics; on
    the empty loader both raise [ZeroDivisionError], the train driver
    having done nothing but clear the gradients. *)
Theorem epoch_without_samples
    (roc_auc_score : list Z -> list R -> res R)
    (accuracy_score : list Z -> list Z -> res R)
    (model : callable) (criterion : matrix -> matrix -> res tval)
    (bs accum_steps e m : Z) :
  (forall dataloader,
      dataset_len dataloader = 0%nat ->
      is_ok (fst (train_epoch roc_auc_score accuracy_score model dataloader criterion
                              bs accum_steps e m)) = false /\
      is_ok (val_epoch roc_auc_score accuracy_score model dataloader criterion bs e m)
      = false) /\
  train_epoch roc_auc_score accuracy_score model [] criterion bs accum_steps e m
  = (Raise ZeroDivisionError, [ZeroGrad]) /\
  val_epoch roc_auc_score accuracy_score model [] criterion bs e m = Raise ZeroDivisionError.
Proof.
  split; [|split].
  - intros dataloader Hz. split.
    + destruct (train_epoch roc_auc_score accuracy_score model dataloader criterion
                            bs accum_steps e m) as [[metrics|err] log] eqn:Hrun;
        [|reflexivity].
      apply train_epoch_returns in Hrun. destruct Hrun as (_ & Hn & _). contradiction.
    + destruct (val_epoch roc_auc_score accuracy_score model dataloader criterion bs e m)
        as [metrics|err] eqn:Hrun; [|reflexivity].
      apply val_epoch_returns in Hrun. destruct Hrun as (Hn & _). contradiction.
  - unfold train_epoch. cbn [train_loop]. destruct (Z.eqb accum_steps 0); reflexivity.
  - reflexivity.
Qed.

(** X10.  With [accum_steps = 0] the train driver never returns metrics.
    When the forward pass and the loss of the first batch go through, the
    gradients of that batch are computed and the test
    [(i+1) % accum_steps] raises [ZeroDivisionError]. *)
Theorem train_epoch_zero_accum_steps
    (roc_auc_score : list Z -> list R -> res R)
    (accuracy_score : list Z -> list Z -> res R)
    (model : callable) (criterion : matrix -> matrix -> res tval) (bs e m : Z) :
  (forall dataloader,
      is_ok (fst (train_epoch roc_auc_score accuracy_score model dataloader criterion
                              bs 0 e m)) = false) /\
  (forall b rest outputs result,
      model [VFrames (frames b)] [("batch_size"%string, VInt bs)] = Ok outputs ->
      combined_loss outputs (labels b) criterion e m = Ok result ->
      train_epoch roc_auc_score accuracy_score model (b :: rest) criterion bs 0 e m
      = (Raise ZeroDivisionError, [ZeroGrad; Backward 1])).
Proof.
  split.
  - intros dataloader.
    destruct (train_epoch roc_auc_score accuracy_score model dataloader criterion bs 0 e m)
      as [[metrics|err] log] eqn:Hrun; [|reflexivity].
    apply train_epoch_returns in Hrun. destruct Hrun as (Ha & _). contradiction.
  - intros b rest outputs [loss losses] Hmodel Hloss.
    unfold train_epoch. cbn [train_loop]. rewrite Hmodel. cbn [bind].
    rewrite Hloss. reflexivity.
Qed.

End DriversMore.

(** * Further properties of checkpoint loading *)

Section CheckpointsMore.

Lemma find_key {A : Type} (g : A -> pyobj) (l : list (string * A)) (k : string) (v : A) :
  NoDup (l.*1) -> (k, v) ∈ l ->
  List.find (fun kv => String.eqb (fst kv) k) (map (fun np => (fst np, g (snd np))) l)
  = Some (k, g v).
Proof.
  induction l as [|[k0 v0] l IH]; intros Hnd Hin.
  - apply elem_of_nil in Hin. contradiction.
  - rewrite fmap_cons in Hnd. apply NoDup_cons in Hnd. destruct Hnd as [Hnotin Hnd].
    cbn [map List.find fst snd].
    apply elem_of_cons in Hin. destruct Hin as [Heq|Hin].
    + injection Heq as -> ->. rewrite String.eqb_refl. reflexivity.
    + destruct (String.eqb k0 k) eqn:E.
      * apply String.eqb_eq in E. subst k0. exfalso. apply Hnotin.
        apply list_elem_of_fmap. exists (k, v). split; [reflexivity | exact Hin].
      * apply IH; assumption.
Qed.

Lemma find_no_key {A : Type} (g : A -> pyobj) (l : list (string * A)) (k : string) :
  (forall v, (k, v) ∉ l) ->
  List.find (fun kv => String.eqb (fst kv) k) (map (fun np => (fst np, g (snd np))) l) = None.
Proof.
  induction l as [|[k0 v0] l IH]; intros Hnone.
  - reflexivity.
  - cbn [map List.find fst snd]. destruct (String.eqb k0 k) eqn:E.
    + apply String.eqb_eq in E. subst k0. exfalso.
      apply (Hnone v0). apply elem_of_cons. left. reflexivity.
    + apply IH. intros v Hin. apply (Hnone v). apply elem_of_cons. right. exact Hin.
Qed.

(** Reading a key of a saved state dictionary. *)
Lemma item_state_dict_of (m : gmap string param) (name : string) :
  match state_dict_of m with
  | ODict items =>
      item items name
      = match m !! name with
        | Some t => Ok (OTensor t)
        | None => Raise (KeyError name)
        end
  | _ => False
  end.
Proof.
  unfold state_dict_of, item.
  destruct (m !! name) as [t|] eqn:E.
  - rewrite (find_key OTensor (map_to_list m) name t).
    + reflexivity.
    + apply NoDup_fst_map_to_list.
    + apply elem_of_map_to_list. exact E.
  - rewrite find_no_key; [reflexivity|].
    intros v Hin. apply elem_of_map_to_list in Hin. congruence.
Qed.

Lemma forallb_false {A : Type} (f : A -> bool) (l : list A) (x : A) :
  In x l -> f x = false -> forallb f l = false.
Proof.
  intros Hin Hx. destruct (forallb f l) eqn:E; [|reflexivity].
  rewrite forallb_forall in E. rewrite (E x Hin) in Hx. discriminate.
Qed.

(** [load_state_dict] never changes the names nor the shapes. *)
Lemma load_state_dict_shapes (module : gmap string param) (state_dict : pyobj) (name : string) :
  shape <$> fst (load_state_dict module state_dict) !! name = shape <$> module !! name.
Proof.
  destruct state_dict as [t|r|items]; try reflexivity.
  unfold load_state_dict.
  assert (Hm : shape <$> map_imap (fun name p => Some (fst (load_param items name p))) module
                          !! name
               = shape <$> module !! name).
  { rewrite map_lookup_imap. destruct (module !! name) as [p|]; [|reflexivity].
    simpl. f_equal. unfold load_param.
    destruct (item items name) as [[t|r|items']|err]; try reflexivity.
    destruct (bool_decide (shape t = shape p)) eqn:Eb; [|reflexivity].
    apply bool_decide_eq_true in Eb. exact Eb. }
  destruct (forallb _ _); exact Hm.
Qed.

(** X11.  A bare state dictionary saved from a module with the same
    parameter names and shapes is restored exactly: [load_model] returns
    the saved parameters. *)
Theorem state_dict_round_trip (torch_load : string -> res pyobj)
    (fresh trained : gmap string param) (model_path : string) :
  torch_load model_path = Ok (state_dict_of trained) ->
  (forall name, shape <$> fresh !! name = shape <$> trained !! name) ->
  load_model torch_load fresh model_path = Ok trained.
Proof.
  intros Hload Hsame. unfold load_model. rewrite Hload.
  assert (Hparam : forall name p, fresh !! name = Some p ->
             exists t, trained !! name = Some t /\
                       load_param (map (fun np => (fst np, OTensor (snd np)))
                                       (map_to_list trained)) name p = (t, true)).
  { intros name p Hp. pose proof (Hsame name) as Hs. rewrite Hp in Hs.
    destruct (trained !! name) as [t|] eqn:Et; [|discriminate Hs].
    injection Hs as Hs. exists t. split; [reflexivity|].
    unfold load_param. pose proof (item_state_dict_of trained name) as Hi.
    unfold state_dict_of in Hi. rewrite Hi, Et.
    rewrite bool_decide_eq_true_2 by congruence. reflexivity. }
  unfold state_dict_of, load_state_dict.
  replace (forallb _ (map_to_list fresh)) with true.
  - f_equal. apply map_eq. intros name. rewrite map_lookup_imap.
    destruct (fresh !! name) as [p|] eqn:Ep; simpl.
    + destruct (Hparam name p Ep) as (t & Ht & Hl). rewrite Hl, Ht. reflexivity.
    + pose proof (Hsame name) as Hs. rewrite Ep in Hs.
      destruct (trained !! name); [discriminate Hs | reflexivity].
  - symmetry. apply forallb_forall. intros [name p] Hin. simpl.
    apply list_elem_of_In, elem_of_map_to_list in Hin.
    destruct (Hparam name p Hin) as (t & _ & Hl). rewrite Hl. reflexivity.
Qed.

Lemma state_dict_round_trip_witness :
  load_model (fun _ => Ok (state_dict_of trained_params)) fresh_params "best_model.pth"
  = Ok trained_params.
Proof.
  apply (state_dict_round_trip (fun _ => Ok (state_dict_of trained_params))
           fresh_params trained_params "best_model.pth").
  - reflexivity.
  - intros name. unfold fresh_params, trained_params.
    destruct (decide ("fusion_gate.0.bias"%string = name)) as [<-|Hne].
    + rewrite !lookup_singleton_eq. reflexivity.
    + rewrite !lookup_singleton_ne by exact Hne. reflexivity.
Defined.

(** X12.  Whatever the file holds, a module that [load_model] returns
    has the parameter names and the shapes of the freshly built one. *)
Theorem load_model_keeps_shapes (torch_load : string -> res pyobj)
    (fresh model : gmap string param) (model_path : string) :
  load_model torch_load fresh model_path = Ok model ->
  forall name, shape <$> model !! name = shape <$> fresh !! name.
Proof.
  unfold load_model. intros H name.
  assert (Hattempt : forall partly status,
             match torch_load model_path with
             | Ok blob => load_state_dict fresh blob
             | Raise err => (fresh, Some err)
             end = (partly, status) ->
             shape <$> partly !! name = shape <$> fresh !! name).
  { intros partly status Ha. destruct (torch_load model_path) as [blob|err].
    - rewrite <- (load_state_dict_shapes fresh blob name), Ha. reflexivity.
    - injection Ha as <- _. reflexivity. }
  destruct (match torch_load model_path with
            | Ok blob => load_state_dict fresh blob
            | Raise err => (fresh, Some err)
            end) as [partly [err|]] eqn:Ha.
  - specialize (Hattempt _ _ eq_refl).
    destruct (torch_load model_path) as [[t|r|items]|err']; cbn [bind] in H;
      try discriminate H.
    destruct (contains items "model_state_dict").
    + destruct (item items "model_state_dict") as [state|err']; cbn [bind] in H;
        [|discriminate H].
      pose proof (load_state_dict_shapes partly state name) as Hs.
      destruct (load_state_dict partly state) as [model' [err'|]]; [discriminate H|].
      injection H as <-. simpl in Hs. congruence.
    + destruct (contains items "state_dict"); [|discriminate H].
      destruct (item items "state_dict") as [state|err']; cbn [bind] in H;
        [|discriminate H].
      pose proof (load_state_dict_shapes partly state name) as Hs.
      destruct (load_state_dict partly state) as [model' [err'|]]; [discriminate H|].
      injection H as <-. simpl in Hs. congruence.
  - injection H as <-. apply (Hattempt _ _ eq_refl).
Qed.

Lemma load_model_keeps_shapes_witness :
  shape <$> trained_params !! "fusion_gate.0.bias"
  = shape <$> fresh_params !! "fusion_gate.0.bias".
Proof.
  apply (load_model_keeps_shapes (fun _ => Ok (ODict trained_state)) fresh_params
           trained_params "model.pth").
  vm_compute. reflexivity.
Defined.

(** X13.  A bare dictionary in which a parameter has the wrong shape
    makes the first attempt raise in spite of [strict=False]; when the
    dictionary has neither ['model_state_dict'] nor ['state_dict'],
    [load_model] gives up with [ValueError]. *)
Theorem load_model_shape_mismatch (torch_load : string -> res pyobj)
    (fresh : gmap string param) (model_path : string)
    (items : list (string * pyobj)) (name : string) (p t : param) :
  torch_load model_path = Ok (ODict items) ->
  fresh !! name = Some p ->
  item items name = Ok (OTensor t) ->
  shape t <> shape p ->
  contains items "model_state_dict" = false ->
  contains items "state_dict" = false ->
  load_model torch_load fresh model_path
  = Raise (ValueError ("Could not load model from " ++ model_path)).
Proof.
  intros Hload Hp Hitem Hshape Hm Hs.
  assert (Hfirst : exists partly,
             load_state_dict fresh (ODict items)
             = (partly, Some (RuntimeError "Error(s) in loading state_dict"))).
  { unfold load_state_dict.
    rewrite (forallb_false _ _ (name, p)).
    - eauto.
    - apply list_elem_of_In, elem_of_map_to_list. exact Hp.
    - simpl. unfold load_param. rewrite Hitem.
      rewrite bool_decide_eq_false_2 by exact Hshape. reflexivity. }
  destruct Hfirst as [partly Hfirst].
  rewrite (load_model_fallback torch_load fresh partly model_path items _ Hload Hfirst).
  rewrite Hm, Hs. reflexivity.
Qed.

Lemma load_model_shape_mismatch_witness :
  load_model (fun _ => Ok (ODict [("fusion_gate.0.bias"%string,
                                   OTensor (mkParam [3%nat] [0; 0; 0]%R))]))
             fresh_params "model.pth"
  = Raise (ValueError ("Could not load model from " ++ "model.pth")).
Proof.
  apply (load_model_shape_mismatch _ fresh_params "model.pth"
           [("fusion_gate.0.bias"%string, OTensor (mkParam [3%nat] [0; 0; 0]%R))]
           "fusion_gate.0.bias" (mkParam [2%nat] [0; 0]%R) (mkParam [3%nat] [0; 0; 0]%R)).
  - reflexivity.
  - reflexivity.
  - reflexivity.
  - discriminate.
  - reflexivity.
  - reflexivity.
Defined.

(** X14.  When [torch.load] raises, for a missing file say, the handler
    calls it again and [load_model] raises that same exception, not the
    [ValueError] of the last branch. *)
Theorem load_model_unreadable_file (torch_load : string -> res pyobj)
    (fresh : gmap string param) (model_path : string) (err : exn) :
  torch_load model_path = Raise err ->
  load_model torch_load fresh model_path = Raise err.
Proof.
  intros Hload. unfold load_model. rewrite Hload. reflexivity.
Qed.

Lemma load_model_unreadable_file_witness :
  load_model (fun _ => Raise (RuntimeError "No such file")) fresh_params "model.pth"
  = Raise (RuntimeError "No such file").
Proof.
  apply (load_model_unreadable_file (fun _ => Raise (RuntimeError "No such file"))
           fresh_params "model.pth" (RuntimeError "No such file")).
  reflexivity.
Defined.

(** X15.  A dictionary none of whose keys is the name of a parameter, such
    as any checkpoint that wraps the state under another key, is accepted
    by the first attempt: [load_model] returns the freshly built parameters
    unchanged and raises nothing. *)
Theorem wrapped_checkpoint_loads_nothing (torch_load : string -> res pyobj)
    (fresh : gmap string param) (model_path : string) (items : list (string * pyobj)) :
  torch_load model_path = Ok (ODict items) ->
  (forall name p, fresh !! name = Some p -> contains items name = false) ->
  load_model torch_load fresh model_path = Ok fresh.
Proof. apply load_model_foreign_keys. Qed.

Lemma wrapped_checkpoint_loads_nothing_witness :
  load_model (fun _ => Ok epoch_checkpoint) fresh_params "checkpoint_4.pth" = Ok fresh_params.
Proof.
  apply (wrapped_checkpoint_loads_nothing (fun _ => Ok epoch_checkpoint) fresh_params
           "checkpoint_4.pth"
           [("epoch"%string, ONumber 3);
            ("model_state_dict"%string, ODict trained_state);
            ("optimizer_state_dict"%string, ODict []);
            ("scheduler_state_dict"%string, ODict []);
            ("best_val_auc"%string, ONumber (9 / 10))]).
  - reflexivity.
  - intros name p Hin. unfold fresh_params in Hin.
    apply lookup_singleton_Some in Hin. destruct Hin as [<- _]. reflexivity.
Defined.

End CheckpointsMore.

(** * Further properties of the evaluation driver and of the call *)

Section EvaluateMore.

Lemma one_hot2_shape (labels : list Z) : forall onehot,
  one_hot2 labels = Ok onehot ->
  map (@length R) (float onehot) = repeat 2%nat (length labels).
Proof.
  unfold one_hot2.
  induction labels as [|l labels IH]; intros onehot H; simpl in H.
  - injection H as <-. reflexivity.
  - destruct (Z.eqb l 0); [|destruct (Z.eqb l 1)]; cbn [bind] in H; try discriminate H;
      destruct (map_res _ labels) as [rest|err]; cbn [bind] in H; try discriminate H;
      injection H as <-; cbn [float map length repeat]; f_equal; apply (IH rest eq_refl).
Qed.

(** With [epoch=1, max_epochs=1] the loss is in its Full phase: when it
    returns, the criterion has returned on the logits and the one-hot
    labels. *)
Lemma combined_loss_calls_criterion (outputs : gmap string matrix) (labels : list Z)
    (criterion : matrix -> matrix -> res tval) (result : tval * gmap string tval) :
  combined_loss outputs labels criterion 1 1 = Ok result ->
  exists logits onehot,
    getitem outputs "logits" = Ok logits /\
    one_hot2 labels = Ok onehot /\
    is_ok (criterion logits (float onehot)) = true.
Proof.
  unfold combined_loss. intros H.
  destruct (getitem outputs "logits") as [logits|err]; cbn [bind] in H; [|discriminate H].
  destruct (one_hot2 labels) as [onehot|err]; cbn [bind] in H; [|discriminate H].
  destruct (getitem outputs "tcm_inconsistency") as [scores|err]; cbn [bind] in H;
    [|discriminate H].
  replace (Qltb (inject_Z 1) (0.1 * inject_Z 1)) with false in H by reflexivity.
  replace (Qle_bool (0.1 * inject_Z 1) (inject_Z 1) && Qltb (inject_Z 1) (0.2 * inject_Z 1))
    with false in H by reflexivity.
  exists logits, onehot. split; [reflexivity|]. split; [reflexivity|].
  destruct (criterion logits (float onehot)) as [cls|err]; [reflexivity|].
  cbn [bind] in H. discriminate H.
Qed.

Lemma rows_of_two (m : matrix) (n : nat) :
  map (@length R) m = repeat 2%nat n ->
  length m = n /\ Forall (fun p : vector => length p = 2%nat) m.
Proof.
  intros H. split.
  - rewrite <- (List.length_map (@length R) m), H. apply repeat_length.
  - apply List.Forall_forall. intros p Hp.
    apply (repeat_spec n 2%nat). rewrite <- H. apply in_map. exact Hp.
Qed.

(** The predictions [evaluate] has collected when its loop ends: one row
    of two probabilities for every sample. *)
Lemma evaluate_loop_preds (criterion : matrix -> matrix -> res tval)
    (model : callable) (bs : Z) (batches : list batch) :
  (forall input target,
      map (@length R) input <> map (@length R) target ->
      is_ok (criterion input target) = false) ->
  Forall (fun b => length (labels b) = size0 (frames b)) batches ->
  forall acc acc',
  for_each (evaluate_batch criterion model bs) batches acc = Ok acc' ->
  exists new,
    all_preds acc' = (all_preds acc ++ new)%list /\
    length new = dataset_len batches /\
    Forall (fun p : vector => length p = 2%nat) new.
Proof.
  intros Hcrit Hwf. induction Hwf as [|b rest Hb _ IH]; intros acc acc' H.
  - simpl in H. injection H as <-. exists []. rewrite app_nil_r.
    split; [reflexivity|]. split; [reflexivity|constructor].
  - cbn [for_each] in H.
    destruct (evaluate_batch criterion model bs acc b) as [acc1|err] eqn:Hstep;
      cbn [bind] in H; [|discriminate H].
    destruct (IH _ _ H) as (new & Hnew & Hlen & Htwo).
    unfold evaluate_batch in Hstep.
    destruct (model _ _) as [outputs|err]; cbn [bind] in Hstep; [|discriminate Hstep].
    destruct (combined_loss outputs (labels b) criterion 1 1) as [[loss losses]|err] eqn:Hloss;
      cbn [bind] in Hstep; [|discriminate Hstep].
    destruct (combined_loss_calls_criterion _ _ _ _ Hloss)
      as (logits & onehot & Hlogits & Hhot & Hok).
    rewrite Hlogits in Hstep. cbn [bind] in Hstep.
    destruct (getitem losses "orth_loss") as [orth|err]; cbn [bind] in Hstep;
      [|discriminate Hstep].
    injection Hstep as <-. cbn [all_preds] in Hnew.
    assert (Hshape : map (@length R) logits = repeat 2%nat (length (labels b))).
    { rewrite <- (one_hot2_shape _ _ Hhot).
      destruct (decide (map (@length R) logits = map (@length R) (float onehot)))
        as [Heq|Hne]; [exact Heq|].
      rewrite (Hcrit _ _ Hne) in Hok. discriminate Hok. }
    assert (Hprobs : map (@length R) (map (map sigmoid) logits)
                     = repeat 2%nat (length (labels b))).
    { rewrite <- Hshape, map_map. apply map_ext. intros p. apply List.length_map. }
    destruct (rows_of_two _ _ Hprobs) as [Hn Hrows].
    exists (map (map sigmoid) logits ++ new)%list. split; [|split].
    + rewrite Hnew, <- app_assoc. reflexivity.
    + rewrite List.length_app, Hn, Hlen, Hb. reflexivity.
    + apply Forall_app. split; assumption.
Qed.

(** X16.  [evaluate] returns for no model and no loader of batches
    with one label per video.  Its criterion, [BCEWithLogitsLoss], raises
    unless the logits have the size of the one-hot labels, two per video;
    the predictions are then rows of two probabilities, for which
    [p >= 0.5] has no truth value; and without a sample the average loss
    divides by zero. *)
Theorem evaluate_never_returns
    (criterion : matrix -> matrix -> res tval)
    (sklearn_metrics : list Z -> list Z -> matrix -> res (gmap string tval))
    (model : callable) (dataloader : list batch) (bs : Z) :
  (forall input target,
      map (@length R) input <> map (@length R) target ->
      is_ok (criterion input target) = false) ->
  Forall (fun b => length (labels b) = size0 (frames b)) dataloader ->
  is_ok (evaluate criterion sklearn_metrics model dataloader bs) = false.
Proof.
  intros Hcrit Hwf. unfold evaluate.
  destruct (for_each _ dataloader _) as [acc|err] eqn:Hloop; cbn [bind]; [|reflexivity].
  destruct (evaluate_loop_preds criterion model bs dataloader Hcrit Hwf _ _ Hloop)
    as (new & Hnew & Hlen & Htwo).
  cbn [all_preds app] in Hnew.
  destruct (Nat.eqb (dataset_len dataloader) 0) eqn:Hz; [reflexivity|].
  apply Nat.eqb_neq in Hz. rewrite Hnew.
  destruct new as [|p rest]; [simpl in Hlen; lia|].
  apply Forall_inv in Htwo.
  destruct p as [|v [|w [|u p]]]; simpl in Htwo; try discriminate Htwo.
  reflexivity.
Qed.

Lemma evaluate_never_returns_witness :
  is_ok (evaluate bce_with_logits (fun _ _ _ => Ok ∅) complete_model [toy_batch] 3%Z) = false.
Proof.
  apply (evaluate_never_returns bce_with_logits (fun _ _ _ => Ok ∅) complete_model
           [toy_batch] 3%Z).
  - intros input target Hne. unfold bce_with_logits.
    rewrite bool_decide_eq_false_2 by exact Hne. reflexivity.
  - repeat constructor.
Defined.

Lemma bind_keywords_unknown (params : list string) (k : string) (v : pyval)
    (kwargs : list (string * pyval)) :
  In (k, v) kwargs -> existsb (String.eqb k) params = false ->
  forall env, exists msg, bind_keywords params env kwargs = Raise (TypeError msg).
Proof.
  intros Hin Hk. induction kwargs as [|[k0 v0] rest IH]; [contradiction|].
  intros env. cbn [bind_keywords].
  destruct (negb (existsb (String.eqb k0) params)) eqn:E0; [eauto|].
  destruct (env !! k0); [eauto|].
  destruct Hin as [Heq|Hin].
  - injection Heq as -> ->. rewrite Hk in E0. discriminate.
  - apply IH. exact Hin.
Qed.

(** X17.  A call of the detector with any keyword other than [x] and
    [batch_size] raises [TypeError], whatever the other arguments. *)
Theorem call_rejects_unknown_keywords (self : DeepfakeDetector) (num_gpus : nat)
    (args : list pyval) (kwargs : list (string * pyval)) (k : string) (v : pyval) :
  In (k, v) kwargs ->
  k <> "x"%string ->
  k <> "batch_size"%string ->
  exists msg, call self num_gpus args kwargs = Raise (TypeError msg).
Proof.
  intros Hin Hx Hb.
  assert (Hk : existsb (String.eqb k) forward_params = false).
  { unfold forward_params. cbn [existsb].
    apply String.eqb_neq in Hx. apply String.eqb_neq in Hb. rewrite Hx, Hb. reflexivity. }
  unfold call, bind_arguments.
  destruct (bind_keywords_unknown forward_params k v kwargs Hin Hk
              (list_to_map (combine forward_params args))) as [msg Hmsg].
  rewrite Hmsg. cbn [bind]. eauto.
Qed.

Lemma call_rejects_unknown_keywords_witness :
  exists msg,
    call toy_detector 1 [VFrames toy_frames]
         [("batch_size"%string, VInt 2); ("ablation"%string, VStr "dynamic")]
    = Raise (TypeError msg).
Proof.
  apply (call_rejects_unknown_keywords toy_detector 1 [VFrames toy_frames]
           [("batch_size"%string, VInt 2); ("ablation"%string, VStr "dynamic")]
           "ablation" (VStr "dynamic")).
  - simpl. auto.
  - discriminate.
  - discriminate.
Defined.

End EvaluateMore.

(** * Further properties of the dispatcher *)

Section DispatcherMore.

Lemma below_count (r n : nat) :
  length (List.filter (fun g => Nat.ltb g r) (seq 0 n)) = Nat.min n r.
Proof.
  induction n as [|n IH].
  - reflexivity.
  - rewrite seq_S, List.filter_app, List.length_app, IH. cbn [List.filter Nat.add].
    destruct (Nat.ltb n r) eqn:E; cbn [length].
    + apply Nat.ltb_lt in E. lia.
    + apply Nat.ltb_ge in E. lia.
Qed.

(** The devices that get a shard: all of them when there is a frame for
    each, the first [T] otherwise. *)
Lemma served_count (T G : nat) :
  G <> 0%nat ->
  length (List.filter (fun g => Nat.ltb 0 (assigned T G g)) (seq 0 G)) = Nat.min T G.
Proof.
  intros HG.
  pose proof (Nat.div_mod T G HG) as Hdm.
  pose proof (Nat.mod_upper_bound T G HG) as Hub.
  destruct (Nat.eq_dec (T / G) 0) as [Hq|Hq].
  - assert (HT : (T mod G = T)%nat) by (rewrite Hq in Hdm; lia).
    rewrite (List.filter_ext _ (fun g => Nat.ltb g T)).
    + rewrite below_count. lia.
    + intros g. unfold assigned. rewrite Hq, HT.
      destruct (Nat.ltb g T); reflexivity.
  - rewrite (List.filter_ext _ (fun _ => true)).
    + assert (Hall : forall (l : list nat), List.filter (fun _ => true) l = l)
        by (induction l as [|x l IHl]; simpl; [|rewrite IHl]; reflexivity).
      rewrite Hall, length_seq.
      assert (G <= T)%nat by nia. lia.
    + intros g. unfold assigned. destruct (Nat.ltb g (T mod G)); apply Nat.ltb_lt; lia.
Qed.

(** X18.  On [G > 1] devices [forward] runs the extractor on
    [min(T, G)] slices of the [T] frames, one per shard, and the sizes of
    two shards differ by one frame at most. *)
Theorem shards_are_balanced (T G : nat) :
  (1 < G)%nat ->
  exists l,
    shards T G = Ok l /\
    length l = Nat.min T G /\
    (forall a b, In a l -> In b l -> (shard_size a <= shard_size b + 1)%nat) /\
    (forall (self : DeepfakeDetector) (x : FrameBatch) (bs : Z),
        num_frames x = T ->
        forward self G x bs
        = let* all_dama_feats :=
            map_res (fun sh => dama self (slice_frames x (start_idx sh) (end_idx sh)) bs) l in
          merge_and_classify self x all_dama_feats).
Proof.
  intros HG.
  destruct (shard_loop_record T G G 0%nat 0%nat []) as (l & Hl & _ & Hf & Hg).
  exists l. split; [exact Hl|]. split; [|split].
  - rewrite <- (List.length_map gpu_id l), Hg. apply served_count. lia.
  - intros a b Ha Hb. rewrite List.Forall_forall in Hf.
    destruct (Hf a Ha) as [Hsa _]. destruct (Hf b Hb) as [Hsb _].
    rewrite Hsa, Hsb. unfold assigned.
    destruct (Nat.ltb (gpu_id a) (T mod G)), (Nat.ltb (gpu_id b) (T mod G)); lia.
  - intros self x bs HT. apply forward_runs_shards; [exact HG|].
    rewrite HT. exact Hl.
Qed.

Lemma shards_are_balanced_witness :
  (1 < 4)%nat /\
  exists l,
    shards 10 4 = Ok l /\
    length l = Nat.min 10 4 /\
    (forall a b, In a l -> In b l -> (shard_size a <= shard_size b + 1)%nat) /\
    (forall (self : DeepfakeDetector) (x : FrameBatch) (bs : Z),
        num_frames x = 10%nat ->
        forward self 4 x bs
        = let* all_dama_feats :=
            map_res (fun sh => dama self (slice_frames x (start_idx sh) (end_idx sh)) bs) l in
          merge_and_classify self x all_dama_feats).
Proof.
  split; [lia | apply (shards_are_balanced 10 4); lia].
Defined.

Lemma firstn_plus {A : Type} (a b : nat) (w : list A) :
  (firstn a w ++ firstn b (skipn a w))%list = firstn (a + b) w.
Proof.
  revert w. induction a as [|a IH]; intros w.
  - reflexivity.
  - destruct w as [|x w]; simpl.
    + rewrite firstn_nil. reflexivity.
    + rewrite IH. reflexivity.
Qed.

Lemma contiguous_le (l : list shard) : forall s e, contiguous s l e -> (s <= e)%nat.
Proof.
  induction l as [|sh rest IH]; intros s e H; simpl in H.
  - lia.
  - destruct H as (_ & Hlt & Hrest). apply IH in Hrest. lia.
Qed.

(** The slices of one video taken by contiguous shards, put end to end. *)
Lemma contiguous_slices {A : Type} (v : list A) (l : list shard) : forall s e,
  contiguous s l e ->
  concat (map (fun sh => firstn (end_idx sh - start_idx sh) (skipn (start_idx sh) v)) l)
  = firstn (e - s) (skipn s v).
Proof.
  induction l as [|sh rest IH]; intros s e H; simpl in H.
  - subst e. rewrite Nat.sub_diag. reflexivity.
  - destruct H as (Hs & Hlt & Hrest). cbn [map concat].
    pose proof (contiguous_le _ _ _ Hrest) as Hle.
    rewrite (IH _ _ Hrest), Hs.
    replace (skipn (end_idx sh) v) with (skipn (end_idx sh - s) (skipn s v))
      by (rewrite skipn_skipn; f_equal; lia).
    rewrite firstn_plus. f_equal. lia.
Qed.

Lemma list_as_map_nth {A : Type} (l : list A) (d : A) :
  l = map (fun i => nth i l d) (seq 0 (length l)).
Proof.
  induction l as [|x l IH]; [reflexivity|].
  cbn [length seq map nth]. f_equal.
  rewrite <- seq_shift, map_map. exact IH.
Qed.

Lemma nth_map_lt {A B : Type} (g : A -> B) (l : list A) (i : nat) (d : A) (d' : B) :
  (i < length l)%nat -> nth i (map g l) d' = g (nth i l d).
Proof.
  intros Hi. rewrite (nth_indep _ d' (g d)) by (rewrite List.length_map; exact Hi).
  apply map_nth.
Qed.

Lemma map_res_map {A B C : Type} (g : A -> B) (f : B -> res C) (l : list A) :
  map_res f (map g l) = map_res (fun a => f (g a)) l.
Proof.
  induction l as [|a l IH]; cbn [map map_res]; [reflexivity|].
  rewrite IH. reflexivity.
Qed.

(** X19.  Sharding loses no frame and repeats none: on [G > 1] devices
    and a batch whose videos have [T] frames each, [forward] runs the
    extractor on a list of slices of the batch, in order, and these
    slices, concatenated along the time axis, are the batch. *)
Theorem slices_reassemble (x : FrameBatch) (G : nat) :
  (1 < G)%nat ->
  Forall (fun v => length v = num_frames x) (videos x) ->
  exists slices : list FrameBatch,
    cat_time (map videos slices) (size0 x) = videos x /\
    (forall (self : DeepfakeDetector) (bs : Z),
        forward self G x bs
        = let* all_dama_feats := map_res (fun part => dama self part bs) slices in
          merge_and_classify self x all_dama_feats).
Proof.
  intros HG Hvideos.
  destruct (shard_loop_record (num_frames x) G G 0%nat 0%nat []) as (l & Hl & Hc & _ & _).
  rewrite assigned_sum in Hc.
  assert (HG0 : G <> 0%nat) by lia.
  pose proof (Nat.mod_upper_bound (num_frames x) G HG0) as Hub.
  pose proof (Nat.div_mod (num_frames x) G HG0) as Hdm.
  replace (0 + (G * (num_frames x / G) + Nat.min G (num_frames x mod G)))%nat
    with (num_frames x) in Hc by lia.
  exists (map (fun sh => slice_frames x (start_idx sh) (end_idx sh)) l). split.
  - unfold cat_time, size0.
    rewrite (list_as_map_nth (videos x) []) at 2.
    apply map_ext_in. intros i Hi. apply in_seq in Hi.
    rewrite !map_map. cbn [slice_frames videos].
    set (v := nth i (videos x) []).
    assert (Hv : length v = num_frames x).
    { rewrite List.Forall_forall in Hvideos. apply Hvideos. apply nth_In. lia. }
    rewrite (map_ext _ (fun sh => firstn (end_idx sh - start_idx sh) (skipn (start_idx sh) v))).
    + rewrite (contiguous_slices v l 0 (num_frames x) Hc).
      rewrite Nat.sub_0_r. cbn [skipn]. rewrite <- Hv. apply firstn_all.
    + intros sh. unfold v.
      apply (nth_map_lt (fun w => firstn (end_idx sh - start_idx sh) (skipn (start_idx sh) w))).
      lia.
  - intros self bs. rewrite map_res_map.
    apply forward_runs_shards; [exact HG|exact Hl].
Qed.

Lemma slices_reassemble_witness :
  (1 < 2)%nat /\
  exists slices : list FrameBatch,
    cat_time (map videos slices) (size0 toy_frames) = videos toy_frames /\
    (forall (self : DeepfakeDetector) (bs : Z),
        forward self 2 toy_frames bs
        = let* all_dama_feats := map_res (fun part => dama self part bs) slices in
          merge_and_classify self toy_frames all_dama_feats).
Proof.
  split; [lia|].
  apply (slices_reassemble toy_frames 2); [lia|].
  repeat constructor.
Defined.

Lemma shard_loop_nothing {A : Type} (process : nat -> nat -> nat -> res A)
    (ids : list nat) (s : nat) (acc : list A) :
  shard_loop process 0 0 ids s acc = Ok acc.
Proof.
  induction ids as [|g rest IH]; [reflexivity|]. cbn [shard_loop]. simpl. exact IH.
Qed.

(** X20.  A batch without frames makes the multi-device path raise,
    whatever the extractor: every device is skipped and [torch.stack] gets
    an empty list. *)
Theorem forward_without_frames (self : DeepfakeDetector) (G : nat) (x : FrameBatch) (bs : Z) :
  (1 < G)%nat ->
  num_frames x = 0%nat ->
  forward self G x bs = Raise (RuntimeError "stack expects a non-empty TensorList").
Proof.
  intros HG HT. unfold forward.
  replace (Nat.leb G 1) with false by (symmetry; apply Nat.leb_gt; exact HG).
  rewrite HT.
  replace (0 / G)%nat with 0%nat by (symmetry; apply Nat.Div0.div_0_l).
  replace (0 mod G)%nat with 0%nat by (symmetry; apply Nat.Div0.mod_0_l).
  rewrite shard_loop_nothing. reflexivity.
Qed.

Lemma forward_without_frames_witness :
  forward toy_detector 2 (mkFrameBatch 0 [[]; []]) 2
  = Raise (RuntimeError "stack expects a non-empty TensorList").
Proof.
  apply (forward_without_frames toy_detector 2 (mkFrameBatch 0 [[]; []]) 2); [lia|reflexivity].
Defined.

End DispatcherMore.

(** * Further properties of the fusion and of the shard mean *)

Section FusionMore.

Local Open Scope R_scope.

(** The gate and the fused features of every video, in closed form. *)
Lemma gated_fusion_rows (self : DeepfakeDetector) (dama_feats tcm_feats : matrix) :
  length dama_feats = length tcm_feats ->
  Forall (fun row => length row = dama_dim self) dama_feats ->
  Forall (fun row => length row = dama_dim self) tcm_feats ->
  exists gate fused_feats,
    gated_fusion self dama_feats tcm_feats = Ok (gate, fused_feats) /\
    gate = map (fun p => gate_of self (fst p) (snd p)) (combine dama_feats tcm_feats) /\
    Forall (fun g => exists g0 g1, g = [g0; g1] /\ g0 + g1 = 1 /\ 0 < g0 /\ 0 < g1) gate /\
    fused_feats =
      map (fun gp =>
             map (fun xy => nth 0 (fst gp) 0 * fst xy + nth 1 (fst gp) 0 * snd xy)
                 (combine (fst (snd gp)) (snd (snd gp))))
          (combine gate (combine dama_feats tcm_feats)).
Proof.
  intros Hlen Hd Ht.
  set (l := combine dama_feats tcm_feats).
  assert (Hfst : map fst l = dama_feats) by (apply fst_combine; exact Hlen).
  assert (Hsnd : map snd l = tcm_feats) by (apply snd_combine; exact Hlen).
  assert (Hrows : Forall (fun p => length (fst p) = dama_dim self /\
                                   length (snd p) = dama_dim self) l).
  { apply List.Forall_forall. intros [u v] Hin. simpl.
    rewrite List.Forall_forall in Hd, Ht. split.
    - apply Hd. eapply in_combine_l; exact Hin.
    - apply Ht. eapply in_combine_r; exact Hin. }
  remember (map (fun p => gate_of self (fst p) (snd p)) l) as gate eqn:Egate.
  assert (Hgate : Forall (fun g => exists g0 g1,
                            g = [g0; g1] /\ g0 + g1 = 1 /\ 0 < g0 /\ 0 < g1) gate).
  { subst gate. apply List.Forall_forall. intros g Hin. apply in_map_iff in Hin.
    destruct Hin as (p & <- & _). apply gate_of_pair. }
  assert (Hwide : forall j, (j < 2)%nat -> Forall (fun row => (j < length row)%nat) gate).
  { intros j Hj. eapply List.Forall_impl; [|exact Hgate].
    intros g (g0 & g1 & -> & _). simpl. lia. }
  assert (Hgl : @length (list R) gate = length dama_feats).
  { subst gate. unfold l. rewrite List.length_map, List.length_combine. lia. }
  exists gate.
  eexists. split; [|split; [reflexivity|split; [exact Hgate|rewrite Egate]]].
  - unfold gated_fusion, cat_last. rewrite Hlen, Nat.eqb_refl. cbn [bind].
    fold l. unfold fusion_gate, linear.
    rewrite (map_res_total _ (gate_logits self)).
    2:{ apply List.Forall_forall. intros row Hin. apply in_map_iff in Hin.
        destruct Hin as (p & <- & Hin). rewrite List.Forall_forall in Hrows.
        destruct (Hrows p Hin) as [Hu Hv].
        apply linear_row_gate. rewrite List.length_app, Hu, Hv. lia. }
    cbn [bind]. unfold softmax_dim1. rewrite !map_map. fold (gate_of self).
    change (map (fun x => softmax_row (gate_logits self (fst x ++ snd x))) l)
      with (map (fun p => gate_of self (fst p) (snd p)) l).
    rewrite <- Egate.
    rewrite (column_pairs gate 0) by (apply Hwide; lia). cbn [bind].
    rewrite (column_pairs gate 1) by (apply Hwide; lia). cbn [bind].
    unfold scale_rows. rewrite !List.length_map.
    rewrite Hgl, Nat.eqb_refl. cbn [bind].
    rewrite Hlen, Nat.eqb_refl. cbn [bind].
    unfold madd. rewrite bool_decide_eq_true_2.
    + reflexivity.
    + rewrite <- Hfst, <- Hsnd.
      rewrite Egate. rewrite !map_map, !combine_map_both, !map_map. simpl.
      apply map_ext_in. intros p Hin. rewrite !List.length_map.
      rewrite List.Forall_forall in Hrows. destruct (Hrows p Hin) as [Hu Hv]. congruence.
  - rewrite combine_map_self.
    rewrite <- Hfst, <- Hsnd.
    rewrite !map_map, !combine_map_both, !map_map.
    rewrite combine_map_both, map_map.
    apply map_ext. intros p. cbn [fst snd].
    rewrite combine_map_each, map_map. reflexivity.
Qed.

(** X21.  The fused features have the shape of [dama_feats], and every
    fused entry lies between the entry of [dama_feats] and the entry of
    [tcm_feats] it mixes. *)
Theorem fused_between_streams (self : DeepfakeDetector) (dama_feats tcm_feats : matrix)
    (i j : nat) :
  length dama_feats = length tcm_feats ->
  Forall (fun row => length row = dama_dim self) dama_feats ->
  Forall (fun row => length row = dama_dim self) tcm_feats ->
  (i < length dama_feats)%nat ->
  (j < dama_dim self)%nat ->
  exists gate fused_feats,
    gated_fusion self dama_feats tcm_feats = Ok (gate, fused_feats) /\
    map (@length R) fused_feats = map (@length R) dama_feats /\
    Rmin (nth j (nth i dama_feats []) 0) (nth j (nth i tcm_feats []) 0)
    <= nth j (nth i fused_feats []) 0
    <= Rmax (nth j (nth i dama_feats []) 0) (nth j (nth i tcm_feats []) 0).
Proof.
  intros Hlen Hd Ht Hi Hj.
  destruct (gated_fusion_rows self dama_feats tcm_feats Hlen Hd Ht)
    as (gate & fused & Hrun & Egate & Hgate & Efused).
  exists gate, fused. split; [exact Hrun|].
  set (l := combine dama_feats tcm_feats) in *.
  assert (Hll : length l = length dama_feats)
    by (unfold l; rewrite List.length_combine; lia).
  assert (Hgl : length gate = length l) by (rewrite Egate; apply List.length_map).
  assert (Hrow : forall k, (k < length dama_feats)%nat ->
             length (nth k dama_feats []) = dama_dim self /\
             length (nth k tcm_feats []) = dama_dim self).
  { intros k Hk. rewrite List.Forall_forall in Hd, Ht. split.
    - apply Hd. apply nth_In. exact Hk.
    - apply Ht. apply nth_In. lia. }
  split.
  - rewrite Efused, map_map.
    transitivity (map (fun gp : vector * (vector * vector) => length (fst (snd gp)))
                      (combine gate l)).
    + apply map_ext_in. intros [g [u v]] Hin. cbn [fst snd].
      rewrite List.length_map, List.length_combine.
      apply in_combine_r in Hin. unfold l in Hin.
      rewrite List.Forall_forall in Hd, Ht.
      rewrite (Hd u (in_combine_l _ _ _ _ Hin)), (Ht v (in_combine_r _ _ _ _ Hin)).
      lia.
    + rewrite <- (map_map snd (fun p : vector * vector => length (fst p))).
      rewrite snd_combine by exact Hgl.
      rewrite <- (map_map fst (@length R)).
      unfold l. rewrite fst_combine by exact Hlen. reflexivity.
  - destruct (Hrow i Hi) as [Hdi Hti].
    rewrite Efused.
    rewrite (nth_map_lt _ (combine gate l) i ([], ([], []))) by
      (rewrite List.length_combine; lia).
    rewrite (combine_nth gate l i [] ([], [])) by exact Hgl. cbn [fst snd].
    assert (Hl : nth i l ([], []) = (nth i dama_feats [], nth i tcm_feats []))
      by (unfold l; apply combine_nth; exact Hlen).
    rewrite Hl. cbn [fst snd].
    rewrite (nth_map_lt _ _ j (0, 0)) by (rewrite List.length_combine; lia).
    rewrite combine_nth by congruence. cbn [fst snd].
    assert (Hg : exists g0 g1, nth i gate [] = [g0; g1] /\ g0 + g1 = 1 /\ 0 < g0 /\ 0 < g1).
    { rewrite List.Forall_forall in Hgate. apply Hgate. apply nth_In. lia. }
    destruct Hg as (g0 & g1 & -> & Hsum & H0 & H1). cbn [nth].
    set (a := nth j (nth i dama_feats []) 0). set (b := nth j (nth i tcm_feats []) 0).
    unfold Rmin, Rmax. destruct (Rle_dec a b); split; nra.
Qed.

Lemma fused_between_streams_witness :
  exists gate fused_feats,
    gated_fusion toy_detector [[1]] [[2]] = Ok (gate, fused_feats) /\
    map (@length R) fused_feats = map (@length R) [[1]] /\
    Rmin (nth 0 (nth 0 [[1]] []) 0) (nth 0 (nth 0 [[2]] []) 0)
    <= nth 0 (nth 0 fused_feats []) 0
    <= Rmax (nth 0 (nth 0 [[1]] []) 0) (nth 0 (nth 0 [[2]] []) 0).
Proof.
  apply (fused_between_streams toy_detector [[1]] [[2]] 0 0).
  - reflexivity.
  - repeat constructor.
  - repeat constructor.
  - simpl. lia.
  - simpl. lia.
Defined.

Lemma rsum_permutation (l l' : list R) : Permutation l l' -> rsum l = rsum l'.
Proof.
  induction 1 as [|x l l' _ IH|x y l|l l' l'' _ IH1 _ IH2]; cbn [rsum fold_right] in *.
  - reflexivity.
  - fold (rsum l) (rsum l') in *. lra.
  - lra.
  - congruence.
Qed.

Lemma forallb_permutation {A : Type} (f : A -> bool) (l l' : list A) :
  Permutation l l' -> forallb f l = forallb f l'.
Proof.
  induction 1 as [|x l l' _ IH|x y l|l l' l'' _ IH1 _ IH2]; cbn [forallb].
  - reflexivity.
  - rewrite IH. reflexivity.
  - destruct (f x), (f y); reflexivity.
  - congruence.
Qed.

(** X22.  The mean over the shards does not depend on their order:
    permuting the list of shard features changes neither the result nor
    the exception. *)
Theorem mean_stack_order_independent (ts ts' : list matrix) :
  Permutation ts ts' -> mean_stack ts = mean_stack ts'.
Proof.
  intros HP.
  destruct ts as [|t0 r].
  { apply Permutation_nil in HP. subst ts'. reflexivity. }
  destruct ts' as [|t0' r'].
  { symmetry in HP. apply Permutation_nil in HP. discriminate HP. }
  assert (Hsame : forall a b : matrix,
             bool_decide (map length a = map length b) = true -> map length a = map length b)
    by (intros a b Hb; apply bool_decide_eq_true in Hb; exact Hb).
  assert (Hin0 : In t0 (t0' :: r')).
  { eapply Permutation_in; [exact HP | left; reflexivity]. }
  unfold mean_stack.
  match goal with
  | |- (if forallb ?f _ then _ else _) = (if forallb ?g _ then _ else _) =>
      set (F := f); set (G := g)
  end.
  assert (HFG : forallb F (t0 :: r) = forallb G (t0' :: r')).
  { rewrite (forallb_permutation F _ _ HP).
    destruct (decide (map (@length R) t0' = map (@length R) t0)) as [Heq|Hne].
    - assert (Hext : forall u : list matrix, forallb F u = forallb G u).
      { induction u as [|t u IH]; cbn [forallb]; [reflexivity|].
        rewrite IH. unfold F, G. rewrite Heq. reflexivity. }
      apply Hext.
    - transitivity false.
      + cbn [forallb]. unfold F at 1. rewrite bool_decide_eq_false_2 by exact Hne.
        reflexivity.
      + symmetry. destruct (forallb G (t0' :: r')) eqn:E'; [|reflexivity].
        exfalso. apply Hne. symmetry. rewrite forallb_forall in E'.
        apply Hsame. exact (E' t0 Hin0). }
  rewrite HFG.
  destruct (forallb G (t0' :: r')) eqn:E; [|reflexivity].
  assert (Hshape : map (@length R) t0 = map (@length R) t0').
  { rewrite forallb_forall in E. apply Hsame. exact (E t0 Hin0). }
  f_equal.
  assert (Hlen0 : length t0 = length t0').
  { rewrite <- (List.length_map (@length R) t0), <- (List.length_map (@length R) t0').
    rewrite Hshape. reflexivity. }
  rewrite Hlen0. apply map_ext. intros i.
  assert (Hrow : @length R (nth i t0 []) = @length R (nth i t0' [])).
  { rewrite <- (map_nth (@length R) t0 [] i), <- (map_nth (@length R) t0' [] i).
    rewrite Hshape. reflexivity. }
  rewrite Hrow. apply map_ext. intros j.
  rewrite (rsum_permutation _ _ (Permutation_map (fun t => nth j (nth i t []) 0) HP)).
  rewrite (Permutation_length HP). reflexivity.
Qed.

Lemma mean_stack_order_independent_witness :
  mean_stack [[[1]]; [[2]]] = mean_stack [[[2]]; [[1]]].
Proof.
  apply (mean_stack_order_independent [[[1]]; [[2]]] [[[2]]; [[1]]]).
  apply perm_swap.
Defined.

End FusionMore.

(** * The epoch loop of the training script *)

Section MainMore.

Local Open Scope R_scope.

(** With the detector of model.py as the model, [train_epoch] raises on
    every loader: on a batch the forward pass raises or its output lacks
    the key the loss reads, and without a batch the averages divide by
    zero. *)
Lemma train_epoch_on_detector
    (roc_auc_score : list Z -> list R -> res R)
    (accuracy_score : list Z -> list Z -> res R)
    (self : DeepfakeDetector) (num_gpus : nat) (dataloader : list batch)
    (criterion : matrix -> matrix -> res tval) (bs accum_steps e m : Z) :
  exists err log,
    train_epoch roc_auc_score accuracy_score (call self num_gpus) dataloader criterion
                bs accum_steps e m = (Raise err, log).
Proof.
  unfold train_epoch. destruct dataloader as [|b rest].
  - cbn [train_loop]. destruct (Z.eqb accum_steps 0); [eauto|].
    cbn [dataset_len map fold_right]. unfold epoch_metrics. cbn [Nat.eqb]. eauto.
  - cbn [train_loop]. rewrite train_call_binds.
    destruct (forward self num_gpus (frames b) bs) as [outputs|err] eqn:Hf; cbn [bind];
      [|eauto].
    destruct (forward_outputs _ _ _ _ _ Hf) as (lg & df & tc & ->).
    assert (Hnone : (<["logits" := lg]> (<["dama_feats" := df]> (<["tcm_consistency" := tc]> ∅))
                     : gmap string matrix) !! "tcm_inconsistency" = None) by reflexivity.
    destruct (combined_loss_missing_key _ (labels b) criterion e m Hnone) as [err Herr].
    rewrite Herr. cbn [bind]. eauto.
Qed.

Lemma unfreeze_not_due_at_start (epochs : Z) : (0 < epochs)%Z -> unfreeze_due 0 epochs = false.
Proof.
  intros H. unfold unfreeze_due.
  destruct (Qle_bool (0.7 * inject_Z epochs) (inject_Z (Z.of_nat 0))) eqn:E; [|reflexivity].
  apply Qle_bool_iff in E. apply inject_Z_pos in H.
  change (inject_Z (Z.of_nat 0)) with 0%Q in E. exfalso. Lqa.lra.
Qed.

(** X23.  Run on the detector of model.py, the loop of [main] never
    writes [best_model.pth] nor a checkpoint: for a positive number of
    epochs it stops in epoch 0 with the exception of [train_epoch], before
    the validation; otherwise it has no epoch to run. *)
Theorem training_saves_nothing
    (roc_auc_score : list Z -> list R -> res R)
    (accuracy_score : list Z -> list Z -> res R)
    (self : DeepfakeDetector) (num_gpus : nat) (train_loader : list batch)
    (criterion : matrix -> matrix -> res tval) (bs accum_steps : Z)
    (val_epoch_at : nat -> res (gmap string tval))
    (unfreeze : nat -> res unit)
    (train_viz_update : nat -> gmap string tval -> gmap string tval -> res unit)
    (train_viz_plot_all : res unit) (epochs : Z) :
  exists result,
    main (fun epoch =>
            fst (train_epoch roc_auc_score accuracy_score (call self num_gpus) train_loader
                             criterion bs accum_steps (Z.of_nat epoch) epochs))
         val_epoch_at unfreeze train_viz_update train_viz_plot_all epochs
    = (mkOutcome 0 None [] [], result) /\
    ((0 < epochs)%Z ->
     exists err log,
       result = Some err /\
       train_epoch roc_auc_score accuracy_score (call self num_gpus) train_loader
                   criterion bs accum_steps 0 epochs = (Raise err, log)) /\
    ((epochs <= 0)%Z -> result = None).
Proof.
  unfold main. destruct (Z.to_nat epochs) as [|n] eqn:En.
  - exists None. split; [reflexivity|]. split; [lia|reflexivity].
  - assert (Hpos : (0 < epochs)%Z) by lia.
    destruct (train_epoch_on_detector roc_auc_score accuracy_score self num_gpus train_loader
                criterion bs accum_steps 0 epochs) as (err & log & Hrun).
    exists (Some err). split; [|split].
    + cbn [seq epoch_loop]. unfold main_epoch.
      rewrite (unfreeze_not_due_at_start epochs Hpos).
      change (Z.of_nat 0) with 0%Z. rewrite Hrun. reflexivity.
    + intros _. exists err, log. split; [reflexivity|exact Hrun].
    + lia.
Qed.

Variable train_epoch_at : nat -> res (gmap string tval).
Variable val_epoch_at : nat -> res (gmap string tval).
Variable unfreeze : nat -> res unit.
Variable train_viz_update : nat -> gmap string tval -> gmap string tval -> res unit.
Variable train_viz_plot_all : res unit.
Variable epochs : Z.
Variable auc : nat -> R.

Lemma running_best_nonneg (n : nat) : 0 <= running_best auc n.
Proof.
  induction n as [|n IH]; cbn [running_best]; [lra|].
  unfold Rmax. destruct (Rle_dec _ _); lra.
Qed.

Lemma running_best_ge (n e : nat) : (e < n)%nat -> auc e <= running_best auc n.
Proof.
  induction n as [|n IH]; [lia|]. intros He. cbn [running_best].
  unfold Rmax. destruct (Rle_dec _ _) as [Hle|Hgt].
  - destruct (Nat.eq_dec e n) as [->|Hne]; [lra|].
    assert (auc e <= running_best auc n) by (apply IH; lia). lra.
  - destruct (Nat.eq_dec e n) as [->|Hne]; [lra|]. apply IH. lia.
Qed.

Lemma epoch_loop_app (l1 l2 : list nat) (st : outcome) :
  epoch_loop train_epoch_at val_epoch_at unfreeze train_viz_update train_viz_plot_all
             epochs (l1 ++ l2) st
  = match epoch_loop train_epoch_at val_epoch_at unfreeze train_viz_update train_viz_plot_all
                     epochs l1 st with
    | (st', Some err) => (st', Some err)
    | (st', None) =>
        epoch_loop train_epoch_at val_epoch_at unfreeze train_viz_update train_viz_plot_all
                   epochs l2 st'
    end.
Proof.
  revert st. induction l1 as [|e l1 IH]; intros st; cbn [app epoch_loop]; [reflexivity|].
  destruct (main_epoch _ _ _ _ _ epochs st e) as [st' [err|]]; [reflexivity|apply IH].
Qed.

(** An epoch that goes through: the best AUC, the best model and the
    checkpoint it leaves. *)
Lemma main_epoch_completes (st : outcome) (epoch : nat) (a : R) :
  epoch_completes train_epoch_at val_epoch_at unfreeze train_viz_update train_viz_plot_all
                  epoch a ->
  exists st',
    main_epoch train_epoch_at val_epoch_at unfreeze train_viz_update train_viz_plot_all
               epochs st epoch = (st', None) /\
    best_val_auc st' = Rmax (best_val_auc st) a /\
    best_model st' = (if Rlt_dec (best_val_auc st) a then Some epoch else best_model st) /\
    checkpoints st' = checkpoints st ++ [(epoch, Rmax (best_val_auc st) a)].
Proof.
  intros (Hun & tm & vm & Htrain & Hval & Hauc & Hprint & Hviz & Hplot).
  unfold main_epoch. rewrite Hun, Htrain, Hval.
  unfold getitem at 1. rewrite Hauc, Hprint, Hviz, Hplot.
  assert (Hmax : forall b, Rmax b a = if Rlt_dec b a then a else b).
  { intros b. unfold Rmax. destruct (Rle_dec b a), (Rlt_dec b a); lra. }
  rewrite Hmax. unfold gt.
  destruct (unfreeze_due epoch epochs), (Nat.eqb ((epoch + 1) mod 2) 0);
    cbn [best_val_auc best_model checkpoints unfrozen];
    destruct (Rlt_dec (best_val_auc st) a);
    cbn [best_val_auc best_model checkpoints unfrozen];
    eexists; (split; [reflexivity|]); cbn [best_val_auc best_model checkpoints unfrozen];
    repeat split; reflexivity.
Qed.

(** The state of the loop after [n] epochs that go through. *)
Lemma epoch_loop_completes (n : nat) :
  (forall e, (e < n)%nat ->
     epoch_completes train_epoch_at val_epoch_at unfreeze train_viz_update train_viz_plot_all
                     e (auc e)) ->
  exists st,
    epoch_loop train_epoch_at val_epoch_at unfreeze train_viz_update train_viz_plot_all
               epochs (seq 0 n) (mkOutcome 0 None [] []) = (st, None) /\
    best_val_auc st = running_best auc n /\
    checkpoints st = map (fun e => (e, running_best auc (S e))) (seq 0 n) /\
    match best_model st with
    | None => running_best auc n = 0
    | Some b =>
        (b < n)%nat /\ auc b = running_best auc n /\ 0 < auc b /\
        (forall e, (e < b)%nat -> auc e < auc b)
    end.
Proof.
  induction n as [|n IH]; intros Hall.
  - eexists. split; [reflexivity|]. cbn. repeat split; reflexivity.
  - destruct IH as (st & Hrun & Hbest & Hcps & Hmodel); [intros e He; apply Hall; lia|].
    destruct (main_epoch_completes st n (auc n) (Hall n ltac:(lia)))
      as (st' & Hstep & Hbest' & Hmodel' & Hcps').
    exists st'. split; [|split; [|split]].
    + rewrite seq_S, epoch_loop_app, Hrun. cbn [Nat.add epoch_loop]. rewrite Hstep.
      reflexivity.
    + rewrite Hbest', Hbest. reflexivity.
    + rewrite Hcps', Hcps, Hbest, seq_S, map_app. reflexivity.
    + rewrite Hmodel'. rewrite Hbest. cbn [running_best].
      pose proof (running_best_nonneg n) as Hnn.
      unfold Rmax. destruct (Rlt_dec (running_best auc n) (auc n)) as [Hlt|Hge].
      * destruct (Rle_dec (running_best auc n) (auc n)); [|lra].
        split; [lia|]. split; [reflexivity|]. split; [lra|].
        intros e He. pose proof (running_best_ge n e He). lra.
      * destruct (Rle_dec (running_best auc n) (auc n)) as [Hle|Hgt].
        -- assert (Heq : auc n = running_best auc n) by lra.
           destruct (best_model st) as [b|].
           ++ destruct Hmodel as (Hb & Hab & Hpos & Hfirst).
              split; [lia|]. split; [lra|]. split; [exact Hpos|exact Hfirst].
           ++ lra.
        -- destruct (best_model st) as [b|].
           ++ destruct Hmodel as (Hb & Hab & Hpos & Hfirst).
              split; [lia|]. split; [exact Hab|]. split; [exact Hpos|exact Hfirst].
           ++ exact Hmodel.
Qed.

(** X24.  When every epoch goes through, [best_val_auc] ends as the
    largest of 0 and the validation AUCs, the checkpoint of each epoch
    records the best AUC so far, and [best_model.pth] holds the parameters
    of the first epoch that reached the largest AUC: a later epoch with the
    same AUC does not replace it, and the file is not written at all when
    no AUC is above 0. *)
Theorem best_model_is_first_best_epoch :
  (forall e, (e < Z.to_nat epochs)%nat ->
     epoch_completes train_epoch_at val_epoch_at unfreeze train_viz_update train_viz_plot_all
                     e (auc e)) ->
  exists st,
    main train_epoch_at val_epoch_at unfreeze train_viz_update train_viz_plot_all epochs
    = (st, None) /\
    best_val_auc st = running_best auc (Z.to_nat epochs) /\
    checkpoints st
    = map (fun e => (e, running_best auc (S e))) (seq 0 (Z.to_nat epochs)) /\
    match best_model st with
    | None => forall e, (e < Z.to_nat epochs)%nat -> auc e <= 0
    | Some b =>
        (b < Z.to_nat epochs)%nat /\ 0 < auc b /\
        (forall e, (e < Z.to_nat epochs)%nat -> auc e <= auc b) /\
        (forall e, (e < b)%nat -> auc e < auc b)
    end.
Proof.
  intros Hall.
  destruct (epoch_loop_completes (Z.to_nat epochs) Hall) as (st & Hrun & Hbest & Hcps & Hmodel).
  exists st. split; [exact Hrun|]. split; [exact Hbest|]. split; [exact Hcps|].
  destruct (best_model st) as [b|].
  - destruct Hmodel as (Hb & Hab & Hpos & Hfirst).
    split; [exact Hb|]. split; [exact Hpos|]. split; [|exact Hfirst].
    intros e He. rewrite Hab. apply running_best_ge. exact He.
  - intros e He. rewrite <- Hmodel. apply running_best_ge. exact He.
Qed.

(** X25.  When [train_epoch] raises in epoch [k] after [k] epochs that
    went through, the loop stops with that exception, and what it leaves
    is what those [k] epochs wrote: their checkpoints, each with the best
    AUC so far. *)
Theorem interrupted_training_keeps_checkpoints (k : nat) (err : exn) :
  (k < Z.to_nat epochs)%nat ->
  (forall e, (e < k)%nat ->
     epoch_completes train_epoch_at val_epoch_at unfreeze train_viz_update train_viz_plot_all
                     e (auc e)) ->
  unfreeze k = Ok tt ->
  train_epoch_at k = Raise err ->
  exists st,
    main train_epoch_at val_epoch_at unfreeze train_viz_update train_viz_plot_all epochs
    = (st, Some err) /\
    best_val_auc st = running_best auc k /\
    checkpoints st = map (fun e => (e, running_best auc (S e))) (seq 0 k).
Proof.
  intros Hk Hall Hun Htrain.
  destruct (epoch_loop_completes k Hall) as (st & Hrun & Hbest & Hcps & _).
  unfold main.
  replace (Z.to_nat epochs) with (k + S (Z.to_nat epochs - S k))%nat by lia.
  rewrite seq_app, epoch_loop_app, Hrun. cbn [Nat.add seq epoch_loop].
  unfold main_epoch. rewrite Hun, Htrain.
  destruct (unfreeze_due k epochs); eexists; (split; [reflexivity|]);
    cbn [best_val_auc checkpoints]; split; assumption.
Qed.

End MainMore.

Lemma best_model_is_first_best_epoch_witness :
  exists st,
    main (fun _ => Ok (metrics_with_auc 0)) (fun _ => Ok (metrics_with_auc (1 / 2)))
         (fun _ => Ok tt) (fun _ _ _ => Ok tt) (Ok tt) 2
    = (st, None) /\
    best_val_auc st = running_best (fun _ => (1 / 2)%R) (Z.to_nat 2) /\
    checkpoints st
    = map (fun e => (e, running_best (fun _ => (1 / 2)%R) (S e))) (seq 0 (Z.to_nat 2)) /\
    match best_model st with
    | None => forall e, (e < Z.to_nat 2)%nat -> (1 / 2 <= 0)%R
    | Some b =>
        (b < Z.to_nat 2)%nat /\ (0 < 1 / 2)%R /\
        (forall e, (e < Z.to_nat 2)%nat -> (1 / 2 <= 1 / 2)%R) /\
        (forall e, (e < b)%nat -> (1 / 2 < 1 / 2)%R)
    end.
Proof.
  apply (best_model_is_first_best_epoch
           (fun _ => Ok (metrics_with_auc 0)) (fun _ => Ok (metrics_with_auc (1 / 2)))
           (fun _ => Ok tt) (fun _ _ _ => Ok tt) (Ok tt) 2 (fun _ => (1 / 2)%R)).
  intros e _. unfold epoch_completes. split; [reflexivity|].
  exists (metrics_with_auc 0), (metrics_with_auc (1 / 2)).
  repeat split; reflexivity.
Defined.

Lemma interrupted_training_keeps_checkpoints_witness :
  exists st,
    main (fun e => match e with
                   | O => Ok (metrics_with_auc 0)
                   | _ => Raise (RuntimeError "CUDA out of memory")
                   end)
         (fun _ => Ok (metrics_with_auc (1 / 2)))
         (fun _ => Ok tt) (fun _ _ _ => Ok tt) (Ok tt) 3
    = (st, Some (RuntimeError "CUDA out of memory")) /\
    best_val_auc st = running_best (fun _ => (1 / 2)%R) 1 /\
    checkpoints st = map (fun e => (e, running_best (fun _ => (1 / 2)%R) (S e))) (seq 0 1).
Proof.
  apply (interrupted_training_keeps_checkpoints
           (fun e => match e with
                     | O => Ok (metrics_with_auc 0)
                     | _ => Raise (RuntimeError "CUDA out of memory")
                     end)
           (fun _ => Ok (metrics_with_auc (1 / 2)))
           (fun _ => Ok tt) (fun _ _ _ => Ok tt) (Ok tt) 3 (fun _ => (1 / 2)%R)
           1%nat (RuntimeError "CUDA out of memory")).
  - simpl. lia.
  - intros e He. assert (e = 0%nat) as -> by lia.
    unfold epoch_completes. split; [reflexivity|].
    exists (metrics_with_auc 0), (metrics_with_auc (1 / 2)).
    repeat split; reflexivity.
  - reflexivity.
  - reflexivity.
Defined.

(** * The smoke test *)

Section SmokeTest.

(** X26.  [test_model] returns [False] on every input: whatever the
    dataset and the checks of the sub-modules do, the body of its [try]
    cannot get past the call [model(frames, batch_size=..., ablation=...)]
    of line 155, which [forward] rejects. *)
Theorem test_model_reports_failure
    (load_samples : res (FrameBatch * list Z))
    (check_modules : FrameBatch -> res unit)
    (criterion : matrix -> matrix -> res tval)
    (self : DeepfakeDetector) (num_gpus : nat) (max_epoch : Z) :
  test_model load_samples check_modules criterion (call self num_gpus) max_epoch = false.
Proof.
  unfold test_model.
  destruct load_samples as [[frames labels]|err]; cbn [bind]; [|reflexivity].
  destruct (check_modules frames) as [[]|err]; cbn [bind]; reflexivity.
Qed.

End SmokeTest.
